(** * OpenVDB archive I/O: a shallow embedding of [io/Archive.cc] and [Grid.cc]

    The development follows the two translation units:

    - [Grid.cc]: the grid-class string codec and the metadata-backed
      accessors of [GridBase];
    - [io/Archive.cc]: the per-stream slots ([iword]/[pword]), the
      [StreamMetadata] plumbing, the header codec, per-grid compression,
      per-grid read and write, instance detection and reconnection.

    Machine integers are [Z] with the wrap-around written out, C [char]s are
    [ascii], [std::string] is [string], [std::map]/[std::set] are stdpp's
    [gmap]/[gset].  Code that lives in headers or translation units other
    than the two above (constants of [version.h] and [Compression.h], string
    helpers of [util/Name.h], [GridDescriptor], the tree and metadata
    classes) enters through the classes [Constants], [Helpers] and
    [Collaborators]. *)

From Stdlib Require Import ZArith List String Ascii Bool Lia.
From stdpp Require Import base gmap strings list pretty.
Import ListNotations.

Local Open Scope string_scope.
Local Open Scope list_scope.
Local Open Scope Z_scope.

(** ** Machine integers and raw bytes *)

Module Mach.

(** Reduction of an integer to an unsigned [w]-bit word. *)
Definition wrap (w : Z) (z : Z) : Z := z mod 2 ^ w.

Definition uint32 (z : Z) : Z := wrap 32 z.
Definition uint64 (z : Z) : Z := wrap 64 z.

(** Two's-complement reading of the low [w] bits of [z]. *)
Definition to_signed (w : Z) (z : Z) : Z :=
  let u := wrap w z in if u <? 2 ^ (w - 1) then u else u - 2 ^ w.

Definition int64 (z : Z) : Z := to_signed 64 z.

(** [long] of the LP64 platforms the library is built for; the sentinel
    [StreamState::MAGIC_NUMBER] only fits such a [long]. *)
Definition long (z : Z) : Z := to_signed 64 z.

(** A C [char] holds one byte. *)
Definition char_val (c : ascii) : Z := Z.of_N (N_of_ascii c).
Definition char_of (z : Z) : ascii := ascii_of_N (Z.to_N (z mod 256)).

(** [char] is signed on the reference platforms. *)
Definition schar_val (c : ascii) : Z := to_signed 8 (char_val c).

(** Little-endian object representation, as [reinterpret_cast<char*>]
    exposes it. *)
Fixpoint le_decode (bs : list ascii) : Z :=
  match bs with
  | [] => 0
  | b :: bs' => char_val b + 256 * le_decode bs'
  end.

Fixpoint le_encode (n : nat) (z : Z) : list ascii :=
  match n with
  | O => []
  | S n' => char_of z :: le_encode n' (z / 256)
  end.

(** Conversion of a NUL-terminated buffer to [std::string]: the characters
    before the first NUL. *)
Fixpoint cstring (bs : list ascii) : string :=
  match bs with
  | [] => ""
  | b :: bs' => if Ascii.eqb b "000"%char then "" else String b (cstring bs')
  end.

End Mach.
Import Mach.

(** ** Constants and helpers declared outside the two translation units *)

(** Numeric constants of [version.h] and [Compression.h], and the two build
    switches that select [Archive::DEFAULT_COMPRESSION_FLAGS]. *)
Class Constants := {
  OPENVDB_MAGIC : Z;
  OPENVDB_FILE_VERSION : Z;
  OPENVDB_LIBRARY_MAJOR_VERSION : Z;
  OPENVDB_LIBRARY_MINOR_VERSION : Z;
  OPENVDB_FILE_VERSION_GRID_INSTANCING : Z;
  OPENVDB_FILE_VERSION_BOOST_UUID : Z;
  OPENVDB_FILE_VERSION_NO_GRIDMAP : Z;
  OPENVDB_FILE_VERSION_SELECTIVE_COMPRESSION : Z;
  OPENVDB_FILE_VERSION_NODE_MASK_COMPRESSION : Z;
  OPENVDB_FILE_VERSION_BLOSC_COMPRESSION : Z;
  COMPRESS_ZIP : Z;
  COMPRESS_ACTIVE_MASK : Z;
  COMPRESS_BLOSC : Z;
  OPENVDB_USE_BLOSC : bool;
  OPENVDB_USE_ZLIB : bool;
}.

(** Modelled from the spec: the [COMPRESS_NONE] enumerator of
    [Compression.h]; the compression flag set has [NONE=0]. *)
Definition COMPRESS_NONE : Z := 0.

(** Pure helpers of [util/Name.h], [GridDescriptor.cc] and [Compression.cc]. *)
Class Helpers := {
  trim : string -> string;
  to_lower : string -> string;
  addSuffix : string -> Z -> string;
  stripSuffix : string -> string;
  nameAsString : string -> string;
  compressionToString : Z -> string;
}.

(** ** [Types.h]: the grid class enumeration *)

(** Modelled from the spec: the [GridClass] enum of [Types.h], with the four
    values [UNKNOWN, LEVEL_SET, FOG_VOLUME, STAGGERED] in that order. *)
Inductive GridClass : Type :=
| GRID_UNKNOWN
| GRID_LEVEL_SET
| GRID_FOG_VOLUME
| GRID_STAGGERED.

#[global] Instance GridClass_eq_dec : EqDecision GridClass.
Proof. solve_decision. Defined.

(** The enumerators' integer values. *)
Definition GridClass_val (c : GridClass) : Z :=
  match c with
  | GRID_UNKNOWN => 0
  | GRID_LEVEL_SET => 1
  | GRID_FOG_VOLUME => 2
  | GRID_STAGGERED => 3
  end.

(** Modelled from the spec: [NUM_GRID_CLASSES] of [Types.h], the number of
    grid classes. *)
Definition NUM_GRID_CLASSES : Z := GridClass_val GRID_STAGGERED + 1.

(** ** [Metadata.h], [MetaMap.h]: what the archive consumes of them *)

(** A metadata value seen through its virtual interface: the registered type
    name, the printed form and the boolean reading; [payload] stands for the
    serialized value. *)
Record Metadata : Type := mkMetadata {
  typeName : string;
  str : string;
  asBool : bool;
  payload : list Z;
}.

Definition StringMetadata (value : string) : Metadata :=
  mkMetadata "string" value (negb (String.eqb value "")) [].

Definition BoolMetadata (value : bool) : Metadata :=
  mkMetadata "bool" (if value then "true" else "false") value [].

Definition Vec3IMetadata (v : Z * Z * Z) : Metadata :=
  let '(x, y, z) := v in
  mkMetadata "vec3i" ("[" ++ pretty x ++ ", " ++ pretty y ++ ", " ++ pretty z ++ "]")%string
    (negb (bool_decide (v = (0, 0, 0)))) [x; y; z].

Definition Int64Metadata (value : Z) : Metadata :=
  mkMetadata "int64" (pretty value) (negb (value =? 0)) [value].

(** An empty [DelayedLoadMetadata]. *)
Definition DelayedLoadMetadata : Metadata :=
  mkMetadata "__delayedload" "" false [].

(** [MetaMap] is a [std::map<Name, Metadata::Ptr>]. *)
Abbreviation MetaMap := (gmap string Metadata).

(** [MetaMap::getMetadata<StringMetadata>]: the entry, when it exists and
    has the string type. *)
Definition getStringMetadata (m : MetaMap) (name : string) : option string :=
  match m !! name with
  | Some md => if String.eqb (typeName md) "string" then Some (str md) else None
  | None => None
  end.

(** ** [Grid.cc] *)

(** A tree is an external collaborator; only its identity (the address held
    by a grid) and an opaque content matter to the archive. *)
Record TreeBase : Type := mkTree {
  treeType : string;
  voxels : list Z;
}.

(** A grid: its metadata map (the [MetaMap] base class), its registered type
    name, an opaque transform and the address of its tree. *)
Record GridBase : Type := mkGrid {
  gmeta : MetaMap;
  gtype : string;
  gtransform : list Z;
  gtree : nat;
}.

Definition set_gmeta (m : MetaMap) (g : GridBase) : GridBase :=
  mkGrid m (gtype g) (gtransform g) (gtree g).

Definition insertMeta (name : string) (md : Metadata) (g : GridBase) : GridBase :=
  set_gmeta (<[name := md]> (gmeta g)) g.

Definition removeMeta (name : string) (g : GridBase) : GridBase :=
  set_gmeta (delete name (gmeta g)) g.

Module Grid.

Definition META_GRID_CLASS := "class".
Definition META_GRID_CREATOR := "creator".
Definition META_GRID_NAME := "name".
Definition META_SAVE_HALF_FLOAT := "is_saved_as_half_float".
Definition META_IS_LOCAL_SPACE := "is_local_space".
Definition META_VECTOR_TYPE := "vector_type".
Definition META_FILE_BBOX_MIN := "file_bbox_min".
Definition META_FILE_BBOX_MAX := "file_bbox_max".
Definition META_FILE_COMPRESSION := "file_compression".
Definition META_FILE_MEM_BYTES := "file_mem_bytes".
Definition META_FILE_VOXEL_COUNT := "file_voxel_count".
Definition META_FILE_DELAYED_LOAD := "file_delayed_load".

Definition gridClassToString (cls : GridClass) : string :=
  match cls with
  | GRID_UNKNOWN => "unknown"
  | GRID_LEVEL_SET => "level set"
  | GRID_FOG_VOLUME => "fog volume"
  | GRID_STAGGERED => "staggered"
  end.

Definition gridClassToMenuName (cls : GridClass) : string :=
  match cls with
  | GRID_UNKNOWN => "Other"
  | GRID_LEVEL_SET => "Level Set"
  | GRID_FOG_VOLUME => "Fog Volume"
  | GRID_STAGGERED => "Staggered Vector Field"
  end.

Section WithHelpers.
Context `{Helpers}.

Definition stringToGridClass (s : string) : GridClass :=
  let str := to_lower (trim s) in
  if String.eqb str (gridClassToString GRID_LEVEL_SET) then GRID_LEVEL_SET
  else if String.eqb str (gridClassToString GRID_FOG_VOLUME) then GRID_FOG_VOLUME
  else if String.eqb str (gridClassToString GRID_STAGGERED) then GRID_STAGGERED
  else GRID_UNKNOWN.

Definition getGridClass (g : GridBase) : GridClass :=
  match getStringMetadata (gmeta g) META_GRID_CLASS with
  | Some s => stringToGridClass s
  | None => GRID_UNKNOWN
  end.

End WithHelpers.

Definition setGridClass (cls : GridClass) (g : GridBase) : GridBase :=
  insertMeta META_GRID_CLASS (StringMetadata (gridClassToString cls)) g.

Definition clearGridClass (g : GridBase) : GridBase :=
  removeMeta META_GRID_CLASS g.

Definition getName (g : GridBase) : string :=
  match gmeta g !! META_GRID_NAME with
  | Some md => str md
  | None => ""
  end.

Definition setName (name : string) (g : GridBase) : GridBase :=
  insertMeta META_GRID_NAME (StringMetadata name) (removeMeta META_GRID_NAME g).

Definition saveFloatAsHalf (g : GridBase) : bool :=
  match gmeta g !! META_SAVE_HALF_FLOAT with
  | Some md => asBool md
  | None => false
  end.

Definition setSaveFloatAsHalf (saveAsHalf : bool) (g : GridBase) : GridBase :=
  insertMeta META_SAVE_HALF_FLOAT (BoolMetadata saveAsHalf)
    (removeMeta META_SAVE_HALF_FLOAT g).

(** Results of the tree queries [addStatsMetadata] makes:
    [evalActiveVoxelBoundingBox], [memUsage], [activeVoxelCount]. *)
Record TreeStats : Type := mkTreeStats {
  bbox_min : Z * Z * Z;
  bbox_max : Z * Z * Z;
  memUsage : Z;
  activeVoxelCount : Z;
}.

Definition addStatsMetadata (st : TreeStats) (g : GridBase) : GridBase :=
  let g := removeMeta META_FILE_BBOX_MIN g in
  let g := removeMeta META_FILE_BBOX_MAX g in
  let g := removeMeta META_FILE_MEM_BYTES g in
  let g := removeMeta META_FILE_VOXEL_COUNT g in
  let g := insertMeta META_FILE_BBOX_MIN (Vec3IMetadata (bbox_min st)) g in
  let g := insertMeta META_FILE_BBOX_MAX (Vec3IMetadata (bbox_max st)) g in
  let g := insertMeta META_FILE_MEM_BYTES (Int64Metadata (memUsage st)) g in
  insertMeta META_FILE_VOXEL_COUNT (Int64Metadata (activeVoxelCount st)) g.

(** *** The remaining metadata-backed accessors *)

Definition getCreator (g : GridBase) : string :=
  match gmeta g !! META_GRID_CREATOR with
  | Some md => str md
  | None => ""
  end.

Definition setCreator (creator : string) (g : GridBase) : GridBase :=
  insertMeta META_GRID_CREATOR (StringMetadata creator)
    (removeMeta META_GRID_CREATOR g).

Definition isInWorldSpace (g : GridBase) : bool :=
  let local := match gmeta g !! META_IS_LOCAL_SPACE with
               | Some md => asBool md
               | None => false
               end in
  negb local.

Definition setIsInWorldSpace (world : bool) (g : GridBase) : GridBase :=
  insertMeta META_IS_LOCAL_SPACE (BoolMetadata (negb world))
    (removeMeta META_IS_LOCAL_SPACE g).

(** [getStatsMetadata]: a new map with those of the four statistics fields
    the grid has. *)
Definition getStatsMetadata (g : GridBase) : MetaMap :=
  fold_left (fun ret field =>
               match gmeta g !! field with
               | Some m => <[field := m]> ret
               | None => ret
               end)
    [META_FILE_BBOX_MIN; META_FILE_BBOX_MAX; META_FILE_MEM_BYTES;
     META_FILE_VOXEL_COUNT] ∅.

(** *** The vector type codec *)

(** Modelled from the spec: the [VecType] enum of [Types.h], whose five
    values carry the strings [invariant], [covariant],
    [covariant normalize], [contravariant relative],
    [contravariant absolute]. *)
Inductive VecType : Type :=
| VEC_INVARIANT
| VEC_COVARIANT
| VEC_COVARIANT_NORMALIZE
| VEC_CONTRAVARIANT_RELATIVE
| VEC_CONTRAVARIANT_ABSOLUTE.

Definition vecTypeToString (typ : VecType) : string :=
  match typ with
  | VEC_INVARIANT => "invariant"
  | VEC_COVARIANT => "covariant"
  | VEC_COVARIANT_NORMALIZE => "covariant normalize"
  | VEC_CONTRAVARIANT_RELATIVE => "contravariant relative"
  | VEC_CONTRAVARIANT_ABSOLUTE => "contravariant absolute"
  end.

Definition vecTypeExamples (typ : VecType) : string :=
  match typ with
  | VEC_INVARIANT => "Tuple/Color/UVW"
  | VEC_COVARIANT => "Gradient/Normal"
  | VEC_COVARIANT_NORMALIZE => "Unit Normal"
  | VEC_CONTRAVARIANT_RELATIVE => "Displacement/Velocity/Acceleration"
  | VEC_CONTRAVARIANT_ABSOLUTE => "Position"
  end.

Section VecTypeWithHelpers.
Context `{Helpers}.

Definition stringToVecType (s : string) : VecType :=
  let str := to_lower (trim s) in
  if String.eqb str (vecTypeToString VEC_COVARIANT) then VEC_COVARIANT
  else if String.eqb str (vecTypeToString VEC_COVARIANT_NORMALIZE)
       then VEC_COVARIANT_NORMALIZE
  else if String.eqb str (vecTypeToString VEC_CONTRAVARIANT_RELATIVE)
       then VEC_CONTRAVARIANT_RELATIVE
  else if String.eqb str (vecTypeToString VEC_CONTRAVARIANT_ABSOLUTE)
       then VEC_CONTRAVARIANT_ABSOLUTE
  else VEC_INVARIANT.

Definition getVectorType (g : GridBase) : VecType :=
  match getStringMetadata (gmeta g) META_VECTOR_TYPE with
  | Some s => stringToVecType s
  | None => VEC_INVARIANT
  end.

End VecTypeWithHelpers.

Definition setVectorType (typ : VecType) (g : GridBase) : GridBase :=
  insertMeta META_VECTOR_TYPE (StringMetadata (vecTypeToString typ)) g.

Definition clearVectorType (g : GridBase) : GridBase :=
  removeMeta META_VECTOR_TYPE g.

End Grid.

(** ** Streams: [std::ios_base] with the library's slots *)

(** The slot indices reserved by [StreamState]'s constructor through
    [std::ios_base::xalloc]: one distinct index per member. *)
Module StreamState.

Inductive index : Type :=
| magicNumber
| fileVersion
| libraryMajorVersion
| libraryMinorVersion
| dataCompression
| writeGridStatsMetadata
| gridBackground
| gridClass
| halfFloat
| mappedFile
| metadata.

#[global] Instance index_eq_dec : EqDecision index.
Proof. solve_decision. Defined.

End StreamState.

(** Update of a total store at one key. *)
Definition upd {K V : Type} `{EqDecision K} (f : K -> V) (k : K) (v : V) : K -> V :=
  fun k' => if decide (k' = k) then v else f k'.

(** A stream: the [long] and [void*] arrays indexed by slot ([None] is the
    null pointer, [Some a] the address [a]), the state flag, the characters
    still to be extracted, and the put area with its position. *)
Record ios_base : Type := mkStream {
  iword : StreamState.index -> Z;
  pword : StreamState.index -> option nat;
  good : bool;
  gbuf : list ascii;
  pbuf : list ascii;
  ppos : nat;
}.

Definition set_iword (i : StreamState.index) (v : Z) (s : ios_base) : ios_base :=
  mkStream (upd (iword s) i v) (pword s) (good s) (gbuf s) (pbuf s) (ppos s).

Definition set_pword (i : StreamState.index) (v : option nat) (s : ios_base) : ios_base :=
  mkStream (iword s) (upd (pword s) i v) (good s) (gbuf s) (pbuf s) (ppos s).

(** [std::istream::read(buf, n)]: on a good stream holding [n] characters,
    they are extracted into the buffer; otherwise what is left is extracted,
    the rest of the buffer keeps its previous content [buf] and the stream
    fails.  A failed stream extracts nothing. *)
Definition istream_read (n : nat) (buf : list ascii) (s : ios_base) : list ascii * ios_base :=
  if good s then
    if (n <=? length (gbuf s))%nat then
      (take n (gbuf s),
       mkStream (iword s) (pword s) true (drop n (gbuf s)) (pbuf s) (ppos s))
    else
      (gbuf s ++ drop (length (gbuf s)) buf,
       mkStream (iword s) (pword s) false [] (pbuf s) (ppos s))
  else (buf, s).

(** [std::ostream::write]: the characters overwrite the put area from the
    put position on, extending it at its end. *)
Definition ostream_write (bs : list ascii) (s : ios_base) : ios_base :=
  if good s then
    mkStream (iword s) (pword s) true (gbuf s)
      (take (ppos s) (pbuf s) ++ bs ++ drop (ppos s + length bs) (pbuf s))
      (ppos s + length bs)
  else s.

Definition tellp (s : ios_base) : Z :=
  if good s then Z.of_nat (ppos s) else -1.

(** [seekp(off, std::ios_base::beg)]; a position outside the put area fails
    the stream. *)
Definition seekp (off : Z) (s : ios_base) : ios_base :=
  if good s then
    if (0 <=? off) && (off <=? Z.of_nat (length (pbuf s))) then
      mkStream (iword s) (pword s) true (gbuf s) (pbuf s) (Z.to_nat off)
    else mkStream (iword s) (pword s) false (gbuf s) (pbuf s) (ppos s)
  else s.

(** ** [StreamMetadata] *)

Module StreamMetadata.

Section WithConstants.
Context `{Constants}.

Record Impl : Type := mkImpl {
  mFileVersion : Z;
  mLibraryVersion : Z * Z;
  mCompression : Z;
  mGridClass : Z;
  mBackgroundPtr : option nat;
  mHalfFloat : bool;
  mWriteGridStats : bool;
  mSeekable : bool;
  mCountingPasses : bool;
  mPass : Z;
  mGridMetadata : MetaMap;
  mAuxData : gmap string (list Z);
  mDelayedLoadMeta : bool;
  mLeaf : Z;
  mTest : Z;
}.

(** The default member initializers; [registered] is the answer of
    [DelayedLoadMetadata::isRegisteredType()] at construction. *)
Definition new_Impl (registered : bool) : Impl :=
  mkImpl OPENVDB_FILE_VERSION
    (OPENVDB_LIBRARY_MAJOR_VERSION, OPENVDB_LIBRARY_MINOR_VERSION)
    COMPRESS_NONE (GridClass_val GRID_UNKNOWN) None
    false false false false 0 ∅ ∅ registered 0 0.

Definition setFileVersion (v : Z) (m : Impl) : Impl :=
  let 'mkImpl _ b c d e f g h i j k l n o p := m in mkImpl v b c d e f g h i j k l n o p.
Definition setLibraryVersion (v : Z * Z) (m : Impl) : Impl :=
  let 'mkImpl a _ c d e f g h i j k l n o p := m in mkImpl a v c d e f g h i j k l n o p.
Definition setCompression (v : Z) (m : Impl) : Impl :=
  let 'mkImpl a b _ d e f g h i j k l n o p := m in mkImpl a b v d e f g h i j k l n o p.
Definition setGridClass (v : Z) (m : Impl) : Impl :=
  let 'mkImpl a b c _ e f g h i j k l n o p := m in mkImpl a b c v e f g h i j k l n o p.
Definition setBackgroundPtr (v : option nat) (m : Impl) : Impl :=
  let 'mkImpl a b c d _ f g h i j k l n o p := m in mkImpl a b c d v f g h i j k l n o p.
Definition setHalfFloat (v : bool) (m : Impl) : Impl :=
  let 'mkImpl a b c d e _ g h i j k l n o p := m in mkImpl a b c d e v g h i j k l n o p.
Definition setWriteGridStats (v : bool) (m : Impl) : Impl :=
  let 'mkImpl a b c d e f _ h i j k l n o p := m in mkImpl a b c d e f v h i j k l n o p.
Definition setSeekable (v : bool) (m : Impl) : Impl :=
  let 'mkImpl a b c d e f g _ i j k l n o p := m in mkImpl a b c d e f g v i j k l n o p.
Definition setCountingPasses (v : bool) (m : Impl) : Impl :=
  let 'mkImpl a b c d e f g h _ j k l n o p := m in mkImpl a b c d e f g h v j k l n o p.
Definition setPass (v : Z) (m : Impl) : Impl :=
  let 'mkImpl a b c d e f g h i _ k l n o p := m in mkImpl a b c d e f g h i v k l n o p.
Definition setGridMetadata (v : MetaMap) (m : Impl) : Impl :=
  let 'mkImpl a b c d e f g h i j _ l n o p := m in mkImpl a b c d e f g h i j v l n o p.
Definition setLeaf (v : Z) (m : Impl) : Impl :=
  let 'mkImpl a b c d e f g h i j k l n _ p := m in mkImpl a b c d e f g h i j k l n v p.
Definition __setTest (v : Z) (m : Impl) : Impl :=
  let 'mkImpl a b c d e f g h i j k l n o _ := m in mkImpl a b c d e f g h i j k l n o v.

End WithConstants.

End StreamMetadata.

(** ** [GridDescriptor] *)

(** Modelled from the spec: the [GridDescriptor] class of
    [io/GridDescriptor.h], which is not part of the two translation units.
    A descriptor carries the grid name, the unique name under which the grid
    is stored, the type tag, the half-float flag, the instance-parent name
    and the three file offsets (grid start, block start, end). *)
Record GridDescriptor : Type := mkGridDescriptor {
  gridName : string;
  uniqueName : string;
  instanceParentName : string;
  gridType : string;
  saveFloatAsHalf : bool;
  getGridPos : Z;
  getBlockPos : Z;
  getEndPos : Z;
}.

(** Modelled from the spec: a descriptor marks an instance when it names an
    instance parent. *)
Definition isInstance (gd : GridDescriptor) : bool :=
  negb (String.eqb (instanceParentName gd) "").

Definition setInstanceParentName (name : string) (gd : GridDescriptor) : GridDescriptor :=
  let 'mkGridDescriptor a b _ d e f g h := gd in mkGridDescriptor a b name d e f g h.
Definition setGridPos (pos : Z) (gd : GridDescriptor) : GridDescriptor :=
  let 'mkGridDescriptor a b c d e _ g h := gd in mkGridDescriptor a b c d e pos g h.
Definition setBlockPos (pos : Z) (gd : GridDescriptor) : GridDescriptor :=
  let 'mkGridDescriptor a b c d e f _ h := gd in mkGridDescriptor a b c d e f pos h.
Definition setEndPos (pos : Z) (gd : GridDescriptor) : GridDescriptor :=
  let 'mkGridDescriptor a b c d e f g _ := gd in mkGridDescriptor a b c d e f g pos.

(** Modelled from the spec: the constructor
    [GridDescriptor(name, gridType, saveFloatAsHalf)]: the unique name is the
    given name, the grid name is that name without its suffix, no instance
    parent, offsets zero. *)
Definition new_GridDescriptor `{Helpers} (name type : string) (half : bool) : GridDescriptor :=
  mkGridDescriptor (stripSuffix name) name "" type half 0 0 0.

(** ** The world an archive operation runs in *)

(** One stream, and the objects reachable from it and from the caller:
    [StreamMetadata::Ptr] variables by address ([None] is a null shared
    pointer, [Some i] owns the [StreamMetadata] at [i]), [StreamMetadata],
    grid and tree objects by address; [brk] is the next unused address. *)
Record World : Type := mkWorld {
  strm : ios_base;
  ptrs : nat -> option nat;
  metas : nat -> StreamMetadata.Impl;
  grids : nat -> GridBase;
  trees : nat -> TreeBase;
  brk : nat;
}.

Definition set_strm (s : ios_base) (w : World) : World :=
  mkWorld s (ptrs w) (metas w) (grids w) (trees w) (brk w).
Definition set_ptr (a : nat) (p : option nat) (w : World) : World :=
  mkWorld (strm w) (upd (ptrs w) a p) (metas w) (grids w) (trees w) (brk w).
Definition set_meta (i : nat) (m : StreamMetadata.Impl) (w : World) : World :=
  mkWorld (strm w) (ptrs w) (upd (metas w) i m) (grids w) (trees w) (brk w).
Definition set_grid (g : nat) (x : GridBase) (w : World) : World :=
  mkWorld (strm w) (ptrs w) (metas w) (upd (grids w) g x) (trees w) (brk w).
Definition set_tree (t : nat) (x : TreeBase) (w : World) : World :=
  mkWorld (strm w) (ptrs w) (metas w) (grids w) (upd (trees w) t x) (brk w).

(** A fresh address. *)
Definition alloc (w : World) : nat * World :=
  (brk w, mkWorld (strm w) (ptrs w) (metas w) (grids w) (trees w) (S (brk w))).

(** ** Exceptions and collaborators *)

Inductive ExceptionKind : Type :=
| IoError | KeyError | LookupError | TypeError | ValueError | OtherException.

(** What [OPENVDB_THROW(kind, message)] throws. *)
Record Exception : Type := OPENVDB_THROW {
  exn_kind : ExceptionKind;
  exn_what : string;
}.

(** How a call ends: it returns, it throws, or it never comes back. *)
Inductive Result (A : Type) : Type :=
| Ok (a : A)
| Throw (e : Exception)
| Diverge.
Arguments Ok {A} a.
Arguments Throw {A} e.
Arguments Diverge {A}.

(** The bounding box handed to [doReadGrid]: none, an index-space box or a
    world-space box (opaque coordinates). *)
Inductive BoxType : Type :=
| NoBBox
| CoordBBox (b : list Z)
| BBoxd (b : list Z).

(** The calls an archive operation makes into code it does not own: the
    virtual I/O interface of a grid (given by address), the serialization of
    a descriptor and of a metadata map. *)
Inductive ExtCall : Type :=
| GridBase_readMeta (g : nat)
| GridBase_readTransform (g : nat)
| GridBase_readTopology (g : nat)
| GridBase_readBuffers (g : nat) (bbox : BoxType)
| GridBase_writeMeta (g : nat)
| GridBase_writeTransform (g : nat)
| GridBase_writeTopology (g : nat)
| GridBase_writeBuffers (g : nat)
| GridDescriptor_writeHeader (gd : GridDescriptor)
| GridDescriptor_writeStreamPos (gd : GridDescriptor)
| GridDescriptor_seekToEnd (gd : GridDescriptor)
| MetaMap_writeMeta (m : MetaMap).

(** The collaborators.  [ext c w] runs the call [c] in the world [w]: it
    returns normally, throws or diverges, and leaves a world behind.
    [populateDelayedLoadMetadata] answers with the populated metadata, or
    [None] where the source function returns [false]; [treeStats] answers the
    tree queries of [GridBase::addStatsMetadata]; [isRegisteredType] is
    [DelayedLoadMetadata::isRegisteredType()]. *)
Class Collaborators := {
  ext : ExtCall -> World -> Result unit * World;
  populateDelayedLoadMetadata : GridBase -> TreeBase -> Z -> option Metadata;
  treeStats : GridBase -> TreeBase -> Grid.TreeStats;
  isRegisteredType : bool;
}.

(** The state of a running operation: the world and the log of the
    collaborator calls made so far, oldest first. *)
Record Machine : Type := mkMachine {
  world : World;
  calls : list ExtCall;
}.

(** Computations that read and change the machine and may throw or
    diverge; the machine reached when the exception leaves is kept. *)
Definition M (A : Type) : Type := Machine -> Result A * Machine.

Definition ret {A} (a : A) : M A := fun m => (Ok a, m).

Definition bind {A B} (c : M A) (k : A -> M B) : M B :=
  fun m => match c m with
           | (Ok a, m') => k a m'
           | (Throw e, m') => (Throw e, m')
           | (Diverge, m') => (Diverge, m')
           end.

Notation "'let*' x ':=' c 'in' k" := (bind c (fun x => k))
  (at level 10, x pattern, c at level 100, k at level 200).
Notation "c ';;' k" := (bind c (fun _ => k))
  (at level 100, k at level 200, right associativity).

Definition throw {A} (e : Exception) : M A := fun m => (Throw e, m).
Definition diverge {A} : M A := fun m => (Diverge, m).

(** Read the world, change the world. *)
Definition gets {A} (f : World -> A) : M A := fun m => (Ok (f (world m)), m).
Definition modify (f : World -> World) : M unit :=
  fun m => (Ok tt, mkMachine (f (world m)) (calls m)).

(** Run a world transformer that also yields a value. *)
Definition state {A} (f : World -> A * World) : M A :=
  fun m => let '(a, w) := f (world m) in (Ok a, mkMachine w (calls m)).

(** A collaborator call: logged, then run. *)
Definition call `{Collaborators} (c : ExtCall) : M unit :=
  fun m => let '(r, w) := ext c (world m) in (r, mkMachine w (calls m ++ [c])).

(** Conditional statement without [else]. *)
Definition when (b : bool) (c : M unit) : M unit := if b then c else ret tt.

(** ** [io/Archive.cc]: stream accessors *)

Module io.

Import StreamState.

Section WithConstants.
Context `{Constants} `{Helpers} `{Collaborators}.

Definition DEFAULT_COMPRESSION_FLAGS : Z :=
  if OPENVDB_USE_BLOSC then Z.lor COMPRESS_BLOSC COMPRESS_ACTIVE_MASK
  else if OPENVDB_USE_ZLIB then Z.lor COMPRESS_ZIP COMPRESS_ACTIVE_MASK
  else COMPRESS_ACTIVE_MASK.

(** [getStreamMetadataPtr]: a copy of the shared pointer the metadata slot
    points to, or a null pointer when the slot is null. *)
Definition getStreamMetadataPtr (w : World) : option nat :=
  match pword (strm w) metadata with
  | Some a => ptrs w a
  | None => None
  end.

(** [if (StreamMetadata::Ptr meta = getStreamMetadataPtr(strm)) meta->f(...)] *)
Definition on_meta (f : StreamMetadata.Impl -> StreamMetadata.Impl) (w : World) : World :=
  match getStreamMetadataPtr w with
  | Some i => set_meta i (f (metas w i)) w
  | None => w
  end.

Definition set_slot (i : index) (v : Z) (w : World) : World :=
  set_strm (set_iword i (long v) (strm w)) w.

Definition set_pslot (i : index) (v : option nat) (w : World) : World :=
  set_strm (set_pword i v (strm w)) w.

Definition getFormatVersion (s : ios_base) : Z := uint32 (iword s fileVersion).

Definition getLibraryVersion (s : ios_base) : Z * Z :=
  (uint32 (iword s libraryMajorVersion), uint32 (iword s libraryMinorVersion)).

Definition setCurrentVersion (w : World) : World :=
  let w := set_slot fileVersion OPENVDB_FILE_VERSION w in
  let w := set_slot libraryMajorVersion OPENVDB_LIBRARY_MAJOR_VERSION w in
  let w := set_slot libraryMinorVersion OPENVDB_LIBRARY_MINOR_VERSION w in
  on_meta (fun m =>
    StreamMetadata.setLibraryVersion
      (OPENVDB_LIBRARY_MAJOR_VERSION, OPENVDB_LIBRARY_MINOR_VERSION)
      (StreamMetadata.setFileVersion OPENVDB_FILE_VERSION m)) w.

Definition setVersion (libraryVersion : Z * Z) (fileVersion_ : Z) (w : World) : World :=
  let w := set_slot fileVersion fileVersion_ w in
  let w := set_slot libraryMajorVersion (fst libraryVersion) w in
  let w := set_slot libraryMinorVersion (snd libraryVersion) w in
  on_meta (fun m =>
    StreamMetadata.setLibraryVersion libraryVersion
      (StreamMetadata.setFileVersion fileVersion_ m)) w.

Definition getDataCompression (s : ios_base) : Z := uint32 (iword s dataCompression).

Definition setDataCompression (c : Z) (w : World) : World :=
  let w := set_slot dataCompression c w in
  on_meta (StreamMetadata.setCompression c) w.

Definition getWriteGridStatsMetadata (s : ios_base) : bool :=
  negb (iword s writeGridStatsMetadata =? 0).

Definition setWriteGridStatsMetadata (writeGridStats : bool) (w : World) : World :=
  let w := set_slot writeGridStatsMetadata (Z.b2z writeGridStats) w in
  on_meta (StreamMetadata.setWriteGridStats writeGridStats) w.

Definition getGridClass (s : ios_base) : Z :=
  let val := uint32 (iword s gridClass) in
  if val >=? NUM_GRID_CLASSES then GridClass_val GRID_UNKNOWN else val.

Definition setGridClass (cls : Z) (w : World) : World :=
  let w := set_slot gridClass cls w in
  on_meta (StreamMetadata.setGridClass cls) w.

Definition getHalfFloat (s : ios_base) : bool := negb (iword s halfFloat =? 0).

Definition setHalfFloat (halfFloat_ : bool) (w : World) : World :=
  let w := set_slot halfFloat (Z.b2z halfFloat_) w in
  on_meta (StreamMetadata.setHalfFloat halfFloat_) w.

Definition getGridBackgroundValuePtr (s : ios_base) : option nat := pword s gridBackground.

Definition setGridBackgroundValuePtr (background : option nat) (w : World) : World :=
  let w := set_pslot gridBackground background w in
  on_meta (StreamMetadata.setBackgroundPtr background) w.

(** [StreamMetadata::transferTo] *)
Definition transferTo (m : StreamMetadata.Impl) (w : World) : World :=
  let w := setVersion (StreamMetadata.mLibraryVersion m) (StreamMetadata.mFileVersion m) w in
  let w := setDataCompression (StreamMetadata.mCompression m) w in
  let w := setGridBackgroundValuePtr (StreamMetadata.mBackgroundPtr m) w in
  let w := setGridClass (StreamMetadata.mGridClass m) w in
  let w := setHalfFloat (StreamMetadata.mHalfFloat m) w in
  setWriteGridStatsMetadata (StreamMetadata.mWriteGridStats m) w.

(** [setStreamMetadataPtr(strm, meta, transfer)], [meta] being the shared
    pointer variable at address [a]. *)
Definition setStreamMetadataPtr (a : nat) (transfer : bool) (w : World) : World :=
  let w := set_pslot metadata (Some a) w in
  match ptrs w a with
  | Some i => if transfer then transferTo (metas w i) w else w
  | None => w
  end.

Definition clearStreamMetadataPtr (w : World) : option nat * World :=
  (getStreamMetadataPtr w, set_pslot metadata None w).

(** [StreamMetadata::StreamMetadata(std::ios_base&)] *)
Definition StreamMetadata_of_stream (s : ios_base) : StreamMetadata.Impl :=
  let m := StreamMetadata.new_Impl isRegisteredType in
  let m := StreamMetadata.setFileVersion (getFormatVersion s) m in
  let m := StreamMetadata.setLibraryVersion (getLibraryVersion s) m in
  let m := StreamMetadata.setCompression (getDataCompression s) m in
  let m := StreamMetadata.setGridClass (getGridClass s) m in
  let m := StreamMetadata.setHalfFloat (getHalfFloat s) m in
  StreamMetadata.setWriteGridStats (getWriteGridStatsMetadata s) m.

End WithConstants.

(** ** [io/Archive.cc]: the archive and its header codec *)

Record Archive : Type := mkArchive {
  mFileVersion : Z;
  mLibraryVersion : Z * Z;
  mUuid : string;
  mInputHasGridOffsets : bool;
  mEnableInstancing : bool;
  mCompression : Z;
  mEnableGridStats : bool;
}.

Definition set_mFileVersion (v : Z) (a : Archive) : Archive :=
  let 'mkArchive _ b c d e f g := a in mkArchive v b c d e f g.
Definition set_mLibraryVersion (v : Z * Z) (a : Archive) : Archive :=
  let 'mkArchive x _ c d e f g := a in mkArchive x v c d e f g.
Definition set_mUuid (v : string) (a : Archive) : Archive :=
  let 'mkArchive x b _ d e f g := a in mkArchive x b v d e f g.
Definition set_mInputHasGridOffsets (v : bool) (a : Archive) : Archive :=
  let 'mkArchive x b c _ e f g := a in mkArchive x b c v e f g.
Definition set_mCompression (v : Z) (a : Archive) : Archive :=
  let 'mkArchive x b c d e _ g := a in mkArchive x b c d e v g.

Section WithConstants.
Context `{Constants} `{Helpers} `{Collaborators}.

(** [Archive::Archive()] *)
Definition new_Archive : Archive :=
  mkArchive OPENVDB_FILE_VERSION
    (OPENVDB_LIBRARY_MAJOR_VERSION, OPENVDB_LIBRARY_MINOR_VERSION)
    "" false true DEFAULT_COMPRESSION_FLAGS true.

Definition getUniqueTag (a : Archive) : string := mUuid a.
Definition compression (a : Archive) : Z := mCompression a.
Definition isGridStatsMetadataEnabled (a : Archive) : bool := mEnableGridStats a.

Definition isIdentical (a : Archive) (uuidStr : string) : bool :=
  if String.eqb uuidStr "" then false
  else if String.eqb (getUniqueTag a) "" then false
  else String.eqb uuidStr (getUniqueTag a).

Definition Archive_setFormatVersion (a : Archive) (w : World) : World :=
  let w := set_slot fileVersion (mFileVersion a) w in
  on_meta (StreamMetadata.setFileVersion (mFileVersion a)) w.

Definition Archive_setLibraryVersion (a : Archive) (w : World) : World :=
  let w := set_slot libraryMajorVersion (fst (mLibraryVersion a)) w in
  let w := set_slot libraryMinorVersion (snd (mLibraryVersion a)) w in
  on_meta (StreamMetadata.setLibraryVersion (mLibraryVersion a)) w.

Definition Archive_setDataCompression (a : Archive) (w : World) : World :=
  let w := setDataCompression (mCompression a) w in
  on_meta (StreamMetadata.setCompression (mCompression a)) w.

(** Reading a scalar through [is.read(reinterpret_cast<char*>(&x), sizeof x)]:
    [x0] is the value [x] holds before the call. *)
Definition read_uint32 (x0 : Z) (ist : ios_base) : Z * ios_base :=
  let '(bs, ist) := istream_read 4 (le_encode 4 x0) ist in (le_decode bs, ist).

Definition read_int64 (x0 : Z) (ist : ios_base) : Z * ios_base :=
  let '(bs, ist) := istream_read 8 (le_encode 8 x0) ist in (int64 (le_decode bs), ist).

Definition read_char (x0 : Z) (ist : ios_base) : Z * ios_base :=
  let '(bs, ist) := istream_read 1 (le_encode 1 x0) ist in (le_decode bs, ist).

Definition write_uint32 (x : Z) (ost : ios_base) : ios_base := ostream_write (le_encode 4 x) ost.
Definition write_int64 (x : Z) (ost : ios_base) : ios_base := ostream_write (le_encode 8 x) ost.
Definition write_char (x : Z) (ost : ios_base) : ios_base := ostream_write (le_encode 1 x) ost.

(** The values the uninitialized locals of [readHeader] and [writeHeader]
    hold when they are declared; they show only where a read falls short or
    the entropy source fails. *)
Record Indeterminate : Type := mkIndeterminate {
  magic0 : Z;
  version0 : Z;
  libversion0 : Z;
  hasGridOffsets0 : Z;
  isCompressed0 : Z;
  uuidValues0 : nat -> ascii;
  uuidBytes0 : nat -> ascii;
  uuidStr0 : nat -> ascii;
}.

Definition buffer (f : nat -> ascii) (n : nat) : list ascii := map f (seq 0 n).

(** The lambda [to_hex] of [readHeader] and [writeHeader]. *)
Definition to_hex (c : Z) : ascii :=
  let c := Z.land c 15 in
  if c <? 10 then char_of (char_val "0" + c) else char_of (c - 10 + char_val "A").

(** Step 1: the magic number.  [None] where the source throws. *)
Definition readHeader_magic (u : Indeterminate) (ist : ios_base) : option unit * ios_base :=
  let '(magic, ist) := read_int64 (magic0 u) ist in
  if negb (magic =? OPENVDB_MAGIC) then (None, ist) else (Some tt, ist).

(** Step 2: the file format version. *)
Definition readHeader_fileVersion (u : Indeterminate) (a : Archive) (ist : ios_base)
  : Archive * ios_base :=
  let '(v, ist) := read_uint32 (mFileVersion a) ist in
  if v >? OPENVDB_FILE_VERSION then (set_mFileVersion v a, ist)
  else if v <? 211 then
    let '(version, ist) := read_uint32 (version0 u) ist in
    let v := uint32 (100 * v + 10 * version) in
    let '(version, ist) := read_uint32 version ist in
    (set_mFileVersion (uint32 (v + version)) a, ist)
  else (set_mFileVersion v a, ist).

(** Step 3: the library version. *)
Definition readHeader_libraryVersion (u : Indeterminate) (a : Archive) (ist : ios_base)
  : Archive * ios_base :=
  let a := set_mLibraryVersion (0, 0) a in
  if mFileVersion a >=? 211 then
    let '(major, ist) := read_uint32 (libversion0 u) ist in
    let '(minor, ist) := read_uint32 major ist in
    (set_mLibraryVersion (major, minor) a, ist)
  else (a, ist).

(** Step 4: the grid-offsets flag. *)
Definition readHeader_gridOffsets (u : Indeterminate) (a : Archive) (ist : ios_base)
  : Archive * ios_base :=
  let a := set_mInputHasGridOffsets true a in
  if mFileVersion a >=? 212 then
    let '(hasGridOffsets, ist) := read_char (hasGridOffsets0 u) ist in
    (set_mInputHasGridOffsets (negb (hasGridOffsets =? 0)) a, ist)
  else (a, ist).

(** Step 5: the compression flag. *)
Definition readHeader_compression (u : Indeterminate) (a : Archive) (ist : ios_base)
  : Archive * ios_base :=
  let a := set_mCompression DEFAULT_COMPRESSION_FLAGS a in
  let a := if mFileVersion a <? OPENVDB_FILE_VERSION_BLOSC_COMPRESSION
           then set_mCompression (Z.lor COMPRESS_ZIP COMPRESS_ACTIVE_MASK) a else a in
  if (mFileVersion a >=? OPENVDB_FILE_VERSION_SELECTIVE_COMPRESSION)
     && (mFileVersion a <? OPENVDB_FILE_VERSION_NODE_MASK_COMPRESSION) then
    let '(isCompressed, ist) := read_char (isCompressed0 u) ist in
    (set_mCompression (if negb (isCompressed =? 0) then COMPRESS_ZIP else COMPRESS_NONE) a, ist)
  else (a, ist).

(** Step 6: the UUID; the result is the string assigned to [mUuid]. *)
Definition readHeader_uuid (u : Indeterminate) (a : Archive) (ist : ios_base)
  : string * ios_base :=
  if mFileVersion a >=? OPENVDB_FILE_VERSION_BOOST_UUID then
    let '(uuidValues, ist) := istream_read (16 * 2 + 4) (buffer (uuidValues0 u) (16 * 2 + 4)) ist in
    (cstring (uuidValues ++ ["000"%char]), ist)
  else
    let '(uuidBytes, ist) := istream_read 16 (buffer (uuidBytes0 u) 16) ist in
    let uuidStr :=
      flat_map (fun c => [to_hex (uint32 (Z.shiftr (schar_val c) 4));
                          to_hex (uint32 (schar_val c))]) uuidBytes in
    (cstring (uuidStr ++ ["000"%char]), ist).

Definition readHeader (a : Archive) (u : Indeterminate) (ist : ios_base)
  : Result bool * Archive * ios_base :=
  match readHeader_magic u ist with
  | (None, ist) => (Throw (OPENVDB_THROW IoError "not a VDB file"), a, ist)
  | (Some _, ist) =>
    let '(a, ist) := readHeader_fileVersion u a ist in
    let '(a, ist) := readHeader_libraryVersion u a ist in
    let '(a, ist) := readHeader_gridOffsets u a ist in
    let '(a, ist) := readHeader_compression u a ist in
    let oldUuid := mUuid a in
    let '(uuid, ist) := readHeader_uuid u a ist in
    let a := set_mUuid uuid a in
    if String.eqb oldUuid "" || String.eqb (mUuid a) "" then (Ok true, a, ist)
    else (Ok (negb (String.eqb oldUuid (mUuid a))), a, ist)
  end.

(** The UUID buffer [writeHeader] fills: [seed i] is the [i]-th draw of the
    [std::random_device], [None] where drawing throws. *)
Definition hex_digits (v : Z) : list ascii :=
  map (fun j => to_hex (Z.shiftr v (4 * Z.of_nat j))) (seq 0 8).

Fixpoint fill_uuid (seed : nat -> option Z) (i n : nat) (uuidStr : list ascii)
  : list ascii :=
  match n with
  | O => uuidStr
  | S n' =>
    match seed i with
    | Some v =>
      fill_uuid seed (S i) n'
        (take (i * 8) uuidStr ++ hex_digits (uint32 v) ++ drop (i * 8 + 8) uuidStr)
    | None => <[0%nat := "000"%char]> uuidStr
    end
  end.

Definition swap_at (i j : nat) (l : list ascii) : list ascii :=
  match l !! i, l !! j with
  | Some x, Some y => <[i := y]> (<[j := x]> l)
  | _, _ => l
  end.

Definition make_uuidStr (u : Indeterminate) (seed : nat -> option Z) : list ascii :=
  let uuidStr := fill_uuid seed 0 4 (buffer (uuidStr0 u) (16 * 2 + 4 + 1)) in
  let uuidStr := take 32 uuidStr ++ ["-"; "-"; "-"; "-"]%char ++ drop 36 uuidStr in
  let uuidStr := swap_at (16 * 2 + 0) (8 + 0) uuidStr in
  let uuidStr := swap_at (16 * 2 + 1) (12 + 1) uuidStr in
  let uuidStr := swap_at (16 * 2 + 2) (16 + 2) uuidStr in
  let uuidStr := swap_at (16 * 2 + 3) (20 + 3) uuidStr in
  <[(16 * 2 + 4)%nat := "000"%char]> uuidStr.

(** [Archive::writeHeader]; [mUuid] is mutable, so the archive comes back. *)
Definition writeHeader (a : Archive) (u : Indeterminate) (seed : nat -> option Z)
    (seekable : bool) (ost : ios_base) : Archive * ios_base :=
  let ost := write_int64 OPENVDB_MAGIC ost in
  let ost := write_uint32 OPENVDB_FILE_VERSION ost in
  let ost := write_uint32 OPENVDB_LIBRARY_MAJOR_VERSION ost in
  let ost := write_uint32 OPENVDB_LIBRARY_MINOR_VERSION ost in
  let ost := write_char (Z.b2z seekable) ost in
  let uuidStr := make_uuidStr u seed in
  let a := set_mUuid (cstring uuidStr) a in
  (a, fold_left (fun ost c => ostream_write [c] ost) (take (16 * 2 + 4) uuidStr) ost).

Definition readGridCount (ist : ios_base) : Z * ios_base :=
  let '(bs, ist) := istream_read 4 (le_encode 4 0) ist in (to_signed 32 (le_decode bs), ist).

(** ** Per-grid compression *)

Definition setGridCompression (a : Archive) (grid : GridBase) (w : World) : World :=
  let c := compression a in
  let c := match Grid.getGridClass grid with
           | GRID_LEVEL_SET | GRID_FOG_VOLUME => Z.land c (Z.lnot COMPRESS_ZIP)
           | GRID_STAGGERED | GRID_UNKNOWN => c
           end in
  let w := setDataCompression c w in
  set_strm (write_uint32 c (strm w)) w.

Definition readGridCompression (w : World) : World :=
  if getFormatVersion (strm w) >=? OPENVDB_FILE_VERSION_NODE_MASK_COMPRESSION then
    let '(c, ist) := read_uint32 COMPRESS_NONE (strm w) in
    setDataCompression c (set_strm ist w)
  else w.

(** ** Instance reconnection *)

(** [NamedGridMap] is a [std::map<Name, GridBase::Ptr>]; [None] as a value
    is a null grid pointer. *)
Abbreviation NamedGridMap := (gmap string (option nat)).

(** How [connectInstance] ends.  The source dereferences the parent pointer
    it finds without testing it; [NullDereference] marks that case. *)
Inductive ConnectResult : Type :=
| Returned (w : World)
| Thrown (e : Exception)
| NullDereference.

(** Modelled from the spec: [GridBase::setTree] of [Grid.h] makes the grid
    hold the given tree. *)
Definition setTree (t : nat) (g : GridBase) : GridBase :=
  mkGrid (gmeta g) (gtype g) (gtransform g) t.

(** Modelled from the spec: [TreeBase::copy] of [tree/Tree.h], a deep copy:
    a new tree object with the same content. *)
Definition TreeBase_copy (t : nat) (w : World) : nat * World :=
  let '(t', w) := alloc w in (t', set_tree t' (trees w t) w).

(** The message of the exception [connectInstance] throws; [dquote] is the
    double-quote character. *)
Definition dquote : string := String "034"%char "".

Definition missing_instance_parent (gd : GridDescriptor) : string :=
  ("missing instance parent " ++ dquote ++ nameAsString (instanceParentName gd)
   ++ dquote ++ " for grid " ++ nameAsString (uniqueName gd))%string.

Definition connectInstance (a : Archive) (gd : GridDescriptor) (grids_ : NamedGridMap)
    (w : World) : ConnectResult :=
  if negb (isInstance gd) || bool_decide (grids_ = ∅) then Returned w
  else match grids_ !! uniqueName gd with
  | None => Returned w
  | Some None => Returned w
  | Some (Some grid) =>
    match grids_ !! instanceParentName gd with
    | Some (Some parent) =>
      if mEnableInstancing a then
        Returned (set_grid grid (setTree (gtree (grids w parent)) (grids w grid)) w)
      else
        let '(t, w) := TreeBase_copy (gtree (grids w parent)) w in
        Returned (set_grid grid (setTree t (grids w grid)) w)
    | Some None => NullDereference
    | None =>
      Thrown (OPENVDB_THROW KeyError (missing_instance_parent gd))
    end
  end.

(** ** Per-grid read *)

(** The [OnExit] guard of [doReadGrid] and [writeGrid]: the constructor
    saves the metadata slot, the destructor puts the saved pointer back when
    the scope is left, by return or by exception. *)
Definition with_OnExit {A} (body : M A) : M A :=
  fun m =>
    let ptr := pword (strm (world m)) metadata in
    match body m with
    | (Diverge, m') => (Diverge, m')
    | (r, m') => (r, mkMachine (set_pslot metadata ptr (world m')) (calls m'))
    end.

(** The grid-level [StreamMetadata] both per-grid operations create: a
    shared pointer variable [streamMetadata] at a fresh address, owning a
    copy of the file-level metadata or a default-constructed one.  Returns
    the address of the variable and of the object. *)
Definition new_streamMetadata (w : World) : (nat * nat) * World :=
  let meta := getStreamMetadataPtr w in
  let '(a, w) := alloc w in
  let '(i, w) := alloc w in
  let w := set_meta i (match meta with
                       | Some j => metas w j
                       | None => StreamMetadata.new_Impl isRegisteredType
                       end) w in
  ((a, i), set_ptr a (Some i) w).

Definition remove_delayed_load (grid : nat) (w : World) : World :=
  match gmeta (grids w grid) !! Grid.META_FILE_DELAYED_LOAD with
  | Some _ => set_grid grid (removeMeta Grid.META_FILE_DELAYED_LOAD (grids w grid)) w
  | None => w
  end.

(** The three layouts of the grid payload [doReadGrid] follows. *)
Definition doReadGrid_payload (grid : nat) (gd : GridDescriptor) (bbox : BoxType) : M unit :=
  let* v := gets (fun w => getFormatVersion (strm w)) in
  if v >=? OPENVDB_FILE_VERSION_GRID_INSTANCING then
    call (GridBase_readTransform grid) ;;
    if negb (isInstance gd) then
      call (GridBase_readTopology grid) ;;
      call (GridBase_readBuffers grid bbox)
    else ret tt
  else
    call (GridBase_readTopology grid) ;;
    call (GridBase_readTransform grid) ;;
    call (GridBase_readBuffers grid bbox).

(** [doReadGrid]; the grid pointer is dereferenced unconditionally, so the
    grid is given by its address.  The members of the local
    [streamMetadata] are reached through the object it was set to. *)
Definition doReadGrid (grid : nat) (gd : GridDescriptor) (bbox : BoxType) : M unit :=
  with_OnExit (
    let* (a, i) := state new_streamMetadata in
    modify (fun w => set_meta i
      (StreamMetadata.setHalfFloat (Grid.saveFloatAsHalf (grids w grid)) (metas w i)) w) ;;
    modify (setStreamMetadataPtr a false) ;;
    modify (setGridClass (GridClass_val GRID_UNKNOWN)) ;;
    modify (setGridBackgroundValuePtr None) ;;
    call (GridBase_readMeta grid) ;;
    let* version := gets (fun w => getLibraryVersion (strm w)) in
    when ((fst version <? 6) || ((fst version =? 6) && (snd version <=? 1)))
      (modify (remove_delayed_load grid)) ;;
    modify (fun w => set_meta i
      (StreamMetadata.setGridMetadata (gmeta (grids w grid)) (metas w i)) w) ;;
    let* gridClass_ := gets (fun w => Grid.getGridClass (grids w grid)) in
    modify (setGridClass (GridClass_val gridClass_)) ;;
    modify (fun w => set_meta i (StreamMetadata.setLeaf 0 (metas w i)) w) ;;
    let* test := gets (fun w => StreamMetadata.mTest (metas w i)) in
    when (test =? 0) (modify (remove_delayed_load grid)) ;;
    doReadGrid_payload grid gd bbox ;;
    let* v := gets (fun w => getFormatVersion (strm w)) in
    when (v <? OPENVDB_FILE_VERSION_NO_GRIDMAP)
      (modify (fun w =>
         if String.eqb (Grid.getName (grids w grid)) ""
         then set_grid grid (Grid.setName (gridName gd) (grids w grid)) w
         else w))).

(** [Archive::readGrid], in its three overloads: without a box, with a
    world-space box, with an index-space box. *)
Definition readGrid (grid : nat) (gd : GridDescriptor) (bbox : BoxType) : M unit :=
  modify readGridCompression ;;
  doReadGrid grid gd bbox.

(** ** Per-grid write *)

Definition record_pos (seekable : bool) (set : Z -> GridDescriptor -> GridDescriptor)
    (gd : GridDescriptor) : M GridDescriptor :=
  if seekable then
    let* pos := gets (fun w => tellp (strm w)) in ret (set pos gd)
  else ret gd.

(** The tail both writers share: with a seekable stream, go back to where
    the offsets were written, write them again and seek to the end. *)
Definition rewrite_offsets (seekable : bool) (offsetPos : Z) (gd : GridDescriptor) : M unit :=
  if seekable then
    modify (fun w => set_strm (seekp offsetPos (strm w)) w) ;;
    call (GridDescriptor_writeStreamPos gd) ;;
    call (GridDescriptor_seekToEnd gd)
  else ret tt.

(** The shallow copy of the grid with the metadata [writeGrid] adds to it;
    returns the address of the copy. *)
Definition copy_with_file_metadata (a : Archive) (grid : nat) (w : World) : nat * World :=
  let '(copyOfGrid, w) := alloc w in
  let g := insertMeta Grid.META_FILE_DELAYED_LOAD DelayedLoadMetadata (grids w grid) in
  let g := match populateDelayedLoadMetadata (grids w grid) (trees w (gtree (grids w grid)))
                   (compression a) with
           | Some delayLoadMeta => insertMeta Grid.META_FILE_DELAYED_LOAD delayLoadMeta g
           | None => removeMeta Grid.META_FILE_DELAYED_LOAD g
           end in
  let g := if getWriteGridStatsMetadata (strm w) then
             insertMeta Grid.META_FILE_COMPRESSION
               (StringMetadata (compressionToString (getDataCompression (strm w))))
               (Grid.addStatsMetadata (treeStats g (trees w (gtree g))) g)
           else g in
  (copyOfGrid, set_grid copyOfGrid g w).

(** [Archive::writeGrid]; the descriptor is passed by reference and comes
    back with its offsets. *)
Definition writeGrid (a : Archive) (gd : GridDescriptor) (grid : nat) (seekable : bool)
  : M GridDescriptor :=
  with_OnExit (
    let* (p, i) := state new_streamMetadata in
    modify (fun w => set_meta i
      (StreamMetadata.setHalfFloat (Grid.saveFloatAsHalf (grids w grid)) (metas w i)) w) ;;
    modify (fun w => set_meta i
      (StreamMetadata.setGridMetadata (gmeta (grids w grid)) (metas w i)) w) ;;
    modify (setStreamMetadataPtr p false) ;;
    call (GridDescriptor_writeHeader gd) ;;
    let* offsetPos := gets (fun w => if seekable then int64 (tellp (strm w)) else 0) in
    call (GridDescriptor_writeStreamPos gd) ;;
    let* gd := record_pos seekable setGridPos gd in
    modify (fun w => setGridCompression a (grids w grid) w) ;;
    let* copyOfGrid := state (copy_with_file_metadata a grid) in
    call (GridBase_writeMeta copyOfGrid) ;;
    call (GridBase_writeTransform grid) ;;
    call (GridBase_writeTopology grid) ;;
    let* gd := record_pos seekable setBlockPos gd in
    call (GridBase_writeBuffers grid) ;;
    let* gd := record_pos seekable setEndPos gd in
    rewrite_offsets seekable offsetPos gd ;;
    ret gd).

(** [Archive::writeGridInstance] *)
Definition writeGridInstance (a : Archive) (gd : GridDescriptor) (grid : nat)
    (seekable : bool) : M GridDescriptor :=
  call (GridDescriptor_writeHeader gd) ;;
  let* offsetPos := gets (fun w => if seekable then int64 (tellp (strm w)) else 0) in
  call (GridDescriptor_writeStreamPos gd) ;;
  let* gd := record_pos seekable setGridPos gd in
  modify (fun w => setGridCompression a (grids w grid) w) ;;
  call (GridBase_writeMeta grid) ;;
  call (GridBase_writeTransform grid) ;;
  let* gd := record_pos seekable setEndPos gd in
  rewrite_offsets seekable offsetPos gd ;;
  ret gd.

(** ** [Archive::write] *)

(** [TreeMap] is the [std::map<const TreeBase*, GridDescriptor>] of the
    trees already written, [NameHistogram] the [std::map<std::string, int>]
    of name counts. *)
Abbreviation TreeMap := (gmap nat GridDescriptor).
Abbreviation NameHistogram := (gmap string Z).

(** The first loop of [write]: how often each name occurs among the
    non-null grids. *)
Definition count_names (w : World) (grids_ : list (option nat)) : NameHistogram :=
  fold_left (fun nameCount p =>
    match p with
    | Some g =>
      let name := Grid.getName (grids w g) in
      match nameCount !! name with
      | Some n => <[name := n + 1]> nameCount
      | None => <[name := 1]> nameCount
      end
    | None => nameCount
    end) grids_ ∅.

(** [for (int n = 1; uniqueNames.find(name) != uniqueNames.end(); ++n)
       name = GridDescriptor::addSuffix(grid->getName(), n);]
    run for at most [fuel] rounds; [None] when the name is still taken. *)
Fixpoint uniquify (fuel : nat) (base : string) (uniqueNames : gset string) (n : Z)
    (name : string) : option string :=
  if bool_decide (name ∈ uniqueNames) then
    match fuel with
    | O => None
    | S fuel' => uniquify fuel' base uniqueNames (n + 1) (addSuffix base n)
    end
  else Some name.

(** The descriptor name of a grid: its name, with suffix 0 when the name is
    empty or shared, then made unique among the names already used.  The
    loop gets one more round than there are names in use; that is enough
    whenever different numbers give different suffixes
    ([descriptor_name_found]). *)
Definition descriptor_name (nameCount : NameHistogram) (uniqueNames : gset string)
    (grid : GridBase) : option string :=
  let name := Grid.getName grid in
  let name := if String.eqb name "" || (default 0 (nameCount !! name) >? 1)
              then addSuffix name 0 else name in
  uniquify (S (size uniqueNames)) (Grid.getName grid) uniqueNames 1 name.

(** The test [write] makes on a grid's descriptor [gd] and tree address:
    the tree is in the map and the half-float flags agree. *)
Definition isInstance_of (treeMap : TreeMap) (treePtr : nat) (gd : GridDescriptor) : bool :=
  match treeMap !! treePtr with
  | Some parent => Bool.eqb (saveFloatAsHalf parent) (saveFloatAsHalf gd)
  | None => false
  end.

(** The body of the second loop of [write] for a non-null grid, given the
    descriptor name. *)
Definition write_descriptor (a : Archive) (seekable : bool) (treeMap : TreeMap)
    (name : string) (grid : nat) : M TreeMap :=
  let* g := gets (fun w => grids w grid) in
  let gd := new_GridDescriptor name (gtype g) (Grid.saveFloatAsHalf g) in
  let treePtr := gtree g in
  let mapIter := treeMap !! treePtr in
  let isInstance_ := isInstance_of treeMap treePtr gd in
  match mEnableInstancing a && isInstance_, mapIter with
  | true, Some parent =>
    let gd := setInstanceParentName (uniqueName parent) gd in
    writeGridInstance a gd grid seekable ;;
    ret treeMap
  | _, _ =>
    let* gd := writeGrid a gd grid seekable in
    ret (<[treePtr := gd]> treeMap)
  end.

(** One round of the second loop of [write]. *)
Definition write_entry (a : Archive) (seekable : bool) (nameCount : NameHistogram)
    (st : TreeMap * gset string) (p : option nat) : M (TreeMap * gset string) :=
  let '(treeMap, uniqueNames) := st in
  let* st :=
    match p with
    | Some grid =>
      let* g := gets (fun w => grids w grid) in
      match descriptor_name nameCount uniqueNames g with
      | Some name =>
        let* treeMap := write_descriptor a seekable treeMap name grid in
        ret (treeMap, {[name]} ∪ uniqueNames)
      | None => diverge
      end
    | None => ret st
    end in
  modify (setDataCompression (compression a)) ;;
  ret st.

Fixpoint write_entries (a : Archive) (seekable : bool) (nameCount : NameHistogram)
    (st : TreeMap * gset string) (grids_ : list (option nat)) : M (TreeMap * gset string) :=
  match grids_ with
  | [] => ret st
  | p :: rest =>
    let* st := write_entry a seekable nameCount st p in
    write_entries a seekable nameCount st rest
  end.

(** [Archive::write(os, grids, seekable, metadata)]; returns the archive
    with its new UUID and, for the proofs, the final tree map. *)
Definition write (a : Archive) (u : Indeterminate) (seed : nat -> option Z)
    (grids_ : list (option nat)) (seekable : bool) (metadata_ : MetaMap)
  : M (Archive * TreeMap) :=
  let* streamMetadata := gets getStreamMetadataPtr in
  match streamMetadata with
  | Some _ => ret tt
  | None =>
    modify (fun w =>
      let '(p, w) := alloc w in
      let '(i, w) := alloc w in
      let w := set_meta i (StreamMetadata.new_Impl isRegisteredType) w in
      setStreamMetadataPtr p false (set_ptr p (Some i) w))
  end ;;
  modify (setDataCompression (compression a)) ;;
  modify (setWriteGridStatsMetadata (isGridStatsMetadataEnabled a)) ;;
  let* a := state (fun w =>
    let '(a, ost) := writeHeader a u seed seekable (strm w) in (a, set_strm ost w)) in
  call (MetaMap_writeMeta metadata_) ;;
  let gridCount := Z.of_nat (length (filter is_Some grids_)) in
  modify (fun w => set_strm (ostream_write (le_encode 4 gridCount) (strm w)) w) ;;
  let* nameCount := gets (fun w => count_names w grids_) in
  let* st := write_entries a seekable nameCount (∅, ∅) grids_ in
  ret (a, fst st).

End WithConstants.

End io.

(** ** The reference build and sample inputs *)

(** The values [version.h] and [Compression.h] give the constants, with
    Blosc and ZLIB enabled, and the helpers as [util/Name.h],
    [GridDescriptor.cc] and [Compression.cc] define them.  The general
    theorems below hold for every choice; these are the choice the examples
    are evaluated with. *)
Module Reference.

Definition constants : Constants := {|
  OPENVDB_MAGIC := 0x56444220;
  OPENVDB_FILE_VERSION := 224;
  OPENVDB_LIBRARY_MAJOR_VERSION := 12;
  OPENVDB_LIBRARY_MINOR_VERSION := 0;
  OPENVDB_FILE_VERSION_GRID_INSTANCING := 216;
  OPENVDB_FILE_VERSION_BOOST_UUID := 218;
  OPENVDB_FILE_VERSION_NO_GRIDMAP := 219;
  OPENVDB_FILE_VERSION_SELECTIVE_COMPRESSION := 220;
  OPENVDB_FILE_VERSION_NODE_MASK_COMPRESSION := 222;
  OPENVDB_FILE_VERSION_BLOSC_COMPRESSION := 223;
  COMPRESS_ZIP := 0x1;
  COMPRESS_ACTIVE_MASK := 0x2;
  COMPRESS_BLOSC := 0x4;
  OPENVDB_USE_BLOSC := true;
  OPENVDB_USE_ZLIB := true;
|}.

(** [std::isspace] and [std::isupper] in the C locale. *)
Definition isspace (c : ascii) : bool :=
  let n := char_val c in (n =? 32) || ((9 <=? n) && (n <=? 13)).

Definition isupper (c : ascii) : bool :=
  let n := char_val c in (65 <=? n) && (n <=? 90).

Definition tolower (c : ascii) : ascii :=
  if isupper c then char_of (char_val c + 32) else c.

Fixpoint drop_spaces (l : list ascii) : list ascii :=
  match l with
  | c :: l' => if isspace c then drop_spaces l' else l
  | [] => []
  end.

(** [openvdb::string::trim]: erase the leading and the trailing white space. *)
Definition trim (s : string) : string :=
  string_of_list_ascii
    (rev (drop_spaces (rev (drop_spaces (list_ascii_of_string s))))).

(** [openvdb::string::to_lower] *)
Definition to_lower (s : string) : string :=
  string_of_list_ascii (map tolower (list_ascii_of_string s)).

(** The separator [GridDescriptor] puts between a name and its suffix: the
    ASCII record separator. *)
Definition SEP : string := String "030"%char "".

Definition addSuffix (name : string) (n : Z) : string :=
  (name ++ SEP ++ pretty n)%string.

Definition stripSuffix (name : string) : string :=
  match String.index 0 SEP name with
  | Some pos => substring 0 pos name
  | None => name
  end.

Definition nameAsString (name : string) : string :=
  match String.index 0 SEP name with
  | Some pos =>
    (substring 0 pos name ++ "[" ++
     substring (S pos) (String.length name - S pos) name ++ "]")%string
  | None => name
  end.

Fixpoint join (sep : string) (words : list string) : string :=
  match words with
  | [] => ""
  | [x] => x
  | x :: rest => (x ++ sep ++ join sep rest)%string
  end.

Definition compressionToString (flags : Z) : string :=
  if flags =? 0 then "none"
  else join " + "
    ((if Z.land flags 1 =? 0 then [] else ["zip"]) ++
     (if Z.land flags 4 =? 0 then [] else ["blosc"]) ++
     (if Z.land flags 2 =? 0 then [] else ["active values"])).

Definition helpers : Helpers :=
  Build_Helpers trim to_lower addSuffix stripSuffix nameAsString compressionToString.

End Reference.

(** Strings the reference [trim] and [to_lower] leave alone: no white space
    at either end, no upper-case letter. *)
Definition no_outer_space (s : string) : bool :=
  match list_ascii_of_string s with
  | [] => true
  | c :: l => negb (Reference.isspace c) && negb (Reference.isspace (List.last l c))
  end.

Definition no_upper (s : string) : bool :=
  forallb (fun c => negb (Reference.isupper c)) (list_ascii_of_string s).

(** A stream whose grid-class word was stored by other code and exceeds 32
    bits. *)
Definition wide_class_stream : ios_base :=
  mkStream (fun i => match i with
                     | StreamState.gridClass => 2 ^ 32 + 1
                     | _ => 0
                     end)
           (fun _ => None) true [] [] 0.

(** The 32-bit word found at position [pos] of a put area. *)
Definition word_at (pos : nat) (buf : list ascii) : Z :=
  le_decode (take 4 (drop pos buf)).

(** Sample grids, streams and worlds. *)
Module Sample.

(** A fog volume named "density", saved as half floats, on the tree at
    address 7. *)
Definition fog_grid : GridBase :=
  Grid.setSaveFloatAsHalf true
    (Grid.setGridClass GRID_FOG_VOLUME
       (Grid.setName "density" (mkGrid ∅ "Tree_float_5_4_3" [1; 0; 0] 7))).

(** A grid of unknown class on the same tree, and a level set on another. *)
Definition plain_grid : GridBase :=
  Grid.setSaveFloatAsHalf true
    (Grid.setName "density" (mkGrid ∅ "Tree_float_5_4_3" [1; 0; 0] 7)).

Definition level_set : GridBase :=
  Grid.setGridClass GRID_LEVEL_SET
    (Grid.setName "surface" (mkGrid ∅ "Tree_float_5_4_3" [2; 0; 0] 8)).

Definition meta0 : StreamMetadata.Impl :=
  @StreamMetadata.new_Impl Reference.constants true.

(** A world whose stream is bound to the file-level metadata object 2
    through the shared pointer at address 1; grids at 10, 11 and 12, trees at
    7 and 8. *)
Definition stream0 : ios_base :=
  mkStream (fun i => match i with
                     | StreamState.fileVersion => 224
                     | StreamState.libraryMajorVersion => 12
                     | _ => 0
                     end)
           (fun i => match i with StreamState.metadata => Some 1%nat | _ => None end)
           true [] [] 0.

Definition world0 : World :=
  mkWorld stream0
    (fun a => match a with 1%nat => Some 2%nat | _ => None end)
    (fun _ => meta0)
    (fun g => match g with
              | 10%nat => fog_grid
              | 11%nat => plain_grid
              | _ => level_set
              end)
    (fun t => match t with
              | 7%nat => mkTree "Tree_float_5_4_3" [3; 1; 4]
              | _ => mkTree "Tree_float_5_4_3" [1; 5; 9]
              end)
    100.

Definition archive0 : io.Archive := @io.new_Archive Reference.constants.

End Sample.

(** The archive and the stream [readHeader] has reached when it comes to
    the compression flag (step 5) and to the UUID (step 6), the magic number
    having matched. *)
Definition readHeader_before_compression `{Constants} (a : io.Archive)
    (u : io.Indeterminate) (ist : ios_base) : io.Archive * ios_base :=
  let ist := snd (io.readHeader_magic u ist) in
  let '(a, ist) := io.readHeader_fileVersion u a ist in
  let '(a, ist) := io.readHeader_libraryVersion u a ist in
  io.readHeader_gridOffsets u a ist.

Definition readHeader_before_uuid `{Constants} (a : io.Archive)
    (u : io.Indeterminate) (ist : ios_base) : io.Archive * ios_base :=
  let '(a, ist) := readHeader_before_compression a u ist in
  io.readHeader_compression u a ist.

(** Sample headers. *)
Module SampleHeader.

Definition indeterminate0 : io.Indeterminate :=
  io.mkIndeterminate 0 0 0 0 0 (fun _ => "?"%char) (fun _ => "?"%char) (fun _ => "?"%char).

Definition uuid_text : string := "0F1E2D3C-4B5A-6978-8796-A5B4C3D2E1F0".

Definition input (bs : list ascii) : ios_base :=
  mkStream (fun _ => 0) (fun _ => None) true bs [] 0.

(** A current header: magic, file version 224, library 12.0, grid offsets,
    UUID; then four more bytes. *)
Definition header224 : list ascii :=
  le_encode 8 0x56444220 ++ le_encode 4 224 ++ le_encode 4 12 ++ le_encode 4 0
  ++ le_encode 1 1 ++ list_ascii_of_string uuid_text ++ le_encode 4 2.

(** A header of file version 220, which carries the [isCompressed] byte
    (here 1) between the grid-offsets flag and the UUID. *)
Definition header220 : list ascii :=
  le_encode 8 0x56444220 ++ le_encode 4 220 ++ le_encode 4 1 ++ le_encode 4 0
  ++ le_encode 1 1 ++ le_encode 1 1 ++ list_ascii_of_string uuid_text.

(** A header whose magic bytes are zeroed. *)
Definition header_zeroed : list ascii :=
  le_encode 8 0 ++ le_encode 4 224 ++ le_encode 4 12 ++ le_encode 4 0
  ++ le_encode 1 1 ++ list_ascii_of_string uuid_text.

End SampleHeader.

(** ** Reasoning about computations *)

(** [wp c Q m]: running [c] from the machine [m] ends in a result and a
    machine that satisfy [Q]. *)
Definition wp {A} (c : M A) (Q : Result A -> Machine -> Prop) (m : Machine) : Prop :=
  Q (fst (c m)) (snd (c m)).

(** [c] keeps the property [P] of the world, however it ends. *)
Definition preserves {A} (P : World -> Prop) (c : M A) : Prop :=
  forall m, P (world m) -> P (world (snd (c m))).

(** The value of the stream's metadata slot. *)
Definition metadata_slot (w : World) : option nat :=
  pword (strm w) StreamState.metadata.

(** The order in which the specification has [doReadGrid] read the parts of
    a grid after its metadata, for the format version [v]: from the
    grid-instancing version on, the transform, then, unless the descriptor
    marks an instance, topology and buffers; before, topology, transform,
    buffers. *)
Definition spec_read_order `{Constants} (v : Z) (grid : nat) (gd : GridDescriptor)
    (bbox : BoxType) : list ExtCall :=
  if OPENVDB_FILE_VERSION_GRID_INSTANCING <=? v then
    if isInstance gd then [GridBase_readTransform grid]
    else [GridBase_readTransform grid; GridBase_readTopology grid;
          GridBase_readBuffers grid bbox]
  else [GridBase_readTopology grid; GridBase_readTransform grid;
        GridBase_readBuffers grid bbox].

(** Sample collaborators and machines. *)
Module SampleRun.

(** Collaborators that move the stream: a read consumes one character, a
    write puts one; reading the topology publishes a background pointer, as
    the tree readers do; the buffers of the grid at address 12 cannot be
    read. *)
Definition consume (w : World) : World :=
  set_strm (snd (istream_read 1 ["000"%char] (strm w))) w.

Definition put (c : ascii) (w : World) : World :=
  set_strm (ostream_write [c] (strm w)) w.

Definition ext (c : ExtCall) (w : World) : Result unit * World :=
  match c with
  | GridBase_readMeta _ => (Ok tt, consume w)
  | GridBase_readTransform _ => (Ok tt, consume w)
  | GridBase_readTopology _ =>
    (Ok tt, io.setGridBackgroundValuePtr (Some 50%nat) (consume w))
  | GridBase_readBuffers g _ =>
    if (g =? 12)%nat then (Throw (OPENVDB_THROW IoError "truncated buffers"), consume w)
    else (Ok tt, consume w)
  | GridBase_writeMeta _ => (Ok tt, put "M" w)
  | GridBase_writeTransform _ => (Ok tt, put "X" w)
  | GridBase_writeTopology _ => (Ok tt, put "T" w)
  | GridBase_writeBuffers _ => (Ok tt, put "B" w)
  | GridDescriptor_writeHeader _ => (Ok tt, put "H" w)
  | GridDescriptor_writeStreamPos _ => (Ok tt, put "P" w)
  | GridDescriptor_seekToEnd gd =>
    (Ok tt, set_strm (seekp (getEndPos gd) (strm w)) w)
  | MetaMap_writeMeta _ => (Ok tt, put "F" w)
  end.

(** Float grids get delayed-load metadata, one mask entry per voxel word. *)
Definition populate (g : GridBase) (t : TreeBase) (compression : Z) : option Metadata :=
  if String.eqb (gtype g) "Tree_float_5_4_3"
  then Some (mkMetadata "__delayedload" "" false (map (fun _ => 0) (voxels t)))
  else None.

Definition stats (g : GridBase) (t : TreeBase) : Grid.TreeStats :=
  Grid.mkTreeStats (0, 0, 0) (7, 7, 7) 4096 (Z.of_nat (length (voxels t))).

Definition collaborators : Collaborators :=
  Build_Collaborators ext populate stats true.

(** The sample world with ten characters of input, no call made yet. *)
Definition machine0 : Machine :=
  mkMachine
    (set_strm (mkStream (iword Sample.stream0) (pword Sample.stream0) true
                 (list_ascii_of_string "0123456789") [] 0) Sample.world0)
    [].

(** A descriptor of a primary grid and one of an instance. *)
Definition primary : GridDescriptor :=
  @new_GridDescriptor Reference.helpers "density" "Tree_float_5_4_3" true.

Definition instance : GridDescriptor :=
  setInstanceParentName "density" 
    (@new_GridDescriptor Reference.helpers "copy" "Tree_float_5_4_3" true).

End SampleRun.

(** Collaborators as in [SampleRun], except that writing the metadata of a
    grid leaves the stream bound to the pointer variable at address 3. *)
Module SampleRebind.

Definition ext (c : ExtCall) (w : World) : Result unit * World :=
  match c with
  | GridBase_writeMeta _ =>
    (Ok tt, io.set_pslot StreamState.metadata (Some 3%nat) (SampleRun.put "M" w))
  | _ => SampleRun.ext c w
  end.

Definition collaborators : Collaborators :=
  Build_Collaborators ext SampleRun.populate SampleRun.stats true.

End SampleRebind.

(** The collaborator calls that put a grid on the stream as an instance:
    descriptor header, offsets, the grid's own metadata and transform, and
    on a seekable stream the offsets again and the seek to the end, with the
    final descriptor [gd']. *)
Definition instance_calls (gd : GridDescriptor) (grid : nat) (seekable : bool)
    (gd' : GridDescriptor) : list ExtCall :=
  [GridDescriptor_writeHeader gd; GridDescriptor_writeStreamPos gd;
   GridBase_writeMeta grid; GridBase_writeTransform grid]
  ++ (if seekable
      then [GridDescriptor_writeStreamPos gd'; GridDescriptor_seekToEnd gd']
      else []).

(** The calls that put a grid on the stream as a primary grid: as above
    with the metadata of the shallow copy at [copyOfGrid], and with topology
    and buffers after the transform. *)
Definition primary_calls (gd : GridDescriptor) (grid copyOfGrid : nat) (seekable : bool)
    (gd' : GridDescriptor) : list ExtCall :=
  [GridDescriptor_writeHeader gd; GridDescriptor_writeStreamPos gd;
   GridBase_writeMeta copyOfGrid; GridBase_writeTransform grid;
   GridBase_writeTopology grid; GridBase_writeBuffers grid]
  ++ (if seekable
      then [GridDescriptor_writeStreamPos gd'; GridDescriptor_seekToEnd gd']
      else []).

(** The operations [writeGridInstance] calls: the three of the descriptor,
    and the grid's [writeMeta] and [writeTransform]. *)
Definition called_by_writeGridInstance (c : ExtCall) : bool :=
  match c with
  | GridDescriptor_writeHeader _ | GridDescriptor_writeStreamPos _
  | GridDescriptor_seekToEnd _ | GridBase_writeMeta _ | GridBase_writeTransform _ => true
  | _ => false
  end.

(** Sample name-to-grid maps for [connectInstance]. *)
Module SampleInstance.

(** The instance "copy" (grid 12, on tree 8) and its parent "density"
    (grid 10, on tree 7). *)
Definition named : gmap string (option nat) :=
  <["copy" := Some 12%nat]> (<["density" := Some 10%nat]> ∅).

(** The same without the parent. *)
Definition orphaned : gmap string (option nat) :=
  <["copy" := Some 12%nat]> ∅.

Definition no_instancing : io.Archive :=
  io.mkArchive 224 (12, 0) "" true false 6 true.

End SampleInstance.

(** What a run has logged since the machine [m]: the call [first] and then
    more; and when it has returned [x], a list [l] of calls with [post x l]. *)
Definition logged {A} (m : Machine) (first : ExtCall)
    (post : A -> list ExtCall -> Prop) (r : Result A) (m' : Machine) : Prop :=
  (exists l, calls m' = calls m ++ first :: l)
  /\ (forall x, r = Ok x -> exists l, calls m' = calls m ++ l /\ post x l).

(** ** [Grid.cc]: the grid type registry *)

(** The registry is a [std::map<Name, GridFactory>] behind a mutex; every
    function below takes the lock for its whole body, so each is one step on
    the map.  A factory is represented by the grid a call to it creates. *)
Module GridRegistry.

Abbreviation GridFactoryMap := (gmap string GridBase).

Definition isRegistered (name : string) (mMap : GridFactoryMap) : bool :=
  match mMap !! name with
  | Some _ => true
  | None => false
  end.

(** [registerGrid]: the new registry, or the exception. *)
Definition registerGrid (name : string) (factory : GridBase) (mMap : GridFactoryMap)
  : Result GridFactoryMap :=
  match mMap !! name with
  | Some _ =>
    Throw (OPENVDB_THROW KeyError ("Grid type " ++ name ++ " is already registered")%string)
  | None => Ok (<[name := factory]> mMap)
  end.

Definition unregisterGrid (name : string) (mMap : GridFactoryMap) : GridFactoryMap :=
  delete name mMap.

Definition createGrid (name : string) (mMap : GridFactoryMap) : Result GridBase :=
  match mMap !! name with
  | None =>
    Throw (OPENVDB_THROW LookupError
             ("Cannot create grid of unregistered type " ++ name)%string)
  | Some factory => Ok factory
  end.

Definition clearRegistry (mMap : GridFactoryMap) : GridFactoryMap := ∅.

End GridRegistry.

(** ** [io/Archive.cc]: the constructor and destructor of [StreamState] *)

Module StreamStateInit.

(** The struct: eleven indices into the streams' extensible arrays. *)
Record StreamState : Type := mkStreamState {
  magicNumber : Z;
  fileVersion : Z;
  libraryMajorVersion : Z;
  libraryMinorVersion : Z;
  dataCompression : Z;
  writeGridStatsMetadata : Z;
  gridBackground : Z;
  gridClass : Z;
  halfFloat : Z;
  mappedFile : Z;
  metadata : Z;
}.

(** What the constructor works on: the counter behind
    [std::ios_base::xalloc], the two arrays of [std::cout], and the
    [StreamState] objects in memory, by address. *)
Record Process : Type := mkProcess {
  next_index : Z;
  cout_iword : Z -> Z;
  cout_pword : Z -> option nat;
  objects : nat -> StreamState;
}.

Definition xalloc (p : Process) : Z * Process :=
  (next_index p,
   mkProcess (next_index p + 1) (cout_iword p) (cout_pword p) (objects p)).

Section WithConstants.
Context `{Constants}.

Definition MAGIC_NUMBER : Z :=
  long (Z.lor (uint64 (Z.shiftl (uint64 OPENVDB_MAGIC) 32)) (uint64 OPENVDB_MAGIC)).

(** The search for a lower-numbered entry holding the magic number: the
    first such index, or [-1]. *)
Definition existing_array (p : Process) (magicNumber_ : Z) : Z :=
  match List.find (fun i => cout_iword p i =? MAGIC_NUMBER)
                  (map Z.of_nat (seq 0 (Z.to_nat magicNumber_))) with
  | Some i => i
  | None => -1
  end.

(** [StreamState::StreamState()], constructing the object at address
    [this]. *)
Definition construct (this : nat) (p : Process) : Process :=
  let '(magicNumber_, p) := xalloc p in
  let p := mkProcess (next_index p) (upd (cout_iword p) magicNumber_ MAGIC_NUMBER)
             (upd (cout_pword p) magicNumber_ (Some this)) (objects p) in
  let existingArray := existing_array p magicNumber_ in
  let '(s, p) :=
    match (if existingArray >=? 0 then cout_pword p existingArray else None) with
    | Some other_ =>
      let other := objects p other_ in
      if negb (mappedFile other =? 0) then
        (mkStreamState magicNumber_ (fileVersion other) (libraryMajorVersion other)
           (libraryMinorVersion other) (dataCompression other)
           (writeGridStatsMetadata other) (gridBackground other) (gridClass other)
           (halfFloat other) (mappedFile other) (metadata other), p)
      else
        let '(mappedFile_, p) := xalloc p in
        let '(metadata_, p) := xalloc p in
        let '(halfFloat_, p) := xalloc p in
        (mkStreamState magicNumber_ (fileVersion other) (libraryMajorVersion other)
           (libraryMinorVersion other) (dataCompression other)
           (writeGridStatsMetadata other) (gridBackground other) (gridClass other)
           halfFloat_ mappedFile_ metadata_, p)
    | None =>
      let '(fileVersion_, p) := xalloc p in
      let '(libraryMajorVersion_, p) := xalloc p in
      let '(libraryMinorVersion_, p) := xalloc p in
      let '(dataCompression_, p) := xalloc p in
      let '(writeGridStatsMetadata_, p) := xalloc p in
      let '(gridBackground_, p) := xalloc p in
      let '(gridClass_, p) := xalloc p in
      let '(mappedFile_, p) := xalloc p in
      let '(metadata_, p) := xalloc p in
      let '(halfFloat_, p) := xalloc p in
      (mkStreamState magicNumber_ fileVersion_ libraryMajorVersion_
         libraryMinorVersion_ dataCompression_ writeGridStatsMetadata_
         gridBackground_ gridClass_ halfFloat_ mappedFile_ metadata_, p)
    end in
  mkProcess (next_index p) (cout_iword p) (cout_pword p) (upd (objects p) this s).

(** [StreamState::~StreamState()] of the object at [this]. *)
Definition destruct_ (this : nat) (p : Process) : Process :=
  let magicNumber_ := magicNumber (objects p this) in
  mkProcess (next_index p) (upd (cout_iword p) magicNumber_ 0)
    (upd (cout_pword p) magicNumber_ None) (objects p).

(** The ten indices an archive uses on a stream. *)
Definition slots (s : StreamState) : list Z :=
  [fileVersion s; libraryMajorVersion s; libraryMinorVersion s; dataCompression s;
   writeGridStatsMetadata s; gridBackground s; gridClass s; halfFloat s;
   mappedFile s; metadata s].

End WithConstants.

End StreamStateInit.

(** ** Vocabulary of the further properties *)

(** Everything of a grid but the metadata entry [key] is the same in [g']
    as in [g]. *)
Definition same_except (key : string) (g g' : GridBase) : Prop :=
  (forall k, k <> key -> gmeta g' !! k = gmeta g !! k)
  /\ gtype g' = gtype g /\ gtransform g' = gtransform g /\ gtree g' = gtree g.

(** What the six metadata-backed getters of [GridBase] read. *)
Definition readings `{Helpers} (g : GridBase)
  : string * string * bool * bool * GridClass * Grid.VecType :=
  (Grid.getName g, Grid.getCreator g, Grid.saveFloatAsHalf g,
   Grid.isInWorldSpace g, Grid.getGridClass g, Grid.getVectorType g).

(** A process that has handed out four stream indices and holds no
    [StreamState] yet. *)
Module SampleProcess.

Definition process0 : StreamStateInit.Process :=
  StreamStateInit.mkProcess 4 (fun _ => 0) (fun _ => None)
    (fun _ => StreamStateInit.mkStreamState 0 0 0 0 0 0 0 0 0 0 0).

End SampleProcess.

(** The members [StreamMetadata::transferTo] passes on, as a bound
    [StreamMetadata] [m0] receives them from [m] through the setters. *)
Definition received (m m0 : StreamMetadata.Impl) : StreamMetadata.Impl :=
  StreamMetadata.setWriteGridStats (StreamMetadata.mWriteGridStats m)
    (StreamMetadata.setHalfFloat (StreamMetadata.mHalfFloat m)
       (StreamMetadata.setGridClass (StreamMetadata.mGridClass m)
          (StreamMetadata.setBackgroundPtr (StreamMetadata.mBackgroundPtr m)
             (StreamMetadata.setCompression (StreamMetadata.mCompression m)
                (StreamMetadata.setLibraryVersion (StreamMetadata.mLibraryVersion m)
                   (StreamMetadata.setFileVersion (StreamMetadata.mFileVersion m) m0)))))).

(** A good stream that holds the characters [bs] to extract. *)
Definition with_gbuf (bs : list ascii) (s : ios_base) : ios_base :=
  mkStream (iword s) (pword s) true bs (pbuf s) (ppos s).

(** The layout of a file header of the current version: magic number, file
    version, library version, grid-offsets flag and the 36 characters of the
    UUID. *)
Definition header_bytes `{Constants} (seekable : bool) (uuid : list ascii) : list ascii :=
  le_encode 8 OPENVDB_MAGIC ++ le_encode 4 OPENVDB_FILE_VERSION
  ++ le_encode 4 OPENVDB_LIBRARY_MAJOR_VERSION ++ le_encode 4 OPENVDB_LIBRARY_MINOR_VERSION
  ++ le_encode 1 (Z.b2z seekable) ++ uuid.

(** An upper-case hexadecimal digit. *)
Definition is_hex (c : ascii) : bool :=
  let n := char_val c in
  ((48 <=? n) && (n <=? 57)) || ((65 <=? n) && (n <=? 70)).

(** Thirty-six characters, hyphens at 8, 13, 18 and 23, hexadecimal digits
    elsewhere. *)
Definition uuid_shape (s : string) : bool :=
  let l := list_ascii_of_string s in
  (length l =? 36)%nat
  && forallb (fun kc : nat * ascii =>
                if bool_decide (fst kc ∈ [8; 13; 18; 23]%nat)
                then Ascii.eqb (snd kc) "-"%char else is_hex (snd kc))
             (combine (seq 0 36) l).

(** The [StreamMetadata] object [j] holds [m0] and is not the one the stream
    is bound to. *)
Definition file_metadata_kept (j : nat) (m0 : StreamMetadata.Impl) (w : World) : Prop :=
  metas w j = m0 /\ io.getStreamMetadataPtr w <> Some j.

(** The grid object [g] is [x], among the objects allocated so far. *)
Definition grid_kept (g : nat) (x : GridBase) (w : World) : Prop :=
  grids w g = x /\ (g < brk w)%nat.

(** The unique names of the descriptors whose headers a log records, in the
    order they were written. *)
Definition header_names (l : list ExtCall) : list string :=
  omap (fun c => match c with
                 | GridDescriptor_writeHeader gd => Some (uniqueName gd)
                 | _ => None
                 end) l.

Definition not_header (c : ExtCall) : bool :=
  match c with GridDescriptor_writeHeader _ => false | _ => true end.

(** Every run of [c] adds to the log only calls that pass [ok]. *)
Definition appends {A} (ok : ExtCall -> bool) (c : M A) : Prop :=
  forall m, exists l, calls (snd (c m)) = calls m ++ l /\ forallb ok l = true.

(** No run of [c] diverges. *)
Definition comes_back {A} (c : M A) : Prop :=
  forall m, fst (c m) <> Diverge.

(** The names written so far are pairwise distinct and all in use. *)
Definition names_in_use (st : gmap nat GridDescriptor * gset string) (m : Machine) : Prop :=
  NoDup (header_names (calls m))
  /\ forall n, n ∈ header_names (calls m) -> n ∈ snd st.

(** Thirty-two upper-case hexadecimal digits: the UUID of a file older than
    the textual UUID. *)
Definition legacy_uuid_shape (s : string) : bool :=
  let l := list_ascii_of_string s in
  (length l =? 32)%nat && forallb is_hex l.

(** How many of the non-null grids of the list are named [name]. *)
Fixpoint occurrences (w : World) (name : string) (grids_ : list (option nat)) : Z :=
  match grids_ with
  | [] => 0
  | Some g :: rest =>
    (if String.eqb (Grid.getName (grids w g)) name then 1 else 0)
    + occurrences w name rest
  | None :: rest => occurrences w name rest
  end.

(** The archive's flags are the stream's data compression, in the slot and
    in the bound [StreamMetadata]. *)
Definition archive_flags_set (a : io.Archive) (w : World) : Prop :=
  io.getDataCompression (strm w) = uint32 (io.compression a)
  /\ forall i, io.getStreamMetadataPtr w = Some i ->
               StreamMetadata.mCompression (metas w i) = io.compression a.

(** ** The instancing rule of [write], in the words of the specification *)

Section InstancingRule.

Context `{Helpers}.

(** Whether instancing is enabled, whether the stream is seekable, and the
    grid objects by address. *)
Variables (enable seekable : bool) (gs : nat -> GridBase).

(** The specification's test on a grid, given the map of the grids written
    before it as primary grids (from the tree pointer to the grid written
    for that tree and the unique name of its descriptor): the grid's tree
    pointer is in the map, the half-float flags of the two grids are equal,
    and instancing is enabled.  The answer is the grid to be named as
    parent, with its descriptor's name. *)
Definition spec_instance_parent (recorded : gmap nat (nat * string)) (grid : nat)
  : option (nat * string) :=
  match recorded !! gtree (gs grid) with
  | Some (parent, name) =>
    if enable && Bool.eqb (Grid.saveFloatAsHalf (gs parent)) (Grid.saveFloatAsHalf (gs grid))
    then Some (parent, name)
    else None
  | None => None
  end.

(** The specification's second loop of [write], as a relation between the
    map on entry, the grids to write, the calls logged and the map at the
    end ([None] when an exception stopped the loop).  A null entry writes
    nothing.  A grid that passes the test is declared an instance of the
    grid in the map: the header of a descriptor naming that grid's
    descriptor as instance parent, then the calls of [writeGridInstance],
    and the map stays.  Any other grid is declared a primary grid: the
    header of a descriptor without parent, then the calls of [writeGrid],
    and its tree pointer is recorded with the grid and the descriptor's
    name.  A grid whose writer throws has its header logged, and the loop
    ends there. *)
Inductive spec_write_loop
  : gmap nat (nat * string) -> list (option nat) -> list ExtCall ->
    option (gmap nat (nat * string)) -> Prop :=
| loop_end recorded :
    spec_write_loop recorded [] [] (Some recorded)
| loop_null recorded rest l final :
    spec_write_loop recorded rest l final ->
    spec_write_loop recorded (None :: rest) l final
| loop_instance recorded grid rest parent parentName name gd' l final :
    spec_instance_parent recorded grid = Some (parent, parentName) ->
    isInstance (setInstanceParentName parentName
                  (new_GridDescriptor name (gtype (gs grid))
                     (Grid.saveFloatAsHalf (gs grid)))) = true ->
    spec_write_loop recorded rest l final ->
    spec_write_loop recorded (Some grid :: rest)
      (instance_calls
         (setInstanceParentName parentName
            (new_GridDescriptor name (gtype (gs grid)) (Grid.saveFloatAsHalf (gs grid))))
         grid seekable gd' ++ l)
      final
| loop_primary recorded grid rest name gd' copyOfGrid l final :
    spec_instance_parent recorded grid = None ->
    isInstance (new_GridDescriptor name (gtype (gs grid))
                  (Grid.saveFloatAsHalf (gs grid))) = false ->
    spec_write_loop (<[gtree (gs grid) := (grid, name)]> recorded) rest l final ->
    spec_write_loop recorded (Some grid :: rest)
      (primary_calls
         (new_GridDescriptor name (gtype (gs grid)) (Grid.saveFloatAsHalf (gs grid)))
         grid copyOfGrid seekable gd' ++ l)
      final
| loop_instance_thrown recorded grid rest parent parentName name l :
    spec_instance_parent recorded grid = Some (parent, parentName) ->
    isInstance (setInstanceParentName parentName
                  (new_GridDescriptor name (gtype (gs grid))
                     (Grid.saveFloatAsHalf (gs grid)))) = true ->
    spec_write_loop recorded (Some grid :: rest)
      (GridDescriptor_writeHeader
         (setInstanceParentName parentName
            (new_GridDescriptor name (gtype (gs grid)) (Grid.saveFloatAsHalf (gs grid))))
       :: l)
      None
| loop_primary_thrown recorded grid rest name l :
    spec_instance_parent recorded grid = None ->
    isInstance (new_GridDescriptor name (gtype (gs grid))
                  (Grid.saveFloatAsHalf (gs grid))) = false ->
    spec_write_loop recorded (Some grid :: rest)
      (GridDescriptor_writeHeader
         (new_GridDescriptor name (gtype (gs grid)) (Grid.saveFloatAsHalf (gs grid)))
       :: l)
      None.

(** The tree map [write] keeps agrees with the map of the specification:
    the same tree pointers, and for each the descriptor of the recorded
    grid, with its name, which is not empty, and its half-float flag. *)
Definition recorded_in (treeMap : gmap nat GridDescriptor)
    (recorded : gmap nat (nat * string)) : Prop :=
  forall t, match treeMap !! t, recorded !! t with
            | Some gd, Some (parent, name) =>
              uniqueName gd = name /\ name <> ""
              /\ saveFloatAsHalf gd = Grid.saveFloatAsHalf (gs parent)
            | None, None => True
            | _, _ => False
            end.

End InstancingRule.

(** The grid objects below the address [bound] are those of [gs]. *)
Definition grids_kept (gs : nat -> GridBase) (bound : nat) (w : World) : Prop :=
  forall g, (g < bound)%nat -> grid_kept g (gs g) w.

(** * Properties *)

(** ** Machine integers *)

Section MachFacts.

Lemma char_val_range (c : ascii) : 0 <= char_val c < 256.
Proof.
  unfold char_val. pose proof (N_ascii_bounded c). lia.
Qed.

Lemma char_val_char_of (z : Z) : char_val (char_of z) = z mod 256.
Proof.
  unfold char_val, char_of.
  assert (Hr : 0 <= z mod 256 < 256) by (apply Z.mod_pos_bound; lia).
  rewrite N_ascii_embedding by lia. lia.
Qed.

Lemma le_decode_encode (n : nat) (z : Z) :
  le_decode (le_encode n z) = z mod 256 ^ Z.of_nat n.
Proof.
  revert z. induction n as [|n IH]; intros z.
  - simpl. rewrite Z.mod_1_r. reflexivity.
  - cbn [le_encode le_decode]. rewrite IH, char_val_char_of.
    rewrite Nat2Z.inj_succ, Z.pow_succ_r by lia.
    rewrite Z.rem_mul_r by lia. reflexivity.
Qed.

Lemma le_decode_encode_uint32 (z : Z) :
  0 <= z < 2 ^ 32 -> le_decode (le_encode 4 z) = z.
Proof.
  intros Hz. rewrite le_decode_encode. apply Z.mod_small.
  change (256 ^ Z.of_nat 4) with (2 ^ 32). lia.
Qed.

Lemma length_le_encode (n : nat) (z : Z) : length (le_encode n z) = n.
Proof. revert z. induction n; intros; simpl; auto. Qed.

Lemma le_decode_range (bs : list ascii) :
  0 <= le_decode bs < 256 ^ Z.of_nat (length bs).
Proof.
  induction bs as [|b bs IH].
  - simpl. lia.
  - cbn [le_decode length]. rewrite Nat2Z.inj_succ, Z.pow_succ_r by lia.
    pose proof (char_val_range b). lia.
Qed.

Lemma mod_mod_32_64 (z : Z) : (z mod 2 ^ 64) mod 2 ^ 32 = z mod 2 ^ 32.
Proof.
  apply Z.mod_mod_divide. exists (2 ^ 32). reflexivity.
Qed.

Lemma uint32_long (z : Z) : uint32 (long z) = uint32 z.
Proof.
  unfold uint32, long, to_signed, wrap.
  destruct (z mod 2 ^ 64 <? 2 ^ (64 - 1)).
  - apply mod_mod_32_64.
  - rewrite Zminus_mod, mod_mod_32_64.
    change (2 ^ 64 mod 2 ^ 32) with 0. rewrite Z.sub_0_r. apply Z.mod_mod. lia.
Qed.

Lemma uint32_small (z : Z) : 0 <= z < 2 ^ 32 -> uint32 z = z.
Proof. intros. unfold uint32, wrap. apply Z.mod_small. lia. Qed.

Lemma uint32_range (z : Z) : 0 <= uint32 z < 2 ^ 32.
Proof. unfold uint32, wrap. apply Z.mod_pos_bound. lia. Qed.

(** Clearing bits of an unsigned word keeps it an unsigned word. *)
Lemma land_lnot_range (c z : Z) :
  0 <= c < 2 ^ 32 -> 0 <= Z.land c (Z.lnot z) < 2 ^ 32.
Proof.
  intros Hc. split.
  - apply Z.land_nonneg. lia.
  - rewrite <- Z.sub_land_same_l.
    assert (0 <= Z.land c z) by (apply Z.land_nonneg; lia). lia.
Qed.

Lemma land_lnot_clears (c z : Z) : Z.land (Z.land c (Z.lnot z)) z = 0.
Proof.
  rewrite <- Z.land_assoc, (Z.land_comm (Z.lnot z)), Z.land_lnot_diag.
  apply Z.land_0_r.
Qed.

Lemma land_lnot_keeps (c z n : Z) :
  Z.testbit z n = false -> Z.testbit (Z.land c (Z.lnot z)) n = Z.testbit c n.
Proof.
  intros Hn. rewrite Z.land_spec.
  destruct (Z.neg_nonneg_cases n) as [Hneg|Hpos].
  - rewrite !Z.testbit_neg_r by lia. reflexivity.
  - rewrite Z.lnot_spec by lia. rewrite Hn. apply andb_true_r.
Qed.

End MachFacts.

(** ** [Grid.cc]: the grid-class codec *)

Section GridClassCodec.

Lemma drop_spaces_id (l : list ascii) :
  match l with
  | [] => True
  | c :: _ => Reference.isspace c = false
  end -> Reference.drop_spaces l = l.
Proof.
  destruct l as [|c l]; simpl; intros Hc; [reflexivity|].
  rewrite Hc. reflexivity.
Qed.

Lemma last_default_irrelevant (a : ascii) (l : list ascii) (c d : ascii) :
  List.last (a :: l) c = List.last (a :: l) d.
Proof.
  revert a. induction l as [|b l IH]; intros a; [reflexivity|].
  change (List.last (b :: l) c = List.last (b :: l) d). apply IH.
Qed.

Lemma rev_head_last (c : ascii) (l : list ascii) :
  exists l', rev (c :: l) = List.last l c :: l'.
Proof.
  revert c. induction l as [|d l IH]; intros c.
  - exists []. reflexivity.
  - destruct (IH d) as [l' Hl']. exists (l' ++ [c]).
    change (rev (c :: d :: l)) with (rev (d :: l) ++ [c]).
    rewrite Hl'.
    destruct l as [|a l]; [reflexivity|].
    change (List.last (d :: a :: l) c) with (List.last (a :: l) c).
    rewrite (last_default_irrelevant a l c d). reflexivity.
Qed.

(** The reference [trim] is the identity on strings without white space at
    their ends. *)
Lemma Reference_trim_id (s : string) :
  no_outer_space s = true -> Reference.trim s = s.
Proof.
  unfold no_outer_space, Reference.trim.
  destruct (list_ascii_of_string s) as [|c l] eqn:Hs.
  - intros _. simpl. rewrite <- (string_of_list_ascii_of_string s), Hs. reflexivity.
  - intros Hc. apply andb_prop in Hc. destruct Hc as [Hc Hl].
    apply negb_true_iff in Hc. apply negb_true_iff in Hl.
    rewrite (drop_spaces_id (c :: l)) by exact Hc.
    destruct (rev_head_last c l) as [l' Hl'].
    rewrite (drop_spaces_id (rev (c :: l))) by (rewrite Hl'; exact Hl).
    rewrite rev_involutive, <- Hs. apply string_of_list_ascii_of_string.
Qed.

(** The reference [to_lower] is the identity on strings without upper-case
    letters. *)
Lemma Reference_to_lower_id (s : string) :
  no_upper s = true -> Reference.to_lower s = s.
Proof.
  unfold no_upper, Reference.to_lower. intros Hs.
  rewrite <- (string_of_list_ascii_of_string s) at 2. f_equal.
  induction (list_ascii_of_string s) as [|c l IH]; [reflexivity|].
  simpl in Hs. apply andb_prop in Hs. destruct Hs as [Hc Hl].
  apply negb_true_iff in Hc. simpl. unfold Reference.tolower at 1.
  rewrite Hc. f_equal. apply IH. exact Hl.
Qed.

Context `{Helpers}.

(** C9.  [gridClassToString] maps [GRID_UNKNOWN], [GRID_LEVEL_SET],
    [GRID_FOG_VOLUME], [GRID_STAGGERED] to "unknown", "level set",
    "fog volume", "staggered", and [stringToGridClass] maps each of these
    strings back to its class, for every [trim] that leaves a string without
    outer white space alone and every [to_lower] that leaves a string
    without upper-case letters alone. *)
Theorem gridClass_string_roundtrip
    (trim_id : forall s, no_outer_space s = true -> trim s = s)
    (to_lower_id : forall s, no_upper s = true -> to_lower s = s) :
  (Grid.gridClassToString GRID_UNKNOWN = "unknown"
   /\ Grid.gridClassToString GRID_LEVEL_SET = "level set"
   /\ Grid.gridClassToString GRID_FOG_VOLUME = "fog volume"
   /\ Grid.gridClassToString GRID_STAGGERED = "staggered")
  /\ forall c : GridClass, Grid.stringToGridClass (Grid.gridClassToString c) = c.
Proof.
  split; [repeat split|].
  intros c. unfold Grid.stringToGridClass.
  rewrite (trim_id (Grid.gridClassToString c)) by (destruct c; reflexivity).
  rewrite (to_lower_id (Grid.gridClassToString c)) by (destruct c; reflexivity).
  destruct c; reflexivity.
Qed.

End GridClassCodec.

(** The round trip of "fog volume" with the reference helpers. *)
Lemma gridClass_string_roundtrip_witness :
  (forall s, no_outer_space s = true -> Reference.trim s = s)
  /\ (forall s, no_upper s = true -> Reference.to_lower s = s)
  /\ @Grid.stringToGridClass Reference.helpers
       (Grid.gridClassToString GRID_FOG_VOLUME) = GRID_FOG_VOLUME.
Proof.
  split; [exact Reference_trim_id|]. split; [exact Reference_to_lower_id|].
  exact (proj2 (@gridClass_string_roundtrip Reference.helpers
                  Reference_trim_id Reference_to_lower_id) GRID_FOG_VOLUME).
Defined.

(** ** [getGridClass] on a stream *)

Section StreamGridClass.

Import StreamState.

(** C10, as the code has it.  [io::getGridClass] always returns a valid
    grid class.  It looks at the slot word reduced to 32 bits: when that is at
    least [NUM_GRID_CLASSES] (in particular for every word from
    [NUM_GRID_CLASSES] up to [2^32 - 1], and for every negative word from
    [-2^31] on) the result is [GRID_UNKNOWN], otherwise it is the reduced
    word. *)
Theorem getGridClass_valid (s : ios_base) :
  (0 <= io.getGridClass s < NUM_GRID_CLASSES)
  /\ (NUM_GRID_CLASSES <= uint32 (iword s gridClass) ->
      io.getGridClass s = GridClass_val GRID_UNKNOWN)
  /\ (NUM_GRID_CLASSES <= iword s gridClass < 2 ^ 32 ->
      io.getGridClass s = GridClass_val GRID_UNKNOWN)
  /\ (- 2 ^ 31 <= iword s gridClass < 0 ->
      io.getGridClass s = GridClass_val GRID_UNKNOWN)
  /\ (uint32 (iword s gridClass) < NUM_GRID_CLASSES ->
      io.getGridClass s = uint32 (iword s gridClass)).
Proof.
  unfold io.getGridClass, NUM_GRID_CLASSES. cbn [GridClass_val].
  pose proof (uint32_range (iword s gridClass)) as Hr.
  repeat split.
  - destruct (uint32 (iword s gridClass) >=? 3 + 1) eqn:E; lia.
  - destruct (uint32 (iword s gridClass) >=? 3 + 1) eqn:E; lia.
  - intros Hge. destruct (uint32 (iword s gridClass) >=? 3 + 1) eqn:E; lia.
  - intros Hw. rewrite uint32_small by lia.
    destruct (iword s gridClass >=? 3 + 1) eqn:E; lia.
  - intros Hw.
    assert (Hu : uint32 (iword s gridClass) = iword s gridClass + 2 ^ 32).
    { unfold uint32, wrap. symmetry.
      apply (Z.mod_unique_pos _ _ (-1)); lia. }
    rewrite Hu. destruct (iword s gridClass + 2 ^ 32 >=? 3 + 1) eqn:E; lia.
  - intros Hlt. destruct (uint32 (iword s gridClass) >=? 3 + 1) eqn:E; lia.
Qed.

(** The valid range and the sanitized range, on the stream whose word is
    [2^32 + 1]. *)
Lemma getGridClass_valid_witness :
  0 <= io.getGridClass wide_class_stream < NUM_GRID_CLASSES
  /\ io.getGridClass wide_class_stream = uint32 (iword wide_class_stream gridClass).
Proof.
  destruct (getGridClass_valid wide_class_stream) as (Hv & _ & _ & _ & Hs).
  split; [exact Hv|]. apply Hs. vm_compute. reflexivity.
Defined.

(** C10, as stated, fails: the slot word [2^32 + 1] is at least
    [NUM_GRID_CLASSES], and [io::getGridClass] answers [GRID_LEVEL_SET]. *)
Lemma getGridClass_wide_word_counterexample :
  NUM_GRID_CLASSES <= iword wide_class_stream gridClass
  /\ io.getGridClass wide_class_stream = GridClass_val GRID_LEVEL_SET
  /\ io.getGridClass wide_class_stream <> GridClass_val GRID_UNKNOWN.
Proof.
  vm_compute. repeat split; congruence.
Qed.

End StreamGridClass.

(** ** Frame lemmas for the stream accessors *)

Section Frames.

Import StreamState io.

Lemma upd_eq {K V : Type} `{EqDecision K} (f : K -> V) (k : K) (v : V) :
  upd f k v k = v.
Proof. unfold upd. destruct (decide (k = k)); congruence. Qed.

Lemma upd_ne {K V : Type} `{EqDecision K} (f : K -> V) (k k' : K) (v : V) :
  k' <> k -> upd f k v k' = f k'.
Proof. unfold upd. intros Hne. destruct (decide (k' = k)); congruence. Qed.

Lemma strm_on_meta f w : strm (on_meta f w) = strm w.
Proof. unfold on_meta. destruct (getStreamMetadataPtr w); reflexivity. Qed.

Lemma ptrs_on_meta f w : ptrs (on_meta f w) = ptrs w.
Proof. unfold on_meta. destruct (getStreamMetadataPtr w); reflexivity. Qed.

Lemma grids_on_meta f w : grids (on_meta f w) = grids w.
Proof. unfold on_meta. destruct (getStreamMetadataPtr w); reflexivity. Qed.

Lemma trees_on_meta f w : trees (on_meta f w) = trees w.
Proof. unfold on_meta. destruct (getStreamMetadataPtr w); reflexivity. Qed.

Lemma brk_on_meta f w : brk (on_meta f w) = brk w.
Proof. unfold on_meta. destruct (getStreamMetadataPtr w); reflexivity. Qed.

Lemma metas_on_meta f w i :
  getStreamMetadataPtr w = Some i -> metas (on_meta f w) i = f (metas w i).
Proof.
  unfold on_meta. intros ->. simpl. apply upd_eq.
Qed.

Lemma getStreamMetadataPtr_on_meta f w :
  getStreamMetadataPtr (on_meta f w) = getStreamMetadataPtr w.
Proof.
  unfold getStreamMetadataPtr. rewrite strm_on_meta, ptrs_on_meta. reflexivity.
Qed.

Lemma getStreamMetadataPtr_set_slot i v w :
  getStreamMetadataPtr (set_slot i v w) = getStreamMetadataPtr w.
Proof. reflexivity. Qed.

Lemma pword_set_slot i v w j :
  pword (strm (set_slot i v w)) j = pword (strm w) j.
Proof. reflexivity. Qed.

Lemma iword_set_slot i v w :
  iword (strm (set_slot i v w)) i = long v.
Proof. simpl. apply upd_eq. Qed.

Lemma iword_set_slot_ne i v w j :
  j <> i -> iword (strm (set_slot i v w)) j = iword (strm w) j.
Proof. intros Hne. simpl. apply upd_ne. exact Hne. Qed.

Lemma strm_setDataCompression c w :
  strm (setDataCompression c w) = set_iword dataCompression (long c) (strm w).
Proof. unfold setDataCompression. rewrite strm_on_meta. reflexivity. Qed.

Lemma strm_setGridClass c w :
  strm (setGridClass c w) = set_iword gridClass (long c) (strm w).
Proof. unfold setGridClass. rewrite strm_on_meta. reflexivity. Qed.

Lemma strm_setGridBackgroundValuePtr p w :
  strm (setGridBackgroundValuePtr p w) = set_pword gridBackground p (strm w).
Proof. unfold setGridBackgroundValuePtr. rewrite strm_on_meta. reflexivity. Qed.

Lemma metas_setDataCompression c w i :
  getStreamMetadataPtr w = Some i ->
  StreamMetadata.mCompression (metas (setDataCompression c w) i) = c.
Proof.
  intros Hi. unfold setDataCompression.
  rewrite metas_on_meta by (rewrite getStreamMetadataPtr_set_slot; exact Hi).
  destruct (metas (set_slot dataCompression c w) i). reflexivity.
Qed.

(** What [write] leaves at the old put position. *)
Lemma word_at_write_uint32 (c : Z) (s : ios_base) :
  good s = true -> (ppos s <= length (pbuf s))%nat -> 0 <= c < 2 ^ 32 ->
  word_at (ppos s) (pbuf (write_uint32 c s)) = c
  /\ ppos (write_uint32 c s) = (ppos s + 4)%nat.
Proof.
  intros Hg Hp Hc. unfold write_uint32, ostream_write, word_at. rewrite Hg.
  cbn [pbuf ppos].
  split; [|rewrite length_le_encode; reflexivity].
  rewrite drop_app_length' by (rewrite length_take; lia).
  rewrite take_app_length' by (symmetry; apply length_le_encode).
  apply le_decode_encode_uint32. exact Hc.
Qed.

End Frames.

(** ** Per-grid compression *)

Section GridCompression.

Import StreamState io.
Context `{Constants} `{Helpers}.

(** The flags [setGridCompression] settles on. *)
Lemma setGridCompression_unfold (a : Archive) (grid : GridBase) (w : World) :
  exists c,
    c = match Grid.getGridClass grid with
        | GRID_LEVEL_SET | GRID_FOG_VOLUME => Z.land (compression a) (Z.lnot COMPRESS_ZIP)
        | GRID_STAGGERED | GRID_UNKNOWN => compression a
        end
    /\ setGridCompression a grid w =
       set_strm (write_uint32 c (strm (setDataCompression c w))) (setDataCompression c w).
Proof. eexists. split; reflexivity. Qed.

(** C3.  On a good stream, [setGridCompression] writes a 32-bit word [c] at
    the put position and makes [c] the stream's data compression, in the
    slot and in the bound [StreamMetadata].  For a level set or a fog volume
    [c] is the archive's flags with the bits of [COMPRESS_ZIP] cleared and
    every other bit as it was; for a staggered or unknown grid [c] is the
    archive's flags. *)
Theorem setGridCompression_flags (a : Archive) (grid : GridBase) (w : World)
    (Hgood : good (strm w) = true)
    (Hpos : (ppos (strm w) <= length (pbuf (strm w)))%nat)
    (Hflags : 0 <= compression a < 2 ^ 32) :
  let w' := setGridCompression a grid w in
  let c := word_at (ppos (strm w)) (pbuf (strm w')) in
  ppos (strm w') = (ppos (strm w) + 4)%nat
  /\ (Grid.getGridClass grid = GRID_LEVEL_SET \/ Grid.getGridClass grid = GRID_FOG_VOLUME ->
      c = Z.land (compression a) (Z.lnot COMPRESS_ZIP)
      /\ Z.land c COMPRESS_ZIP = 0
      /\ forall n, Z.testbit COMPRESS_ZIP n = false ->
                   Z.testbit c n = Z.testbit (compression a) n)
  /\ (Grid.getGridClass grid = GRID_STAGGERED \/ Grid.getGridClass grid = GRID_UNKNOWN ->
      c = compression a)
  /\ getDataCompression (strm w') = c
  /\ (forall i, getStreamMetadataPtr w = Some i ->
                StreamMetadata.mCompression (metas w' i) = c).
Proof.
  intros w' c.
  destruct (setGridCompression_unfold a grid w) as (c0 & Hc0 & Hw).
  assert (Hr : 0 <= c0 < 2 ^ 32).
  { rewrite Hc0. destruct (Grid.getGridClass grid);
      auto using land_lnot_range. }
  assert (Hs : strm w' = write_uint32 c0 (set_iword dataCompression (long c0) (strm w))).
  { unfold w'. rewrite Hw. simpl. rewrite strm_setDataCompression. reflexivity. }
  destruct (word_at_write_uint32 c0 (set_iword dataCompression (long c0) (strm w)))
    as [Hword Hppos]; auto.
  assert (Hc : c = c0).
  { unfold c. rewrite Hs. exact Hword. }
  split; [rewrite Hs; exact Hppos|].
  split; [|split; [|split]].
  - intros Hcls. rewrite Hc, Hc0.
    assert (Hm : match Grid.getGridClass grid with
                 | GRID_LEVEL_SET | GRID_FOG_VOLUME =>
                     Z.land (compression a) (Z.lnot COMPRESS_ZIP)
                 | _ => compression a
                 end = Z.land (compression a) (Z.lnot COMPRESS_ZIP))
      by (destruct Hcls as [-> | ->]; reflexivity).
    rewrite Hm. split; [reflexivity|].
    split; [apply land_lnot_clears|]. intros n. apply land_lnot_keeps.
  - intros Hcls. rewrite Hc, Hc0. destruct Hcls as [-> | ->]; reflexivity.
  - rewrite Hc, Hs. unfold getDataCompression, write_uint32, ostream_write.
    simpl. rewrite Hgood. simpl. rewrite upd_eq, uint32_long.
    apply uint32_small. exact Hr.
  - intros i Hi. rewrite Hc. unfold w'. rewrite Hw. simpl.
    apply metas_setDataCompression. exact Hi.
Qed.

End GridCompression.

(** The fog volume of the samples under the reference build: the archive's
    default flags are [BLOSC | ACTIVE_MASK], and those are written. *)
Lemma setGridCompression_flags_witness :
  let w' := @io.setGridCompression Reference.constants Reference.helpers
              Sample.archive0 Sample.fog_grid Sample.world0 in
  word_at 0 (pbuf (strm w')) = 6
  /\ io.getDataCompression (strm w') = 6
  /\ StreamMetadata.mCompression (metas w' 2%nat) = 6.
Proof.
  pose proof (@setGridCompression_flags Reference.constants Reference.helpers
                Sample.archive0 Sample.fog_grid Sample.world0
                eq_refl (Nat.le_refl 0)
                (conj (Zle_bool_imp_le 0 6 eq_refl) eq_refl)) as Hthm.
  cbv zeta in Hthm. destruct Hthm as (_ & Hfog & _ & Hget & Hmeta).
  assert (Hc : word_at 0 (pbuf (strm (@io.setGridCompression Reference.constants
                 Reference.helpers Sample.archive0 Sample.fog_grid Sample.world0))) = 6).
  { destruct Hfog as (Hc & _); [right; vm_compute; reflexivity|].
    exact Hc. }
  cbv zeta. split; [exact Hc|]. split.
  - rewrite <- Hc. exact Hget.
  - rewrite <- Hc. apply Hmeta. reflexivity.
Defined.

(** ** The header codec *)

Section Header.

Import io.
Context `{Constants}.

Lemma mFileVersion_set_mLibraryVersion v a :
  mFileVersion (set_mLibraryVersion v a) = mFileVersion a.
Proof. destruct a; reflexivity. Qed.

Lemma mFileVersion_set_mInputHasGridOffsets v a :
  mFileVersion (set_mInputHasGridOffsets v a) = mFileVersion a.
Proof. destruct a; reflexivity. Qed.

Lemma mFileVersion_set_mCompression v a :
  mFileVersion (set_mCompression v a) = mFileVersion a.
Proof. destruct a; reflexivity. Qed.

Lemma mFileVersion_set_mUuid v a : mFileVersion (set_mUuid v a) = mFileVersion a.
Proof. destruct a; reflexivity. Qed.

Lemma mCompression_set_mCompression v a : mCompression (set_mCompression v a) = v.
Proof. destruct a; reflexivity. Qed.

Lemma mCompression_set_mUuid v a : mCompression (set_mUuid v a) = mCompression a.
Proof. destruct a; reflexivity. Qed.

Lemma mUuid_set_mUuid v a : mUuid (set_mUuid v a) = v.
Proof. destruct a; reflexivity. Qed.

Lemma mUuid_set_mFileVersion v a : mUuid (set_mFileVersion v a) = mUuid a.
Proof. destruct a; reflexivity. Qed.

Lemma mUuid_set_mLibraryVersion v a : mUuid (set_mLibraryVersion v a) = mUuid a.
Proof. destruct a; reflexivity. Qed.

Lemma mUuid_set_mInputHasGridOffsets v a :
  mUuid (set_mInputHasGridOffsets v a) = mUuid a.
Proof. destruct a; reflexivity. Qed.

Lemma mUuid_set_mCompression v a : mUuid (set_mCompression v a) = mUuid a.
Proof. destruct a; reflexivity. Qed.

(** Steps 2 to 5 leave the UUID alone. *)
Lemma readHeader_fileVersion_mUuid u a ist :
  mUuid (fst (readHeader_fileVersion u a ist)) = mUuid a.
Proof.
  unfold readHeader_fileVersion.
  destruct (read_uint32 (mFileVersion a) ist) as [v ist1].
  destruct (v >? OPENVDB_FILE_VERSION); [apply mUuid_set_mFileVersion|].
  destruct (v <? 211); [|apply mUuid_set_mFileVersion].
  destruct (read_uint32 (version0 u) ist1) as [v1 ist2].
  destruct (read_uint32 v1 ist2) as [v2 ist3].
  apply mUuid_set_mFileVersion.
Qed.

Lemma readHeader_libraryVersion_mUuid u a ist :
  mUuid (fst (readHeader_libraryVersion u a ist)) = mUuid a.
Proof.
  unfold readHeader_libraryVersion.
  destruct (mFileVersion (set_mLibraryVersion (0, 0) a) >=? 211).
  - destruct (read_uint32 (libversion0 u) ist) as [v1 ist1].
    destruct (read_uint32 v1 ist1) as [v2 ist2]. simpl.
    rewrite !mUuid_set_mLibraryVersion. reflexivity.
  - apply mUuid_set_mLibraryVersion.
Qed.

Lemma readHeader_gridOffsets_mUuid u a ist :
  mUuid (fst (readHeader_gridOffsets u a ist)) = mUuid a.
Proof.
  unfold readHeader_gridOffsets.
  destruct (mFileVersion (set_mInputHasGridOffsets true a) >=? 212).
  - destruct (read_char (hasGridOffsets0 u) ist) as [c ist1]. simpl.
    rewrite !mUuid_set_mInputHasGridOffsets. reflexivity.
  - apply mUuid_set_mInputHasGridOffsets.
Qed.

(** What step 5 does to an archive whose file version is [v]. *)
Lemma readHeader_compression_spec u a ist :
  let v := mFileVersion a in
  let selective := (v >=? OPENVDB_FILE_VERSION_SELECTIVE_COMPRESSION)
                   && (v <? OPENVDB_FILE_VERSION_NODE_MASK_COMPRESSION) in
  let isCompressed := fst (read_char (isCompressed0 u) ist) in
  mFileVersion (fst (readHeader_compression u a ist)) = v
  /\ mUuid (fst (readHeader_compression u a ist)) = mUuid a
  /\ mCompression (fst (readHeader_compression u a ist)) =
     (if selective then (if isCompressed =? 0 then COMPRESS_NONE else COMPRESS_ZIP)
      else if v <? OPENVDB_FILE_VERSION_BLOSC_COMPRESSION
           then Z.lor COMPRESS_ZIP COMPRESS_ACTIVE_MASK
           else DEFAULT_COMPRESSION_FLAGS)
  /\ snd (readHeader_compression u a ist) =
     (if selective then snd (read_char (isCompressed0 u) ist) else ist).
Proof.
  destruct a as [v0 lib uuid0 off inst comp stats].
  unfold readHeader_compression. cbn [mFileVersion mUuid set_mCompression].
  destruct (v0 <? OPENVDB_FILE_VERSION_BLOSC_COMPRESSION);
    cbn [mFileVersion mUuid set_mCompression];
    destruct ((v0 >=? OPENVDB_FILE_VERSION_SELECTIVE_COMPRESSION)
              && (v0 <? OPENVDB_FILE_VERSION_NODE_MASK_COMPRESSION));
    try (destruct (read_char (isCompressed0 u) ist) as [c ist1]);
    cbn [fst snd mFileVersion mUuid mCompression set_mCompression];
    repeat split; destruct (c =? 0); reflexivity.
Qed.

(** [readHeader] past the magic number. *)
Lemma readHeader_unfold a u ist :
  readHeader a u ist =
  match fst (readHeader_magic u ist) with
  | None => (Throw (OPENVDB_THROW IoError "not a VDB file"), a,
             snd (readHeader_magic u ist))
  | Some _ =>
    let a5 := fst (readHeader_before_uuid a u ist) in
    let ist5 := snd (readHeader_before_uuid a u ist) in
    let uuid := fst (readHeader_uuid u a5 ist5) in
    (Ok (String.eqb (mUuid a) "" || String.eqb uuid ""
         || negb (String.eqb (mUuid a) uuid)),
     set_mUuid uuid a5, snd (readHeader_uuid u a5 ist5))
  end.
Proof.
  unfold readHeader, readHeader_before_uuid, readHeader_before_compression.
  destruct (readHeader_magic u ist) as [[[]|] ist1]; [|reflexivity]. simpl.
  pose proof (readHeader_fileVersion_mUuid u a ist1) as E2.
  destruct (readHeader_fileVersion u a ist1) as [a2 ist2]. simpl in E2.
  pose proof (readHeader_libraryVersion_mUuid u a2 ist2) as E3.
  destruct (readHeader_libraryVersion u a2 ist2) as [a3 ist3]. simpl in E3.
  pose proof (readHeader_gridOffsets_mUuid u a3 ist3) as E4.
  destruct (readHeader_gridOffsets u a3 ist3) as [a4 ist4]. simpl in E4.
  pose proof (readHeader_compression_spec u a4 ist4) as (_ & E5 & _).
  destruct (readHeader_compression u a4 ist4) as [a5 ist5]. simpl in E5. simpl.
  destruct (readHeader_uuid u a5 ist5) as [uuid ist6]. simpl.
  rewrite mUuid_set_mUuid.
  assert (Ea : mUuid a5 = mUuid a) by congruence. rewrite Ea.
  destruct (String.eqb (mUuid a) "" || String.eqb uuid ""); reflexivity.
Qed.

(** C6.  [readHeader] throws exactly when the 64-bit integer that the read
    of the magic number leaves in [magic] differs from [OPENVDB_MAGIC]; what
    it throws is [IoError] "not a VDB file"; the archive is then as it was
    and the stream is as that one read left it.  On a good stream with at
    least eight characters, [magic] is the integer formed by the first
    eight. *)
Theorem readHeader_magic_mismatch (a : Archive) (u : Indeterminate) (ist : ios_base) :
  let magic := fst (read_int64 (magic0 u) ist) in
  let '(r, a', ist') := readHeader a u ist in
  (r = Throw (OPENVDB_THROW IoError "not a VDB file") <-> magic <> OPENVDB_MAGIC)
  /\ (forall b, r = Ok b -> magic = OPENVDB_MAGIC)
  /\ r <> Diverge
  /\ (magic <> OPENVDB_MAGIC ->
      a' = a /\ ist' = snd (istream_read 8 (le_encode 8 (magic0 u)) ist))
  /\ (good ist = true -> (8 <= length (gbuf ist))%nat ->
      magic = int64 (le_decode (take 8 (gbuf ist)))
      /\ (magic <> OPENVDB_MAGIC -> gbuf ist' = drop 8 (gbuf ist))).
Proof.
  intros magic. rewrite readHeader_unfold.
  unfold readHeader_magic. fold magic.
  assert (Hm : read_int64 (magic0 u) ist =
               (magic, snd (istream_read 8 (le_encode 8 (magic0 u)) ist))).
  { unfold magic, read_int64.
    destruct (istream_read 8 (le_encode 8 (magic0 u)) ist); reflexivity. }
  assert (Hfirst : good ist = true -> (8 <= length (gbuf ist))%nat ->
                   magic = int64 (le_decode (take 8 (gbuf ist)))
                   /\ gbuf (snd (istream_read 8 (le_encode 8 (magic0 u)) ist))
                      = drop 8 (gbuf ist)).
  { intros Hg Hl. unfold magic, read_int64, istream_read. rewrite Hg.
    destruct (8 <=? length (gbuf ist))%nat eqn:E;
      [|apply Nat.leb_gt in E; lia].
    split; reflexivity. }
  rewrite Hm. destruct (magic =? OPENVDB_MAGIC) eqn:E; cbn [negb fst snd].
  - apply Z.eqb_eq in E.
    split; [split; [discriminate | intros Hne; congruence]|].
    split; [intros b Hb; exact E|].
    split; [discriminate|].
    split; [intros Hne; congruence|].
    intros Hg Hl. split; [apply Hfirst; assumption | intros Hne; congruence].
  - apply Z.eqb_neq in E.
    split; [split; [intros _; exact E | reflexivity]|].
    split; [intros b Hb; discriminate|].
    split; [discriminate|].
    split; [intros _; split; reflexivity|].
    intros Hg Hl. split; [|intros _]; apply Hfirst; assumption.
Qed.

(** C8.  When [readHeader] returns, the archive's UUID is the string step 6
    read from the stream, and the result is [true] exactly when that string
    differs from the archive's previous UUID or one of the two is empty. *)
Theorem readHeader_result (a : Archive) (u : Indeterminate) (ist : ios_base)
    (b : bool) (a' : Archive) (ist' : ios_base)
    (Hread : readHeader a u ist = (Ok b, a', ist')) :
  let a5 := fst (readHeader_before_uuid a u ist) in
  let ist5 := snd (readHeader_before_uuid a u ist) in
  mUuid a' = fst (readHeader_uuid u a5 ist5)
  /\ (b = true <-> mUuid a' <> mUuid a \/ mUuid a = "" \/ mUuid a' = "").
Proof.
  intros a5 ist5. rewrite readHeader_unfold in Hread.
  destruct (fst (readHeader_magic u ist)); [|discriminate].
  cbv zeta in Hread. fold a5 ist5 in Hread.
  set (uuid := fst (readHeader_uuid u a5 ist5)) in *.
  injection Hread as Hb Ha _. subst a'. rewrite mUuid_set_mUuid.
  split; [reflexivity|]. subst b.
  destruct (String.eqb_spec (mUuid a) "") as [E1|E1];
    destruct (String.eqb_spec uuid "") as [E2|E2];
    destruct (String.eqb_spec (mUuid a) uuid) as [E3|E3]; simpl;
    split; intros Hx; auto; try discriminate.
  destruct Hx as [Hx | [Hx | Hx]]; congruence.
Qed.

(** C4, as the code has it.  When [readHeader] returns, with [v] the
    archive's file version: if [v] lies in [selective, node-mask), one
    character [isCompressed] was read after the grid-offsets flag and the
    flags are [COMPRESS_ZIP] when it is nonzero and [COMPRESS_NONE] when it is
    zero; otherwise, if [v] is below the Blosc version, the flags are
    [COMPRESS_ZIP | COMPRESS_ACTIVE_MASK]; otherwise they are the defaults. *)
Theorem readHeader_compression_flags (a : Archive) (u : Indeterminate) (ist : ios_base)
    (b : bool) (a' : Archive) (ist' : ios_base)
    (Hread : readHeader a u ist = (Ok b, a', ist')) :
  let v := mFileVersion a' in
  let ist4 := snd (readHeader_before_compression a u ist) in
  let isCompressed := fst (read_char (isCompressed0 u) ist4) in
  let selective := OPENVDB_FILE_VERSION_SELECTIVE_COMPRESSION <= v
                   /\ v < OPENVDB_FILE_VERSION_NODE_MASK_COMPRESSION in
  (selective ->
     snd (readHeader_before_uuid a u ist) = snd (read_char (isCompressed0 u) ist4)
     /\ (isCompressed <> 0 -> mCompression a' = COMPRESS_ZIP)
     /\ (isCompressed = 0 -> mCompression a' = COMPRESS_NONE))
  /\ (~ selective -> v < OPENVDB_FILE_VERSION_BLOSC_COMPRESSION ->
      mCompression a' = Z.lor COMPRESS_ZIP COMPRESS_ACTIVE_MASK)
  /\ (~ selective -> OPENVDB_FILE_VERSION_BLOSC_COMPRESSION <= v ->
      mCompression a' = DEFAULT_COMPRESSION_FLAGS).
Proof.
  intros v ist4 isCompressed selective.
  rewrite readHeader_unfold in Hread.
  destruct (fst (readHeader_magic u ist)); [|discriminate].
  cbv zeta in Hread. injection Hread as _ Ha _.
  unfold readHeader_before_uuid in *.
  unfold ist4 in *. clear ist4.
  destruct (readHeader_before_compression a u ist) as [a4 ist4]. simpl in *.
  pose proof (readHeader_compression_spec u a4 ist4) as (Ev & _ & Ec & Es).
  cbv zeta in Ec, Es.
  assert (Hv : v = mFileVersion a4).
  { unfold v. rewrite <- Ha, mFileVersion_set_mUuid. exact Ev. }
  assert (Hc : mCompression a' = mCompression (fst (readHeader_compression u a4 ist4))).
  { rewrite <- Ha. apply mCompression_set_mUuid. }
  rewrite Hc, Ec, Es. rewrite <- Hv. fold isCompressed.
  unfold selective. split; [|split].
  - intros [H1 H2].
    rewrite (proj2 (Z.geb_le _ _) H1), (proj2 (Z.ltb_lt _ _) H2).
    cbn [andb]. split; [reflexivity|]. split.
    + intros Hne. destruct (Z.eqb_spec isCompressed 0); congruence.
    + intros He. rewrite He. reflexivity.
  - intros Hns Hlt.
    destruct ((v >=? OPENVDB_FILE_VERSION_SELECTIVE_COMPRESSION)
              && (v <? OPENVDB_FILE_VERSION_NODE_MASK_COMPRESSION)) eqn:E.
    + apply andb_prop in E. destruct E as [E1 E2].
      apply Z.geb_le in E1. apply Z.ltb_lt in E2. tauto.
    + rewrite (proj2 (Z.ltb_lt _ _) Hlt). reflexivity.
  - intros Hns Hge.
    destruct ((v >=? OPENVDB_FILE_VERSION_SELECTIVE_COMPRESSION)
              && (v <? OPENVDB_FILE_VERSION_NODE_MASK_COMPRESSION)) eqn:E.
    + apply andb_prop in E. destruct E as [E1 E2].
      apply Z.geb_le in E1. apply Z.ltb_lt in E2. tauto.
    + rewrite (proj2 (Z.ltb_ge _ _) Hge). reflexivity.
Qed.

End Header.

(** The current header of the samples: the UUID is read and, the archive's
    old UUID being empty, the answer is [true]. *)
Lemma readHeader_result_witness :
  let a' := snd (fst (@io.readHeader Reference.constants Sample.archive0
                        SampleHeader.indeterminate0
                        (SampleHeader.input SampleHeader.header224))) in
  io.mUuid a' = SampleHeader.uuid_text
  /\ (true = true <->
      io.mUuid a' <> io.mUuid Sample.archive0 \/ io.mUuid Sample.archive0 = ""
      \/ io.mUuid a' = "").
Proof.
  pose proof (@readHeader_result Reference.constants Sample.archive0
                SampleHeader.indeterminate0
                (SampleHeader.input SampleHeader.header224) true
                (snd (fst (@io.readHeader Reference.constants Sample.archive0
                             SampleHeader.indeterminate0
                             (SampleHeader.input SampleHeader.header224))))
                (snd (@io.readHeader Reference.constants Sample.archive0
                        SampleHeader.indeterminate0
                        (SampleHeader.input SampleHeader.header224)))
                eq_refl) as Hthm.
  cbv zeta in Hthm. destruct Hthm as [Hu Hb]. cbv zeta.
  split; [|exact Hb]. rewrite Hu. vm_compute. reflexivity.
Defined.

(** The header of file version 220 of the samples: the flags are
    [COMPRESS_ZIP], as its [isCompressed] byte is 1. *)
Lemma readHeader_compression_flags_witness :
  let a' := snd (fst (@io.readHeader Reference.constants Sample.archive0
                        SampleHeader.indeterminate0
                        (SampleHeader.input SampleHeader.header220))) in
  io.mFileVersion a' = 220 /\ io.mCompression a' = 1.
Proof.
  pose proof (@readHeader_compression_flags Reference.constants Sample.archive0
                SampleHeader.indeterminate0
                (SampleHeader.input SampleHeader.header220) true
                (snd (fst (@io.readHeader Reference.constants Sample.archive0
                             SampleHeader.indeterminate0
                             (SampleHeader.input SampleHeader.header220))))
                (snd (@io.readHeader Reference.constants Sample.archive0
                        SampleHeader.indeterminate0
                        (SampleHeader.input SampleHeader.header220)))
                eq_refl) as Hthm.
  cbv zeta in Hthm. destruct Hthm as [Hsel _]. cbv zeta.
  split; [vm_compute; reflexivity|].
  destruct Hsel as (_ & Hzip & _).
  - vm_compute. split; congruence.
  - apply Hzip. vm_compute. congruence.
Defined.

(** C4, as stated, fails.  Under the reference constants the header of file
    version 220 is read successfully; 220 is below the Blosc version 223, and
    the flags are [COMPRESS_ZIP], not [COMPRESS_ZIP | COMPRESS_ACTIVE_MASK]. *)
Lemma readHeader_compression_below_blosc_counterexample :
  let '(r, a', _) := @io.readHeader Reference.constants Sample.archive0
                       SampleHeader.indeterminate0
                       (SampleHeader.input SampleHeader.header220) in
  r = Ok true
  /\ io.mFileVersion a' < @OPENVDB_FILE_VERSION_BLOSC_COMPRESSION Reference.constants
  /\ io.mCompression a' = @COMPRESS_ZIP Reference.constants
  /\ io.mCompression a' <>
     Z.lor (@COMPRESS_ZIP Reference.constants)
           (@COMPRESS_ACTIVE_MASK Reference.constants).
Proof.
  vm_compute. repeat split; congruence.
Qed.

(** The header with zeroed magic bytes: [IoError], archive untouched, eight
    characters consumed. *)
Lemma readHeader_magic_mismatch_witness :
  let '(r, a', ist') := @io.readHeader Reference.constants Sample.archive0
                          SampleHeader.indeterminate0
                          (SampleHeader.input SampleHeader.header_zeroed) in
  r = Throw (OPENVDB_THROW IoError "not a VDB file")
  /\ a' = Sample.archive0
  /\ gbuf ist' = drop 8 SampleHeader.header_zeroed.
Proof.
  pose proof (@readHeader_magic_mismatch Reference.constants Sample.archive0
                SampleHeader.indeterminate0
                (SampleHeader.input SampleHeader.header_zeroed)) as Hthm.
  cbv zeta in Hthm.
  destruct (@io.readHeader Reference.constants Sample.archive0
              SampleHeader.indeterminate0
              (SampleHeader.input SampleHeader.header_zeroed)) as [[r a'] ist'].
  destruct Hthm as ((_ & Hthrow) & _ & _ & Hstate & Hfirst).
  assert (Hne : fst (io.read_int64 (io.magic0 SampleHeader.indeterminate0)
                       (SampleHeader.input SampleHeader.header_zeroed))
                <> @OPENVDB_MAGIC Reference.constants)
    by (vm_compute; congruence).
  split; [apply Hthrow; exact Hne|].
  split; [apply Hstate; exact Hne|].
  apply Hfirst; [reflexivity | vm_compute; lia | exact Hne].
Defined.

(** ** Rules for computations *)

Section Rules.

Context `{Collaborators}.

Lemma wp_ret {A} (a : A) Q m : Q (Ok a) m -> wp (ret a) Q m.
Proof. exact (fun q => q). Qed.

Lemma wp_bind {A B} (c : M A) (k : A -> M B) Q m :
  wp c (fun r m' => match r with
                    | Ok a => wp (k a) Q m'
                    | Throw e => Q (Throw e) m'
                    | Diverge => Q Diverge m'
                    end) m ->
  wp (bind c k) Q m.
Proof.
  unfold wp, bind. destruct (c m) as [[a|e|] m']; simpl; auto.
Qed.

Lemma wp_gets {A} (f : World -> A) Q m : Q (Ok (f (world m))) m -> wp (gets f) Q m.
Proof. exact (fun q => q). Qed.

Lemma wp_modify (f : World -> World) Q m :
  Q (Ok tt) (mkMachine (f (world m)) (calls m)) -> wp (modify f) Q m.
Proof. exact (fun q => q). Qed.

Lemma wp_state {A} (f : World -> A * World) Q m :
  Q (Ok (fst (f (world m)))) (mkMachine (snd (f (world m))) (calls m)) ->
  wp (state f) Q m.
Proof.
  unfold wp, state. destruct (f (world m)); simpl. auto.
Qed.

Lemma wp_call (c : ExtCall) Q m :
  (forall r w', ext c (world m) = (r, w') -> Q r (mkMachine w' (calls m ++ [c]))) ->
  wp (call c) Q m.
Proof.
  unfold wp, call. intros HQ. destruct (ext c (world m)) as [r w'] eqn:E.
  simpl. apply HQ. reflexivity.
Qed.

Lemma wp_when (b : bool) (c : M unit) Q m :
  (b = true -> wp c Q m) -> (b = false -> Q (Ok tt) m) -> wp (when b c) Q m.
Proof. destruct b; simpl; intros H1 H2; [apply H1 | apply H2]; reflexivity. Qed.

Lemma wp_with_OnExit {A} (body : M A) Q m :
  wp body (fun r m' =>
             match r with
             | Diverge => Q Diverge m'
             | _ => Q r (mkMachine
                           (io.set_pslot StreamState.metadata (metadata_slot (world m))
                              (world m'))
                           (calls m'))
             end) m ->
  wp (io.with_OnExit body) Q m.
Proof.
  unfold wp, io.with_OnExit, metadata_slot.
  destruct (body m) as [[a|e|] m']; simpl; auto.
Qed.

Lemma wp_when_modify (b : bool) (f : World -> World) Q m :
  Q (Ok tt) (mkMachine (if b then f (world m) else world m) (calls m)) ->
  wp (when b (modify f)) Q m.
Proof. destruct b; destruct m; exact (fun q => q). Qed.

Lemma wp_consequence {A} (c : M A) (Q Q' : Result A -> Machine -> Prop) m :
  wp c Q m -> (forall r m', Q r m' -> Q' r m') -> wp c Q' m.
Proof. unfold wp. auto. Qed.

Lemma wp_state_eq {A} (f : World -> A * World) Q m a w' :
  f (world m) = (a, w') -> Q (Ok a) (mkMachine w' (calls m)) -> wp (state f) Q m.
Proof. unfold wp, state. intros ->. exact (fun q => q). Qed.

Lemma wp_record_pos (seekable : bool) (set : Z -> GridDescriptor -> GridDescriptor)
    (gd : GridDescriptor) Q m :
  Q (Ok (if seekable then set (tellp (strm (world m))) gd else gd)) m ->
  wp (io.record_pos seekable set gd) Q m.
Proof. unfold io.record_pos. destruct seekable; exact (fun q => q). Qed.

(** Preservation of a property of the world. *)

Lemma preserves_ret {A} P (a : A) : preserves P (ret a).
Proof. intros m Hm. exact Hm. Qed.

Lemma preserves_bind {A B} P (c : M A) (k : A -> M B) :
  preserves P c -> (forall a, preserves P (k a)) -> preserves P (bind c k).
Proof.
  intros Hc Hk m Hm. unfold bind. specialize (Hc m Hm).
  destruct (c m) as [[a|e|] m']; simpl in *; auto. apply Hk. exact Hc.
Qed.

Lemma preserves_gets {A} P (f : World -> A) : preserves P (gets f).
Proof. intros m Hm. exact Hm. Qed.

Lemma preserves_modify P (f : World -> World) :
  (forall w, P w -> P (f w)) -> preserves P (modify f).
Proof. intros Hf m Hm. simpl. auto. Qed.

Lemma preserves_state {A} P (f : World -> A * World) :
  (forall w, P w -> P (snd (f w))) -> preserves P (state f).
Proof.
  intros Hf m Hm. unfold state. specialize (Hf _ Hm).
  destruct (f (world m)); simpl in *. exact Hf.
Qed.

Lemma preserves_call P (c : ExtCall) :
  (forall w, P w -> P (snd (ext c w))) -> preserves P (call c).
Proof.
  intros Hc m Hm. unfold call. specialize (Hc _ Hm).
  destruct (ext c (world m)); simpl in *. exact Hc.
Qed.

Lemma preserves_when P (b : bool) (c : M unit) :
  preserves P c -> preserves P (when b c).
Proof. destruct b; simpl; auto using preserves_ret. Qed.

Lemma preserves_if {A} P (b : bool) (c1 c2 : M A) :
  preserves P c1 -> preserves P c2 -> preserves P (if b then c1 else c2).
Proof. destruct b; auto. Qed.

End Rules.

(** ** The metadata slot across the per-grid operations *)

Section MetadataSlot.

Import StreamState io.
Context `{Constants} `{Helpers} `{Collaborators}.

(** The guard restores the slot whenever its scope is left. *)
Lemma with_OnExit_restores {A} (body : M A) (m : Machine) :
  fst (with_OnExit body m) <> Diverge ->
  metadata_slot (world (snd (with_OnExit body m))) = metadata_slot (world m).
Proof.
  unfold with_OnExit, metadata_slot.
  destruct (body m) as [[a|e|] m']; simpl; intros Hr.
  - apply upd_eq.
  - apply upd_eq.
  - congruence.
Qed.

Lemma metadata_slot_setDataCompression c w :
  metadata_slot (setDataCompression c w) = metadata_slot w.
Proof. unfold metadata_slot. rewrite strm_setDataCompression. reflexivity. Qed.

Lemma metadata_slot_readGridCompression w :
  metadata_slot (readGridCompression w) = metadata_slot w.
Proof.
  unfold readGridCompression.
  destruct (getFormatVersion (strm w) >=? _); [|reflexivity].
  unfold read_uint32, istream_read.
  destruct (good (strm w)); [destruct (_ <=? _)%nat|];
    rewrite metadata_slot_setDataCompression; reflexivity.
Qed.

Lemma metadata_slot_setGridCompression a g w :
  metadata_slot (setGridCompression a g w) = metadata_slot w.
Proof.
  destruct (setGridCompression_unfold a g w) as (c & _ & ->).
  unfold metadata_slot, write_uint32, ostream_write. simpl.
  rewrite strm_setDataCompression. simpl.
  destruct (good (strm w)); reflexivity.
Qed.

Lemma metadata_slot_seekp off w :
  metadata_slot (set_strm (seekp off (strm w)) w) = metadata_slot w.
Proof.
  unfold metadata_slot, seekp. simpl.
  destruct (good (strm w)); [destruct (_ && _)|]; reflexivity.
Qed.

Lemma preserves_record_pos P seekable set gd :
  preserves P (record_pos seekable set gd).
Proof.
  unfold record_pos. destruct seekable; [|apply preserves_ret].
  apply preserves_bind; [apply preserves_gets|]. intros pos. apply preserves_ret.
Qed.

(** [writeGridInstance] has no guard: it keeps the slot because none of its
    own steps stores into it, as long as the operations it calls do not. *)
Lemma writeGridInstance_keeps_slot
    (Hext : forall c w, called_by_writeGridInstance c = true ->
                        metadata_slot (snd (ext c w)) = metadata_slot w)
    (p : option nat) a gd grid seekable :
  preserves (fun w => metadata_slot w = p) (writeGridInstance a gd grid seekable).
Proof.
  assert (Hcall : forall c, called_by_writeGridInstance c = true ->
                            preserves (fun w => metadata_slot w = p) (call c)).
  { intros c Hc. apply preserves_call. intros w Hw. rewrite Hext by exact Hc. exact Hw. }
  unfold writeGridInstance, rewrite_offsets.
  repeat (first
    [ apply preserves_bind; [|intros ?]
    | apply Hcall; reflexivity
    | apply preserves_gets
    | apply preserves_ret
    | apply preserves_record_pos
    | apply preserves_if
    | apply preserves_modify; intros w Hw;
      first [ rewrite metadata_slot_setGridCompression; exact Hw
            | rewrite metadata_slot_seekp; exact Hw ] ]).
Qed.

(** C1.  Each per-grid operation leaves the stream's metadata slot holding
    the pointer it held on entry, on return and on exit by exception:
    [doReadGrid], [readGrid] and [writeGrid] through their guard, whatever
    the collaborators do to the stream; [writeGridInstance], which has no
    guard, because it never stores into the slot, provided the operations
    it calls do not either. *)
Theorem per_grid_metadata_slot :
  (forall grid gd bbox m,
     fst (doReadGrid grid gd bbox m) <> Diverge ->
     metadata_slot (world (snd (doReadGrid grid gd bbox m))) = metadata_slot (world m))
  /\ (forall grid gd bbox m,
        fst (readGrid grid gd bbox m) <> Diverge ->
        metadata_slot (world (snd (readGrid grid gd bbox m))) = metadata_slot (world m))
  /\ (forall a gd grid seekable m,
        fst (writeGrid a gd grid seekable m) <> Diverge ->
        metadata_slot (world (snd (writeGrid a gd grid seekable m)))
        = metadata_slot (world m))
  /\ ((forall c w, called_by_writeGridInstance c = true ->
                   metadata_slot (snd (ext c w)) = metadata_slot w) ->
      forall a gd grid seekable m,
        metadata_slot (world (snd (writeGridInstance a gd grid seekable m)))
        = metadata_slot (world m)).
Proof.
  split; [|split; [|split]].
  - intros grid gd bbox m. apply with_OnExit_restores.
  - intros grid gd bbox m. unfold readGrid, bind, modify. cbn [fst snd].
    intros Hr. unfold doReadGrid in *.
    rewrite with_OnExit_restores by exact Hr.
    apply metadata_slot_readGridCompression.
  - intros a gd grid seekable m. apply with_OnExit_restores.
  - intros Hext a gd grid seekable m.
    apply (writeGridInstance_keeps_slot Hext (metadata_slot (world m))).
    reflexivity.
Qed.

End MetadataSlot.

(** ** The order of reads in [doReadGrid] *)

Section ReadOrder.

Import StreamState io.
Context `{Constants} `{Helpers} `{Collaborators}.

(** The steps of [doReadGrid] itself leave the format version word alone. *)
Lemma version_on_meta f w :
  getFormatVersion (strm (on_meta f w)) = getFormatVersion (strm w).
Proof. rewrite strm_on_meta. reflexivity. Qed.

Lemma version_new_streamMetadata w :
  getFormatVersion (strm (snd (new_streamMetadata w))) = getFormatVersion (strm w).
Proof. reflexivity. Qed.

Lemma version_setStreamMetadataPtr a w :
  getFormatVersion (strm (setStreamMetadataPtr a false w)) = getFormatVersion (strm w).
Proof.
  unfold setStreamMetadataPtr.
  destruct (ptrs (set_pslot metadata (Some a) w) a); reflexivity.
Qed.

Lemma version_setGridClass c w :
  getFormatVersion (strm (setGridClass c w)) = getFormatVersion (strm w).
Proof. rewrite strm_setGridClass. reflexivity. Qed.

Lemma version_setGridBackgroundValuePtr p w :
  getFormatVersion (strm (setGridBackgroundValuePtr p w)) = getFormatVersion (strm w).
Proof. rewrite strm_setGridBackgroundValuePtr. reflexivity. Qed.

Lemma version_remove_delayed_load g w :
  getFormatVersion (strm (remove_delayed_load g w)) = getFormatVersion (strm w).
Proof.
  unfold remove_delayed_load. destruct (gmeta (grids w g) !! _); reflexivity.
Qed.

Lemma version_set_meta i x w :
  getFormatVersion (strm (set_meta i x w)) = getFormatVersion (strm w).
Proof. reflexivity. Qed.

Lemma version_set_grid g x w :
  getFormatVersion (strm (set_grid g x w)) = getFormatVersion (strm w).
Proof. reflexivity. Qed.

Lemma version_if (b : bool) (w1 w2 : World) v :
  getFormatVersion (strm w1) = v -> getFormatVersion (strm w2) = v ->
  getFormatVersion (strm (if b then w1 else w2)) = v.
Proof. destruct b; auto. Qed.

Hypothesis ext_keeps_version :
  forall c w, getFormatVersion (strm (snd (ext c w))) = getFormatVersion (strm w).

Lemma ext_version c w r w' :
  ext c w = (r, w') -> getFormatVersion (strm w') = getFormatVersion (strm w).
Proof. intros E. rewrite <- (ext_keeps_version c w), E. reflexivity. Qed.

(** The calls logged so far are [l]: a prefix of the expected order, all of
    it when the computation has returned. *)
Ltac order_so_far l :=
  exists l; cbn [calls world]; rewrite <- ?app_assoc;
  split; [reflexivity|];
  split; [try destruct (isInstance _); first [reflexivity | eexists; reflexivity]|];
  split; [intros; first [discriminate | reflexivity] | congruence].

(** The payload reads: a prefix of the specified order on every path, all
    of it on return. *)
Lemma doReadGrid_payload_order grid gd bbox m :
  wp (doReadGrid_payload grid gd bbox)
     (fun r m' =>
        exists l,
          calls m' = calls m ++ l
          /\ l `prefix_of` spec_read_order (getFormatVersion (strm (world m))) grid gd bbox
          /\ (r = Ok tt ->
              l = spec_read_order (getFormatVersion (strm (world m))) grid gd bbox)
          /\ getFormatVersion (strm (world m')) = getFormatVersion (strm (world m)))
     m.
Proof.
  unfold doReadGrid_payload, spec_read_order.
  apply wp_bind, wp_gets.
  set (v := getFormatVersion (strm (world m))).
  replace (OPENVDB_FILE_VERSION_GRID_INSTANCING <=? v)
    with (v >=? OPENVDB_FILE_VERSION_GRID_INSTANCING)
    by (rewrite Z.geb_leb; reflexivity).
  assert (Hv : v = getFormatVersion (strm (world m))) by reflexivity.
  clearbody v.
  destruct (v >=? OPENVDB_FILE_VERSION_GRID_INSTANCING).
  - apply wp_bind, wp_call. intros r1 w1 E1.
    pose proof (ext_version _ _ _ _ E1) as V1.
    destruct r1 as [[]|e|]; [|order_so_far [GridBase_readTransform grid]..].
    destruct (isInstance gd); cbn [negb].
    + apply wp_ret. order_so_far [GridBase_readTransform grid].
    + apply wp_bind, wp_call. intros r2 w2 E2.
      pose proof (ext_version _ _ _ _ E2) as V2. cbn [world] in V2.
      destruct r2 as [[]|e|];
        [|order_so_far [GridBase_readTransform grid; GridBase_readTopology grid]..].
      apply wp_call. intros r3 w3 E3.
      pose proof (ext_version _ _ _ _ E3) as V3. cbn [world] in V3.
      order_so_far [GridBase_readTransform grid; GridBase_readTopology grid;
                    GridBase_readBuffers grid bbox].
  - apply wp_bind, wp_call. intros r1 w1 E1.
    pose proof (ext_version _ _ _ _ E1) as V1.
    destruct r1 as [[]|e|]; [|order_so_far [GridBase_readTopology grid]..].
    apply wp_bind, wp_call. intros r2 w2 E2.
    pose proof (ext_version _ _ _ _ E2) as V2. cbn [world] in V2.
    destruct r2 as [[]|e|];
      [|order_so_far [GridBase_readTopology grid; GridBase_readTransform grid]..].
    apply wp_call. intros r3 w3 E3.
    pose proof (ext_version _ _ _ _ E3) as V3. cbn [world] in V3.
    order_so_far [GridBase_readTopology grid; GridBase_readTransform grid;
                  GridBase_readBuffers grid bbox].
Qed.

(** Peel the steps of [doReadGrid] off a format version. *)
Ltac version_steps :=
  cbn beta iota delta [world];
  repeat first
    [ rewrite version_set_meta
    | rewrite version_set_grid
    | rewrite version_setGridClass
    | rewrite version_setGridBackgroundValuePtr
    | rewrite version_setStreamMetadataPtr
    | rewrite version_remove_delayed_load
    | apply version_if ].

(** C5.  After the grid's metadata, [doReadGrid] makes the reads that the
    specification orders by the stream's format version [v]: on return
    exactly those (with [v] at least the grid-instancing version the
    transform and then, for a descriptor that is no instance, topology and
    buffers; with an older [v] topology, transform, buffers, instance or
    not), and on every other exit a prefix of them.  The collaborators are
    assumed not to change the stream's format version. *)
Theorem doReadGrid_read_order (grid : nat) (gd : GridDescriptor) (bbox : BoxType)
    (m : Machine) :
  let v := getFormatVersion (strm (world m)) in
  let r := fst (doReadGrid grid gd bbox m) in
  let m' := snd (doReadGrid grid gd bbox m) in
  (exists l, calls m' = calls m ++ GridBase_readMeta grid :: l
             /\ l `prefix_of` spec_read_order v grid gd bbox)
  /\ (r = Ok tt ->
      calls m' = calls m ++ GridBase_readMeta grid :: spec_read_order v grid gd bbox)
  /\ (OPENVDB_FILE_VERSION_GRID_INSTANCING <= v -> isInstance gd = false ->
      spec_read_order v grid gd bbox =
      [GridBase_readTransform grid; GridBase_readTopology grid;
       GridBase_readBuffers grid bbox])
  /\ (OPENVDB_FILE_VERSION_GRID_INSTANCING <= v -> isInstance gd = true ->
      spec_read_order v grid gd bbox = [GridBase_readTransform grid])
  /\ (v < OPENVDB_FILE_VERSION_GRID_INSTANCING ->
      spec_read_order v grid gd bbox =
      [GridBase_readTopology grid; GridBase_readTransform grid;
       GridBase_readBuffers grid bbox]).
Proof.
  intros v r m'.
  assert (Hrun : wp (doReadGrid grid gd bbox)
            (fun r m' =>
               (exists l, calls m' = calls m ++ GridBase_readMeta grid :: l
                          /\ l `prefix_of` spec_read_order v grid gd bbox)
               /\ (r = Ok tt ->
                   calls m' = calls m ++ GridBase_readMeta grid
                                         :: spec_read_order v grid gd bbox)) m).
  { unfold doReadGrid. apply wp_with_OnExit.
    destruct (new_streamMetadata (world m)) as [[a i] w0] eqn:E0.
    assert (V0 : getFormatVersion (strm w0) = v).
    { pose proof (version_new_streamMetadata (world m)) as V.
      rewrite E0 in V. exact V. }
    apply wp_bind. eapply wp_state_eq; [exact E0|]. cbn [calls world].
    do 4 (apply wp_bind, wp_modify; cbn [calls world]).
    apply wp_bind, wp_call. intros r1 w1 E1.
    pose proof (ext_version _ _ _ _ E1) as V1.
    assert (V1' : getFormatVersion (strm w1) = v).
    { rewrite V1. version_steps. exact V0. }
    clear V1 E1. cbn [calls world].
    destruct r1 as [[]|e|];
      [|cbn [calls]; split;
        [exists []; split; [reflexivity | apply prefix_nil] | discriminate]..].
    apply wp_bind, wp_gets. apply wp_bind, wp_when_modify. cbn [calls world].
    apply wp_bind, wp_modify. cbn [calls world]. apply wp_bind, wp_gets.
    do 2 (apply wp_bind, wp_modify; cbn [calls world]). apply wp_bind, wp_gets.
    apply wp_bind, wp_when_modify. cbn [calls world]. apply wp_bind.
    eapply wp_consequence; [apply doReadGrid_payload_order|].
    cbn [calls world].
    intros r2 m2 (l & Hcalls & Hpre & Hall & _).
    match type of Hpre with
    | context [spec_read_order ?x] => assert (Hv : x = v)
    end.
    { version_steps; exact V1'. }
    rewrite Hv in Hpre, Hall. rewrite <- app_assoc in Hcalls.
    destruct r2 as [[]|e|];
      [|cbn [calls]; split;
        [exists l; split; [exact Hcalls | exact Hpre] | discriminate]..].
    apply wp_bind, wp_gets. apply wp_when_modify. cbn [calls].
    split.
    - exists l. split; [exact Hcalls | exact Hpre].
    - intros _. rewrite Hcalls, Hall by reflexivity. reflexivity. }
  destruct Hrun as [Hpre Hall].
  split; [exact Hpre|]. split; [exact Hall|].
  unfold spec_read_order. split; [|split].
  - intros Hv Hi. rewrite (proj2 (Z.leb_le _ _) Hv), Hi. reflexivity.
  - intros Hv Hi. rewrite (proj2 (Z.leb_le _ _) Hv), Hi. reflexivity.
  - intros Hv. rewrite (proj2 (Z.leb_gt _ _) Hv). reflexivity.
Qed.

End ReadOrder.

(** ** The sample collaborators *)

Section SampleCollaborators.

Import StreamState io.

Lemma SampleRun_consume_slots w :
  iword (strm (SampleRun.consume w)) = iword (strm w)
  /\ pword (strm (SampleRun.consume w)) = pword (strm w).
Proof.
  unfold SampleRun.consume, istream_read. simpl.
  destruct (good (strm w)); [destruct (gbuf (strm w))|]; split; reflexivity.
Qed.

Lemma SampleRun_put_slots c w :
  iword (strm (SampleRun.put c w)) = iword (strm w)
  /\ pword (strm (SampleRun.put c w)) = pword (strm w).
Proof.
  unfold SampleRun.put, ostream_write. simpl.
  destruct (good (strm w)); split; reflexivity.
Qed.

Lemma SampleRun_seekp_slots off w :
  iword (strm (set_strm (seekp off (strm w)) w)) = iword (strm w)
  /\ pword (strm (set_strm (seekp off (strm w)) w)) = pword (strm w).
Proof.
  unfold seekp. simpl.
  destruct (good (strm w)); [destruct (_ && _)|]; split; reflexivity.
Qed.

(** The sample collaborators change neither the format version word nor
    the metadata slot. *)
Lemma SampleRun_ext_frame (c : ExtCall) (w : World) :
  getFormatVersion (strm (snd (SampleRun.ext c w))) = getFormatVersion (strm w)
  /\ metadata_slot (snd (SampleRun.ext c w)) = metadata_slot w.
Proof.
  unfold getFormatVersion, metadata_slot.
  destruct c; cbn [SampleRun.ext snd];
    try (destruct (_ =? 12)%nat; cbn [snd]);
    rewrite ?strm_setGridBackgroundValuePtr; cbn [iword pword set_pword];
    rewrite ?upd_ne by discriminate;
    first [ destruct (SampleRun_consume_slots w) as [-> ->]
          | destruct (SampleRun_put_slots "M" w) as [Hi Hp];
            destruct (SampleRun_put_slots "X" w) as [Hi1 Hp1];
            destruct (SampleRun_put_slots "T" w) as [Hi2 Hp2];
            destruct (SampleRun_put_slots "B" w) as [Hi3 Hp3];
            destruct (SampleRun_put_slots "H" w) as [Hi4 Hp4];
            destruct (SampleRun_put_slots "P" w) as [Hi5 Hp5];
            destruct (SampleRun_put_slots "F" w) as [Hi6 Hp6];
            first [rewrite Hi, Hp | rewrite Hi1, Hp1 | rewrite Hi2, Hp2
                  | rewrite Hi3, Hp3 | rewrite Hi4, Hp4 | rewrite Hi5, Hp5
                  | rewrite Hi6, Hp6]
          | destruct (SampleRun_seekp_slots (getEndPos gd) w) as [-> ->] ];
    split; reflexivity.
Qed.

End SampleCollaborators.

(** With the sample collaborators: reading the grid whose buffers cannot be
    read leaves by exception, writing an instance returns, and the slot
    holds the file-level pointer after both. *)
Lemma per_grid_metadata_slot_witness :
  let read := @io.doReadGrid Reference.constants Reference.helpers
                SampleRun.collaborators 12%nat SampleRun.primary NoBBox
                SampleRun.machine0 in
  let written := @io.writeGridInstance Reference.constants Reference.helpers
                   SampleRun.collaborators Sample.archive0 SampleRun.instance
                   11%nat true SampleRun.machine0 in
  fst read = Throw (OPENVDB_THROW IoError "truncated buffers")
  /\ metadata_slot (world (snd read)) = Some 1%nat
  /\ metadata_slot (world (snd written)) = Some 1%nat.
Proof.
  destruct (@per_grid_metadata_slot Reference.constants Reference.helpers
              SampleRun.collaborators) as (Hread & _ & _ & Hinst).
  cbv zeta. split; [vm_compute; reflexivity|]. split.
  - rewrite Hread; [reflexivity | vm_compute; discriminate].
  - rewrite Hinst; [reflexivity|]. intros c w _. apply SampleRun_ext_frame.
Defined.

(** C1, as stated, fails for [writeGridInstance], which has no guard.  With
    collaborators whose [writeMeta] rebinds the stream, it returns with the
    slot holding another pointer than on entry; [writeGrid], run from the
    same machine with the same collaborators, puts the pointer back. *)
Lemma writeGridInstance_slot_counterexample :
  let written := @io.writeGridInstance Reference.constants Reference.helpers
                   SampleRebind.collaborators Sample.archive0 SampleRun.instance
                   11%nat true SampleRun.machine0 in
  let guarded := @io.writeGrid Reference.constants Reference.helpers
                   SampleRebind.collaborators Sample.archive0 SampleRun.primary
                   11%nat true SampleRun.machine0 in
  metadata_slot (world SampleRun.machine0) = Some 1%nat
  /\ (exists gd', fst written = Ok gd')
  /\ metadata_slot (world (snd written)) = Some 3%nat
  /\ metadata_slot (world (snd written)) <> metadata_slot (world SampleRun.machine0)
  /\ (exists gd', fst guarded = Ok gd')
  /\ metadata_slot (world (snd guarded)) = Some 1%nat.
Proof.
  cbv zeta. split; [reflexivity|].
  split; [eexists; vm_compute; reflexivity|].
  split; [vm_compute; reflexivity|].
  split; [vm_compute; discriminate|].
  split; [eexists; vm_compute; reflexivity|].
  vm_compute. reflexivity.
Qed.

(** With the sample collaborators and format version 224: an instance
    descriptor has the metadata and the transform read, nothing else. *)
Lemma doReadGrid_read_order_witness :
  let run := @io.doReadGrid Reference.constants Reference.helpers
               SampleRun.collaborators 10%nat SampleRun.instance NoBBox
               SampleRun.machine0 in
  (forall c w,
     io.getFormatVersion (strm (snd (SampleRun.ext c w))) = io.getFormatVersion (strm w))
  /\ fst run = Ok tt
  /\ calls (snd run) = [GridBase_readMeta 10; GridBase_readTransform 10].
Proof.
  assert (Hext : forall c w,
            io.getFormatVersion (strm (snd (SampleRun.ext c w)))
            = io.getFormatVersion (strm w))
    by (intros c w; apply SampleRun_ext_frame).
  pose proof (@doReadGrid_read_order Reference.constants Reference.helpers
                SampleRun.collaborators Hext 10%nat SampleRun.instance NoBBox
                SampleRun.machine0) as Hthm.
  cbv zeta in Hthm. destruct Hthm as (_ & Hall & _ & Hinst & _).
  cbv zeta. split; [exact Hext|]. split; [vm_compute; reflexivity|].
  rewrite Hall by (vm_compute; reflexivity).
  rewrite Hinst; [reflexivity | vm_compute; discriminate | reflexivity].
Defined.

(** ** Instance reconnection *)

Section ConnectInstance.

Import io.
Context `{Helpers}.

(** A grid map with an entry is not empty. *)
Lemma lookup_nonempty (grids_ : gmap string (option nat)) (k : string) (x : option nat) :
  grids_ !! k = Some x -> bool_decide (grids_ = ∅) = false.
Proof.
  intros Hk. apply bool_decide_eq_false. intros ->.
  rewrite lookup_empty in Hk. discriminate.
Qed.

(** The parent entry is a null pointer: the source dereferences it. *)
Lemma connectInstance_null_parent (a : Archive) (gd : GridDescriptor)
    (grids_ : gmap string (option nat)) (w : World) (grid : nat) :
  isInstance gd = true ->
  grids_ !! uniqueName gd = Some (Some grid) ->
  grids_ !! instanceParentName gd = Some None ->
  connectInstance a gd grids_ w = NullDereference.
Proof.
  intros Hi Hg Hp. unfold connectInstance.
  rewrite Hi, (lookup_nonempty _ _ _ Hg), Hg, Hp. reflexivity.
Qed.

(** C7.  For a descriptor that marks an instance and whose unique name maps
    to a grid, [connectInstance] throws exactly when the instance-parent
    name is not in the map, and what it throws is the [KeyError] "missing
    instance parent".  When the parent name maps to a grid: with instancing
    enabled the instance grid holds the very tree the parent holds; with
    instancing disabled it holds a new tree object with the parent tree's
    content.  Nothing else of the grid changes, and no other grid or
    existing tree does. *)
Theorem connectInstance_parent (a : Archive) (gd : GridDescriptor)
    (grids_ : gmap string (option nat)) (w : World) (grid : nat)
    (Hinst : isInstance gd = true)
    (Hgrid : grids_ !! uniqueName gd = Some (Some grid)) :
  ((exists e, connectInstance a gd grids_ w = Thrown e)
   <-> grids_ !! instanceParentName gd = None)
  /\ (forall e, connectInstance a gd grids_ w = Thrown e ->
        e = OPENVDB_THROW KeyError (missing_instance_parent gd))
  /\ (forall parent, grids_ !! instanceParentName gd = Some (Some parent) ->
        exists w',
          connectInstance a gd grids_ w = Returned w'
          /\ (mEnableInstancing a = true ->
              gtree (grids w' grid) = gtree (grids w parent)
              /\ trees w' = trees w)
          /\ (mEnableInstancing a = false ->
              gtree (grids w' grid) = brk w
              /\ trees w' (brk w) = trees w (gtree (grids w parent))
              /\ (forall t, t <> brk w -> trees w' t = trees w t)
              /\ (gtree (grids w parent) < brk w ->
                  gtree (grids w' grid) <> gtree (grids w parent))%nat)
          /\ gmeta (grids w' grid) = gmeta (grids w grid)
          /\ gtype (grids w' grid) = gtype (grids w grid)
          /\ gtransform (grids w' grid) = gtransform (grids w grid)
          /\ (forall g, g <> grid -> grids w' g = grids w g)).
Proof.
  unfold connectInstance.
  rewrite Hinst, (lookup_nonempty _ _ _ Hgrid), Hgrid. cbn [negb orb].
  destruct (grids_ !! instanceParentName gd) as [[parent|]|] eqn:Hp.
  - split; [split; [intros [e He]|intros He]; discriminate
                 || (destruct (mEnableInstancing a); discriminate)|].
    split; [intros e He; destruct (mEnableInstancing a); discriminate|].
    intros p Hpp. injection Hpp as <-.
    destruct (mEnableInstancing a).
    + eexists. split; [reflexivity|]. cbn [grids trees set_grid].
      rewrite upd_eq. cbn [setTree gtree gmeta gtype gtransform].
      split; [intros _; split; reflexivity|].
      split; [discriminate|].
      repeat (split; [reflexivity|]).
      intros g Hne. apply upd_ne. exact Hne.
    + eexists. split; [reflexivity|].
      cbn [TreeBase_copy alloc grids trees set_grid set_tree brk].
      rewrite !upd_eq. cbn [setTree gtree gmeta gtype gtransform].
      split; [discriminate|].
      split.
      { intros _. split; [reflexivity|]. split; [reflexivity|].
        split; [intros t Ht; apply upd_ne; exact Ht|]. lia. }
      repeat (split; [reflexivity|]).
      intros g Hne. apply upd_ne. exact Hne.
  - split; [split; [intros [e He]|intros He]; discriminate|].
    split; [intros e He; discriminate|].
    intros p Hpp. discriminate.
  - split; [split; [reflexivity | intros _; eexists; reflexivity]|].
    split; [intros e He; injection He as <-; reflexivity|].
    intros p Hpp. discriminate.
Qed.

End ConnectInstance.

(** The sample instance "copy" of "density": with instancing enabled grid
    12 ends up on tree 7, the tree of grid 10; without the parent in the map
    the call throws. *)
Lemma connectInstance_parent_witness :
  (exists w',
     @io.connectInstance Reference.helpers Sample.archive0 SampleRun.instance
       SampleInstance.named Sample.world0 = io.Returned w'
     /\ gtree (grids w' 12%nat) = 7%nat)
  /\ exists e,
       @io.connectInstance Reference.helpers Sample.archive0 SampleRun.instance
         SampleInstance.orphaned Sample.world0 = io.Thrown e.
Proof.
  split.
  - destruct (@connectInstance_parent Reference.helpers Sample.archive0
                SampleRun.instance SampleInstance.named Sample.world0 12%nat
                eq_refl eq_refl) as (_ & _ & Hparent).
    destruct (Hparent 10%nat eq_refl) as (w' & Hret & Hshare & _).
    exists w'. split; [exact Hret|].
    destruct (Hshare eq_refl) as [Ht _]. rewrite Ht. reflexivity.
  - destruct (@connectInstance_parent Reference.helpers Sample.archive0
                SampleRun.instance SampleInstance.orphaned Sample.world0 12%nat
                eq_refl eq_refl) as (Hthrow & _).
    apply Hthrow. reflexivity.
Defined.

(** ** Instance detection in [Archive::write] *)

Section WriteInstancing.

Import StreamState io.
Context `{Constants} `{Helpers} `{Collaborators}.

Lemma uniqueName_setGridPos p gd : uniqueName (setGridPos p gd) = uniqueName gd.
Proof. destruct gd; reflexivity. Qed.
Lemma uniqueName_setBlockPos p gd : uniqueName (setBlockPos p gd) = uniqueName gd.
Proof. destruct gd; reflexivity. Qed.
Lemma uniqueName_setEndPos p gd : uniqueName (setEndPos p gd) = uniqueName gd.
Proof. destruct gd; reflexivity. Qed.
Lemma parent_setGridPos p gd :
  instanceParentName (setGridPos p gd) = instanceParentName gd.
Proof. destruct gd; reflexivity. Qed.
Lemma parent_setBlockPos p gd :
  instanceParentName (setBlockPos p gd) = instanceParentName gd.
Proof. destruct gd; reflexivity. Qed.
Lemma parent_setEndPos p gd :
  instanceParentName (setEndPos p gd) = instanceParentName gd.
Proof. destruct gd; reflexivity. Qed.
Lemma half_setGridPos p gd : saveFloatAsHalf (setGridPos p gd) = saveFloatAsHalf gd.
Proof. destruct gd; reflexivity. Qed.
Lemma half_setBlockPos p gd : saveFloatAsHalf (setBlockPos p gd) = saveFloatAsHalf gd.
Proof. destruct gd; reflexivity. Qed.
Lemma half_setEndPos p gd : saveFloatAsHalf (setEndPos p gd) = saveFloatAsHalf gd.
Proof. destruct gd; reflexivity. Qed.

(** The run stopped by exception or divergence: what it logged starts as
    required, and it did not return. *)
Ltac log_stops :=
  cbn [calls world]; rewrite <- ?app_assoc;
  split; [eexists; reflexivity | intros ? ?; discriminate].

(** The log of [writeGridInstance]. *)
Lemma writeGridInstance_log (a : Archive) (gd : GridDescriptor) (grid : nat)
    (seekable : bool) (m : Machine) :
  wp (writeGridInstance a gd grid seekable)
     (logged m (GridDescriptor_writeHeader gd)
        (fun gd' l => l = instance_calls gd grid seekable gd'
                      /\ uniqueName gd' = uniqueName gd
                      /\ instanceParentName gd' = instanceParentName gd))
     m.
Proof.
  unfold writeGridInstance, rewrite_offsets, instance_calls, logged.
  apply wp_bind, wp_call. intros r1 w1 _. cbn [calls world].
  destruct r1 as [[]|e|]; [|log_stops..].
  apply wp_bind, wp_gets. apply wp_bind, wp_call. intros r2 w2 _.
  cbn [calls world]. destruct r2 as [[]|e|]; [|log_stops..].
  apply wp_bind, wp_record_pos. apply wp_bind, wp_modify. cbn [calls world].
  apply wp_bind, wp_call. intros r3 w3 _. cbn [calls world].
  destruct r3 as [[]|e|]; [|log_stops..].
  apply wp_bind, wp_call. intros r4 w4 _. cbn [calls world].
  destruct r4 as [[]|e|]; [|log_stops..].
  apply wp_bind, wp_record_pos.
  destruct seekable.
  - apply wp_bind, wp_bind, wp_modify. cbn [calls world].
    apply wp_bind, wp_call. intros r5 w5 _. cbn [calls world].
    destruct r5 as [[]|e|]; [|log_stops..].
    apply wp_call. intros r6 w6 _. cbn [calls world].
    destruct r6 as [[]|e|]; [|log_stops..].
    apply wp_ret. cbn [calls]. rewrite <- !app_assoc.
    split; [eexists; reflexivity|]. intros gd' Hgd'. injection Hgd' as <-.
    eexists. split; [reflexivity|].
    rewrite uniqueName_setEndPos, uniqueName_setGridPos,
      parent_setEndPos, parent_setGridPos. repeat split.
  - apply wp_bind, wp_ret. apply wp_ret. cbn [calls]. rewrite <- !app_assoc.
    split; [eexists; reflexivity|]. intros gd' Hgd'. injection Hgd' as <-.
    eexists. split; [reflexivity|]. repeat split.
Qed.

(** The log of [writeGrid]. *)
Lemma writeGrid_log (a : Archive) (gd : GridDescriptor) (grid : nat)
    (seekable : bool) (m : Machine) :
  wp (writeGrid a gd grid seekable)
     (logged m (GridDescriptor_writeHeader gd)
        (fun gd' l => (exists copyOfGrid,
                         l = primary_calls gd grid copyOfGrid seekable gd')
                      /\ uniqueName gd' = uniqueName gd
                      /\ instanceParentName gd' = instanceParentName gd
                      /\ saveFloatAsHalf gd' = saveFloatAsHalf gd))
     m.
Proof.
  unfold writeGrid, rewrite_offsets, primary_calls, logged.
  apply wp_with_OnExit.
  destruct (new_streamMetadata (world m)) as [[p i] w0] eqn:E0.
  apply wp_bind. eapply wp_state_eq; [exact E0|]. cbn [calls world].
  do 3 (apply wp_bind, wp_modify; cbn [calls world]).
  apply wp_bind, wp_call. intros r1 w1 _. cbn [calls world].
  destruct r1 as [[]|e|]; [|log_stops..].
  apply wp_bind, wp_gets. apply wp_bind, wp_call. intros r2 w2 _.
  cbn [calls world]. destruct r2 as [[]|e|]; [|log_stops..].
  apply wp_bind, wp_record_pos. apply wp_bind, wp_modify. cbn [calls world].
  match goal with
  | |- wp (bind (state ?f) _) _ ?M =>
    destruct (f (world M)) as [copyOfGrid w3] eqn:E3
  end.
  apply wp_bind. eapply wp_state_eq; [exact E3|]. cbn [calls world].
  apply wp_bind, wp_call. intros r4 w4 _. cbn [calls world].
  destruct r4 as [[]|e|]; [|log_stops..].
  apply wp_bind, wp_call. intros r5 w5 _. cbn [calls world].
  destruct r5 as [[]|e|]; [|log_stops..].
  apply wp_bind, wp_call. intros r6 w6 _. cbn [calls world].
  destruct r6 as [[]|e|]; [|log_stops..].
  apply wp_bind, wp_record_pos.
  apply wp_bind, wp_call. intros r7 w7 _. cbn [calls world].
  destruct r7 as [[]|e|]; [|log_stops..].
  apply wp_bind, wp_record_pos.
  destruct seekable.
  - apply wp_bind, wp_bind, wp_modify. cbn [calls world].
    apply wp_bind, wp_call. intros r8 w8 _. cbn [calls world].
    destruct r8 as [[]|e|]; [|log_stops..].
    apply wp_call. intros r9 w9 _. cbn [calls world].
    destruct r9 as [[]|e|]; [|log_stops..].
    apply wp_ret. cbn [calls]. rewrite <- !app_assoc.
    split; [eexists; reflexivity|]. intros gd' Hgd'. injection Hgd' as <-.
    eexists. split; [reflexivity|].
    rewrite uniqueName_setEndPos, uniqueName_setBlockPos, uniqueName_setGridPos,
      parent_setEndPos, parent_setBlockPos, parent_setGridPos,
      half_setEndPos, half_setBlockPos, half_setGridPos.
    split; [exists copyOfGrid; reflexivity|]. repeat split.
  - apply wp_bind, wp_ret. apply wp_ret. cbn [calls]. rewrite <- !app_assoc.
    split; [eexists; reflexivity|]. intros gd' Hgd'. injection Hgd' as <-.
    eexists. split; [reflexivity|].
    split; [exists copyOfGrid; reflexivity|]. repeat split.
Qed.

Lemma instanceParentName_new name type half :
  instanceParentName (new_GridDescriptor name type half) = ""
  /\ uniqueName (new_GridDescriptor name type half) = name
  /\ saveFloatAsHalf (new_GridDescriptor name type half) = half.
Proof. repeat split. Qed.

Lemma setInstanceParentName_fields parent gd :
  instanceParentName (setInstanceParentName parent gd) = parent
  /\ uniqueName (setInstanceParentName parent gd) = uniqueName gd
  /\ saveFloatAsHalf (setInstanceParentName parent gd) = saveFloatAsHalf gd.
Proof. destruct gd. repeat split. Qed.

(** One round of the second loop of [write], for a non-null grid with
    descriptor name [name] and the tree map [treeMap].  When instancing is
    enabled, the grid's tree is in the map and the half-float flag of the
    descriptor recorded there equals the grid's: the descriptor written first
    names the recorded descriptor's unique name as instance parent,
    [writeGridInstance] makes the calls (no topology, no buffers), and the
    map is returned as it was.  Otherwise: the descriptor written first
    names no parent, [writeGrid] makes the calls (topology and buffers
    included), and the returned map holds the grid's tree with the
    descriptor under [name] and the grid's half-float flag. *)
Lemma write_descriptor_cases (a : Archive) (seekable : bool)
    (treeMap : gmap nat GridDescriptor) (name : string) (grid : nat) (m : Machine) :
  let g := grids (world m) grid in
  let gd := new_GridDescriptor name (gtype g) (Grid.saveFloatAsHalf g) in
  let r := fst (write_descriptor a seekable treeMap name grid m) in
  let m' := snd (write_descriptor a seekable treeMap name grid m) in
  (forall parent,
     mEnableInstancing a = true ->
     treeMap !! gtree g = Some parent ->
     saveFloatAsHalf parent = Grid.saveFloatAsHalf g ->
     let gdi := setInstanceParentName (uniqueName parent) gd in
     instanceParentName gdi = uniqueName parent
     /\ (uniqueName parent <> "" -> isInstance gdi = true)
     /\ (exists l, calls m' = calls m ++ GridDescriptor_writeHeader gdi :: l)
     /\ (forall treeMap', r = Ok treeMap' ->
           treeMap' = treeMap
           /\ exists gd', calls m' = calls m ++ instance_calls gdi grid seekable gd'))
  /\ ((mEnableInstancing a = false
       \/ treeMap !! gtree g = None
       \/ exists parent, treeMap !! gtree g = Some parent
                         /\ saveFloatAsHalf parent <> Grid.saveFloatAsHalf g) ->
      instanceParentName gd = ""
      /\ isInstance gd = false
      /\ (exists l, calls m' = calls m ++ GridDescriptor_writeHeader gd :: l)
      /\ (forall treeMap', r = Ok treeMap' ->
            exists gd' copyOfGrid,
              treeMap' = <[gtree g := gd']> treeMap
              /\ uniqueName gd' = name
              /\ instanceParentName gd' = ""
              /\ saveFloatAsHalf gd' = Grid.saveFloatAsHalf g
              /\ calls m' = calls m ++ primary_calls gd grid copyOfGrid seekable gd')).
Proof.
  intros g gd r m'.
  assert (Hinstance : forall parent,
            wp (bind (writeGridInstance a
                        (setInstanceParentName (uniqueName parent) gd) grid seekable)
                     (fun _ => ret treeMap))
               (fun r m' =>
                  (exists l, calls m' = calls m ++ GridDescriptor_writeHeader
                               (setInstanceParentName (uniqueName parent) gd) :: l)
                  /\ (forall treeMap', r = Ok treeMap' ->
                        treeMap' = treeMap
                        /\ exists gd', calls m' = calls m ++ instance_calls
                              (setInstanceParentName (uniqueName parent) gd)
                              grid seekable gd')) m).
  { intros parent. apply wp_bind.
    eapply wp_consequence; [apply writeGridInstance_log|].
    intros r1 m1 [Hfirst Hall].
    destruct r1 as [gd'|e|]; [|split; [exact Hfirst | intros ? ?; discriminate]..].
    apply wp_ret. split; [exact Hfirst|].
    intros treeMap' Ht. injection Ht as <-. split; [reflexivity|].
    destruct (Hall gd' eq_refl) as (l & Hl & -> & _). exists gd'. exact Hl. }
  assert (Hprimary :
            wp (bind (writeGrid a gd grid seekable)
                     (fun gd' => ret (<[gtree g := gd']> treeMap)))
               (fun r m' =>
                  (exists l, calls m' = calls m ++ GridDescriptor_writeHeader gd :: l)
                  /\ (forall treeMap', r = Ok treeMap' ->
                        exists gd' copyOfGrid,
                          treeMap' = <[gtree g := gd']> treeMap
                          /\ uniqueName gd' = name
                          /\ instanceParentName gd' = ""
                          /\ saveFloatAsHalf gd' = Grid.saveFloatAsHalf g
                          /\ calls m' = calls m ++ primary_calls gd grid copyOfGrid
                                                     seekable gd')) m).
  { apply wp_bind.
    eapply wp_consequence; [apply writeGrid_log|].
    intros r1 m1 [Hfirst Hall].
    destruct r1 as [gd'|e|]; [|split; [exact Hfirst | intros ? ?; discriminate]..].
    apply wp_ret. split; [exact Hfirst|].
    intros treeMap' Ht. injection Ht as <-.
    destruct (Hall gd' eq_refl) as (l & Hl & (copyOfGrid & ->) & Hu & Hp & Hh).
    exists gd', copyOfGrid. repeat split; assumption. }
  assert (Hrun : write_descriptor a seekable treeMap name grid m =
                 match mEnableInstancing a && isInstance_of treeMap (gtree g) gd,
                       treeMap !! gtree g with
                 | true, Some parent =>
                   bind (writeGridInstance a
                           (setInstanceParentName (uniqueName parent) gd) grid seekable)
                        (fun _ => ret treeMap) m
                 | _, _ =>
                   bind (writeGrid a gd grid seekable)
                        (fun gd' => ret (<[gtree g := gd']> treeMap)) m
                 end).
  { unfold write_descriptor, bind at 1, gets. cbn [fst snd]. fold g. fold gd.
    destruct (mEnableInstancing a && isInstance_of treeMap (gtree g) gd);
      destruct (treeMap !! gtree g); reflexivity. }
  unfold r, m'. rewrite Hrun. unfold isInstance_of. split.
  - intros parent Hen Hlook Hhalf. rewrite Hen, Hlook.
    replace (Bool.eqb (saveFloatAsHalf parent) (saveFloatAsHalf gd)) with true
      by (symmetry; apply Bool.eqb_true_iff; exact Hhalf).
    cbn [andb]. split; [apply setInstanceParentName_fields|].
    split; [|exact (Hinstance parent)].
    intros Hne. unfold isInstance.
    rewrite (proj1 (setInstanceParentName_fields (uniqueName parent) gd)).
    destruct (String.eqb_spec (uniqueName parent) ""); [contradiction | reflexivity].
  - intros Hnot. split; [reflexivity|]. split; [reflexivity|].
    assert (Hcond : mEnableInstancing a
                    && match treeMap !! gtree g with
                       | Some parent =>
                         Bool.eqb (saveFloatAsHalf parent) (saveFloatAsHalf gd)
                       | None => false
                       end = false).
    { destruct Hnot as [-> | [-> | (parent & -> & Hne)]].
      - reflexivity.
      - apply andb_false_r.
      - replace (Bool.eqb (saveFloatAsHalf parent) (saveFloatAsHalf gd)) with false
          by (symmetry; apply Bool.eqb_false_iff; exact Hne).
        apply andb_false_r. }
    rewrite Hcond. destruct (treeMap !! gtree g); exact Hprimary.
Qed.

End WriteInstancing.

(** ** The descriptor name loop of [write] terminates *)

Section UniqueNames.

Import io.
Context `{Helpers}.

(** When the loop gives up, the name it started with and every suffixed
    name it tried are in use. *)
Lemma uniquify_None (fuel : nat) (base : string) (uniqueNames : gset string)
    (n : Z) (name : string) :
  uniquify fuel base uniqueNames n name = None ->
  forall k : nat, (k < fuel)%nat -> addSuffix base (n + Z.of_nat k) ∈ uniqueNames.
Proof.
  revert n name. induction fuel as [|fuel IH]; intros n name Hnone k Hk; [lia|].
  cbn [uniquify] in Hnone.
  destruct (bool_decide (name ∈ uniqueNames)); [|discriminate].
  destruct fuel as [|fuel'].
  - cbn [uniquify] in Hnone.
    destruct (bool_decide (addSuffix base n ∈ uniqueNames)) eqn:E; [|discriminate].
    apply bool_decide_eq_true in E.
    replace k with 0%nat by lia. rewrite Z.add_0_r. exact E.
  - destruct k as [|k].
    + rewrite Z.add_0_r. cbn [uniquify] in Hnone.
      destruct (bool_decide (addSuffix base n ∈ uniqueNames)) eqn:E; [|discriminate].
      apply bool_decide_eq_true in E. exact E.
    + replace (n + Z.of_nat (S k)) with ((n + 1) + Z.of_nat k) by lia.
      apply (IH (n + 1) (addSuffix base n) Hnone). lia.
Qed.

(** With suffixes that differ for different numbers, the loop finds a name:
    [write] does not diverge there. *)
Lemma descriptor_name_found (nameCount : gmap string Z) (uniqueNames : gset string)
    (grid : GridBase) :
  (forall base n n', addSuffix base n = addSuffix base n' -> n = n') ->
  exists name, descriptor_name nameCount uniqueNames grid = Some name
               /\ name ∉ uniqueNames.
Proof.
  intros Hinj. unfold descriptor_name.
  set (base := Grid.getName grid).
  generalize (if String.eqb base "" || (default 0 (nameCount !! base) >? 1)
              then addSuffix base 0 else base).
  intros name0.
  destruct (uniquify (S (size uniqueNames)) base uniqueNames 1 name0) as [name|] eqn:E.
  - exists name. split; [reflexivity|].
    clear -E. revert E. generalize 1. generalize name0.
    induction (S (size uniqueNames)) as [|fuel IH]; intros nm n E; cbn [uniquify] in E.
    + destruct (bool_decide (nm ∈ uniqueNames)) eqn:D; [discriminate|].
      injection E as <-. apply bool_decide_eq_false in D. exact D.
    + destruct (bool_decide (nm ∈ uniqueNames)) eqn:D.
      * apply (IH _ _ E).
      * injection E as <-. apply bool_decide_eq_false in D. exact D.
  - exfalso. pose proof (uniquify_None _ _ _ _ _ E) as Hin.
    set (tried := map (fun k : nat => addSuffix base (1 + Z.of_nat k))
                      (seq 0 (S (size uniqueNames)))).
    assert (Hnodup : NoDup tried).
    { apply NoDup_fmap_2_strong; [|apply NoDup_seq].
      intros k k' _ _ Heq. apply Hinj in Heq. lia. }
    assert (Hsub : list_to_set tried ⊆ uniqueNames).
    { intros x Hx. apply elem_of_list_to_set in Hx.
      apply list_elem_of_fmap in Hx. destruct Hx as (k & -> & Hk).
      apply elem_of_seq in Hk. apply Hin. lia. }
    apply subseteq_size in Hsub.
    rewrite size_list_to_set in Hsub by exact Hnodup.
    unfold tried in Hsub. rewrite length_map, length_seq in Hsub. lia.
Qed.

End UniqueNames.

(** The reference suffix is the name, the separator and the decimal number:
    different numbers give different names. *)
Lemma Reference_addSuffix_inj (base : string) (n n' : Z) :
  Reference.addSuffix base n = Reference.addSuffix base n' -> n = n'.
Proof.
  unfold Reference.addSuffix. intros Heq.
  apply (inj (String.app base)) in Heq.
  apply (inj (String.app Reference.SEP)) in Heq.
  apply (inj pretty) in Heq. exact Heq.
Qed.

(** The sample archive written whole: grid 10, a null entry, grid 11 (same
    tree and half-float flag as grid 10), grid 12 (another tree), grid 10
    again.  The descriptors written, as unique name and instance parent. *)
Example write_sample_descriptors :
  let run := @io.write Reference.constants Reference.helpers SampleRun.collaborators
               Sample.archive0 SampleHeader.indeterminate0
               (fun i => Some (Z.of_nat i + 77))
               [Some 10; None; Some 11; Some 12; Some 10]%nat true
               (gmeta Sample.fog_grid) SampleRun.machine0 in
  omap (fun c => match c with
                 | GridDescriptor_writeHeader gd =>
                   Some (uniqueName gd, instanceParentName gd)
                 | _ => None
                 end) (calls (snd run))
  = [(Reference.addSuffix "density" 0, "");
     (Reference.addSuffix "density" 1, Reference.addSuffix "density" 0);
     ("surface", "");
     (Reference.addSuffix "density" 2, Reference.addSuffix "density" 0)].
Proof. vm_compute. reflexivity. Qed.

(** * Further properties of [Grid.cc] *)

(** ** The metadata-backed accessors *)

Section GridAccessors.

Import Grid.
Context `{Helpers}.

Lemma same_except_insert_remove key md g :
  same_except key g (insertMeta key md (removeMeta key g)).
Proof.
  unfold same_except, insertMeta, removeMeta, set_gmeta. cbn.
  split; [|auto]. intros k Hk.
  rewrite lookup_insert_ne by congruence. apply lookup_delete_ne. congruence.
Qed.

Lemma same_except_insert key md g : same_except key g (insertMeta key md g).
Proof.
  unfold same_except, insertMeta, set_gmeta. cbn.
  split; [|auto]. intros k Hk. apply lookup_insert_ne. congruence.
Qed.

Lemma same_except_remove key g : same_except key g (removeMeta key g).
Proof.
  unfold same_except, removeMeta, set_gmeta. cbn.
  split; [|auto]. intros k Hk. apply lookup_delete_ne. congruence.
Qed.

Lemma lookup_insert_remove key md g :
  gmeta (insertMeta key md (removeMeta key g)) !! key = Some md.
Proof. unfold insertMeta, removeMeta, set_gmeta. cbn. apply lookup_insert_eq. Qed.

Lemma lookup_insertMeta key md g : gmeta (insertMeta key md g) !! key = Some md.
Proof. unfold insertMeta, set_gmeta. cbn. apply lookup_insert_eq. Qed.

Lemma setName_local x g : same_except META_GRID_NAME g (setName x g).
Proof. apply same_except_insert_remove. Qed.
Lemma setCreator_local x g : same_except META_GRID_CREATOR g (setCreator x g).
Proof. apply same_except_insert_remove. Qed.
Lemma setSaveFloatAsHalf_local x g :
  same_except META_SAVE_HALF_FLOAT g (setSaveFloatAsHalf x g).
Proof. apply same_except_insert_remove. Qed.
Lemma setIsInWorldSpace_local x g :
  same_except META_IS_LOCAL_SPACE g (setIsInWorldSpace x g).
Proof. apply same_except_insert_remove. Qed.
Lemma setGridClass_local x g : same_except META_GRID_CLASS g (setGridClass x g).
Proof. apply same_except_insert. Qed.
Lemma setVectorType_local x g : same_except META_VECTOR_TYPE g (setVectorType x g).
Proof. apply same_except_insert. Qed.

(** Each getter looks at one entry only. *)
Lemma getters_local key g g' :
  same_except key g g' ->
  (key <> META_GRID_NAME -> getName g' = getName g)
  /\ (key <> META_GRID_CREATOR -> getCreator g' = getCreator g)
  /\ (key <> META_SAVE_HALF_FLOAT -> saveFloatAsHalf g' = saveFloatAsHalf g)
  /\ (key <> META_IS_LOCAL_SPACE -> isInWorldSpace g' = isInWorldSpace g)
  /\ (key <> META_GRID_CLASS -> getGridClass g' = getGridClass g)
  /\ (key <> META_VECTOR_TYPE -> getVectorType g' = getVectorType g).
Proof.
  intros [Hk _].
  unfold getName, getCreator, saveFloatAsHalf, isInWorldSpace, getGridClass,
    getVectorType, getStringMetadata.
  repeat split; intros Hne; rewrite Hk by congruence; reflexivity.
Qed.

Hypothesis trim_id : forall s, no_outer_space s = true -> trim s = s.
Hypothesis to_lower_id : forall s, no_upper s = true -> to_lower s = s.

Lemma stringToGridClass_gridClassToString c :
  stringToGridClass (gridClassToString c) = c.
Proof.
  unfold stringToGridClass.
  rewrite (trim_id (gridClassToString c)) by (destruct c; reflexivity).
  rewrite (to_lower_id (gridClassToString c)) by (destruct c; reflexivity).
  destruct c; reflexivity.
Qed.

Lemma stringToVecType_vecTypeToString typ :
  stringToVecType (vecTypeToString typ) = typ.
Proof.
  unfold stringToVecType.
  rewrite (trim_id (vecTypeToString typ)) by (destruct typ; reflexivity).
  rewrite (to_lower_id (vecTypeToString typ)) by (destruct typ; reflexivity).
  destruct typ; reflexivity.
Qed.

(** X1.  The vector type codec round-trips: [stringToVecType] maps the
    string of each of the five vector types back to the type, so the five
    strings are pairwise different; a string that is none of them, after
    trimming and lower-casing, reads as [VEC_INVARIANT]. *)
Theorem vecType_string_roundtrip :
  (forall typ : VecType, stringToVecType (vecTypeToString typ) = typ)
  /\ (forall typ typ' : VecType, vecTypeToString typ = vecTypeToString typ' -> typ = typ')
  /\ (forall s : string,
        (forall typ : VecType, to_lower (trim s) <> vecTypeToString typ) ->
        stringToVecType s = VEC_INVARIANT).
Proof.
  split; [exact stringToVecType_vecTypeToString|]. split.
  - intros typ typ' E. rewrite <- (stringToVecType_vecTypeToString typ), E.
    apply stringToVecType_vecTypeToString.
  - intros s Hs. unfold stringToVecType.
    repeat match goal with
           | |- context [String.eqb ?x ?y] =>
             destruct (String.eqb_spec x y) as [Heq|_];
             [exfalso; revert Heq;
              first [apply (Hs VEC_COVARIANT) | apply (Hs VEC_COVARIANT_NORMALIZE)
                    | apply (Hs VEC_CONTRAVARIANT_RELATIVE)
                    | apply (Hs VEC_CONTRAVARIANT_ABSOLUTE)]|]
           end.
    reflexivity.
Qed.

(** X2.  Each of the six setters changes the reading of its own getter to
    the value set and leaves the other five readings as they were.  The
    first four setters remove the old entry before they insert, so they
    are stated for every grid; [setGridClass] and [setVectorType] insert
    over the old entry, and are stated for a grid whose entry under that
    key, if there is one, is string metadata. *)
Theorem grid_readings_after_set (g : GridBase) :
  let '(name, creator, half, world_, cls, typ) := readings g in
  (forall x, readings (setName x g) = (x, creator, half, world_, cls, typ))
  /\ (forall x, readings (setCreator x g) = (name, x, half, world_, cls, typ))
  /\ (forall x, readings (setSaveFloatAsHalf x g) = (name, creator, x, world_, cls, typ))
  /\ (forall x, readings (setIsInWorldSpace x g) = (name, creator, half, x, cls, typ))
  /\ ((forall md, gmeta g !! META_GRID_CLASS = Some md -> typeName md = "string") ->
      forall x, readings (setGridClass x g) = (name, creator, half, world_, x, typ))
  /\ ((forall md, gmeta g !! META_VECTOR_TYPE = Some md -> typeName md = "string") ->
      forall x, readings (setVectorType x g) = (name, creator, half, world_, cls, x)).
Proof.
  unfold readings. cbv beta iota.
  split; [|split; [|split; [|split; [|split]]]];
    [intros x | intros x | intros x | intros x | intros _ x | intros _ x].
  - destruct (getters_local _ g _ (setName_local x g))
      as (_ & -> & -> & -> & -> & ->); try discriminate.
    unfold getName, setName. rewrite lookup_insert_remove. reflexivity.
  - destruct (getters_local _ g _ (setCreator_local x g))
      as (-> & _ & -> & -> & -> & ->); try discriminate.
    unfold getCreator, setCreator. rewrite lookup_insert_remove. reflexivity.
  - destruct (getters_local _ g _ (setSaveFloatAsHalf_local x g))
      as (-> & -> & _ & -> & -> & ->); try discriminate.
    unfold saveFloatAsHalf, setSaveFloatAsHalf. rewrite lookup_insert_remove.
    reflexivity.
  - destruct (getters_local _ g _ (setIsInWorldSpace_local x g))
      as (-> & -> & -> & _ & -> & ->); try discriminate.
    unfold isInWorldSpace, setIsInWorldSpace. rewrite lookup_insert_remove.
    cbn. rewrite negb_involutive. reflexivity.
  - destruct (getters_local _ g _ (setGridClass_local x g))
      as (-> & -> & -> & -> & _ & ->); try discriminate.
    unfold getGridClass at 1, setGridClass, getStringMetadata.
    rewrite lookup_insertMeta. cbn [typeName StringMetadata str String.eqb Ascii.eqb Bool.eqb].
    rewrite stringToGridClass_gridClassToString. reflexivity.
  - destruct (getters_local _ g _ (setVectorType_local x g))
      as (-> & -> & -> & -> & -> & _); try discriminate.
    unfold getVectorType at 1, setVectorType, getStringMetadata.
    rewrite lookup_insertMeta. cbn [typeName StringMetadata str String.eqb Ascii.eqb Bool.eqb].
    rewrite stringToVecType_vecTypeToString. reflexivity.
Qed.

(** X3.  Without its entry a grid is of unknown class and invariant vector
    type: after [clearGridClass] and [clearVectorType], and also when the
    entry is there but is not string metadata.  Clearing leaves the other
    readings alone. *)
Theorem grid_class_cleared_or_mistyped (g : GridBase) :
  getGridClass (clearGridClass g) = GRID_UNKNOWN
  /\ getVectorType (clearVectorType g) = VEC_INVARIANT
  /\ (forall md, gmeta g !! META_GRID_CLASS = Some md ->
       typeName md <> "string" -> getGridClass g = GRID_UNKNOWN)
  /\ (forall md, gmeta g !! META_VECTOR_TYPE = Some md ->
       typeName md <> "string" -> getVectorType g = VEC_INVARIANT)
  /\ getName (clearGridClass g) = getName g
  /\ getVectorType (clearGridClass g) = getVectorType g
  /\ getGridClass (clearVectorType g) = getGridClass g.
Proof.
  unfold getGridClass, getVectorType, getName, getStringMetadata, clearGridClass,
    clearVectorType, removeMeta, set_gmeta. cbn [gmeta].
  rewrite !lookup_delete_eq.
  rewrite !lookup_delete_ne by discriminate.
  repeat split; intros md -> Htype%String.eqb_neq; rewrite Htype; reflexivity.
Qed.

(** ** Statistics metadata *)

Lemma getStatsMetadata_lookup (g : GridBase) (k : string) :
  getStatsMetadata g !! k =
  if bool_decide (k ∈ [META_FILE_BBOX_MIN; META_FILE_BBOX_MAX;
                       META_FILE_MEM_BYTES; META_FILE_VOXEL_COUNT])
  then gmeta g !! k else None.
Proof.
  unfold getStatsMetadata. cbn [fold_left].
  destruct (gmeta g !! META_FILE_BBOX_MIN) as [m1|] eqn:E1;
    destruct (gmeta g !! META_FILE_BBOX_MAX) as [m2|] eqn:E2;
    destruct (gmeta g !! META_FILE_MEM_BYTES) as [m3|] eqn:E3;
    destruct (gmeta g !! META_FILE_VOXEL_COUNT) as [m4|] eqn:E4;
    case_bool_decide as Hk;
    repeat match goal with
           | Hk : _ ∈ _ :: _ |- _ => apply elem_of_cons in Hk; destruct Hk as [-> | Hk]
           | Hk : _ ∈ [] |- _ => apply elem_of_nil in Hk; destruct Hk
           | Hk : _ ∉ _ :: _ |- _ => apply not_elem_of_cons in Hk; destruct Hk as [? Hk]
           end;
    simplify_map_eq; try reflexivity; try congruence.
Qed.

(** X4.  [getStatsMetadata] answers with exactly those entries of the grid
    that are among the four statistics fields: an entry is in the answer if
    and only if the grid holds it under one of the four keys.  After
    [addStatsMetadata] all four are there with the freshly computed values,
    whatever the grid held under these keys before, and every other entry of
    the grid is untouched. *)
Theorem stats_metadata (st : TreeStats) (g : GridBase) :
  (forall k md, getStatsMetadata g !! k = Some md <->
     gmeta g !! k = Some md
     /\ k ∈ [META_FILE_BBOX_MIN; META_FILE_BBOX_MAX;
             META_FILE_MEM_BYTES; META_FILE_VOXEL_COUNT])
  /\ getStatsMetadata (addStatsMetadata st g) =
     <[META_FILE_VOXEL_COUNT := Int64Metadata (activeVoxelCount st)]>
       (<[META_FILE_MEM_BYTES := Int64Metadata (memUsage st)]>
          (<[META_FILE_BBOX_MAX := Vec3IMetadata (bbox_max st)]>
             (<[META_FILE_BBOX_MIN := Vec3IMetadata (bbox_min st)]> ∅)))
  /\ (forall k, k ∉ [META_FILE_BBOX_MIN; META_FILE_BBOX_MAX;
                    META_FILE_MEM_BYTES; META_FILE_VOXEL_COUNT] ->
        gmeta (addStatsMetadata st g) !! k = gmeta g !! k).
Proof.
  split; [|split].
  - intros k md. rewrite getStatsMetadata_lookup.
    case_bool_decide as Hk; split.
    + intros Hmd. split; assumption.
    + intros [Hmd _]. exact Hmd.
    + discriminate.
    + intros [_ Hin]. contradiction.
  - apply map_eq. intros k. rewrite getStatsMetadata_lookup.
    unfold addStatsMetadata, insertMeta, removeMeta, set_gmeta. cbn [gmeta].
    case_bool_decide as Hk;
      repeat match goal with
             | Hk : _ ∈ _ :: _ |- _ => apply elem_of_cons in Hk; destruct Hk as [-> | Hk]
             | Hk : _ ∈ [] |- _ => apply elem_of_nil in Hk; destruct Hk
             | Hk : _ ∉ _ :: _ |- _ => apply not_elem_of_cons in Hk; destruct Hk as [? Hk]
             end;
      simplify_map_eq; reflexivity.
  - intros k Hk.
    unfold addStatsMetadata, insertMeta, removeMeta, set_gmeta. cbn [gmeta].
    repeat match goal with
           | Hk : _ ∉ _ :: _ |- _ => apply not_elem_of_cons in Hk; destruct Hk as [? Hk]
           end.
    simplify_map_eq. reflexivity.
Qed.

End GridAccessors.

(** ** The grid type registry *)

Section Registry.

Import GridRegistry.

(** X5.  A type name can be registered once: registering a free name makes
    it registered and [createGrid] then answers with its factory, the other
    names being as before; registering a name that is taken throws
    [KeyError]; creating a grid of a name that is not registered throws
    [LookupError]. *)
Theorem registry_register_create (mMap : gmap string GridBase) (name : string)
    (factory : GridBase) :
  (isRegistered name mMap = false ->
     exists mMap',
       registerGrid name factory mMap = Ok mMap'
       /\ isRegistered name mMap' = true
       /\ createGrid name mMap' = Ok factory
       /\ (forall other, other <> name ->
             createGrid other mMap' = createGrid other mMap
             /\ isRegistered other mMap' = isRegistered other mMap)
       /\ (forall factory', exists e,
             registerGrid name factory' mMap' = Throw e /\ exn_kind e = KeyError))
  /\ (isRegistered name mMap = true ->
      exists e, registerGrid name factory mMap = Throw e /\ exn_kind e = KeyError)
  /\ (isRegistered name mMap = false ->
      exists e, createGrid name mMap = Throw e /\ exn_kind e = LookupError).
Proof.
  unfold isRegistered, registerGrid, createGrid.
  destruct (mMap !! name) as [f|] eqn:E; (split; [|split]); try discriminate.
  - intros _. eexists. split; reflexivity.
  - intros _. eexists. split; [reflexivity|].
    rewrite lookup_insert_eq. split; [reflexivity|]. split; [reflexivity|].
    split.
    + intros other Hne. rewrite lookup_insert_ne by congruence. split; reflexivity.
    + intros f'. eexists. split; reflexivity.
  - intros _. eexists. split; reflexivity.
Qed.

(** X6.  Unregistering frees the name and only that name: afterwards
    [createGrid] on it throws [LookupError] and it can be registered again;
    unregistering a name that is not registered changes nothing; after
    [clearRegistry] no name is registered. *)
Theorem registry_unregister (mMap : gmap string GridBase) (name : string) :
  isRegistered name (unregisterGrid name mMap) = false
  /\ (exists e, createGrid name (unregisterGrid name mMap) = Throw e
                /\ exn_kind e = LookupError)
  /\ (forall factory,
        registerGrid name factory (unregisterGrid name mMap)
        = Ok (<[name := factory]> mMap))
  /\ (forall other, other <> name ->
        createGrid other (unregisterGrid name mMap) = createGrid other mMap)
  /\ (isRegistered name mMap = false -> unregisterGrid name mMap = mMap)
  /\ (forall other, isRegistered other (clearRegistry mMap) = false).
Proof.
  unfold isRegistered, registerGrid, createGrid, unregisterGrid, clearRegistry.
  rewrite lookup_delete_eq.
  split; [reflexivity|]. split; [eexists; split; reflexivity|].
  split; [intros f; rewrite insert_delete_eq; reflexivity|].
  split; [intros other Hne; rewrite lookup_delete_ne by congruence; reflexivity|].
  split.
  - destruct (mMap !! name) eqn:E; [discriminate|]. intros _.
    apply delete_id. exact E.
  - intros other. rewrite lookup_empty. reflexivity.
Qed.

End Registry.

(** The round trip of "contravariant absolute" with the reference helpers. *)
Lemma vecType_string_roundtrip_witness :
  (forall s, no_outer_space s = true -> Reference.trim s = s)
  /\ (forall s, no_upper s = true -> Reference.to_lower s = s)
  /\ @Grid.stringToVecType Reference.helpers
       (Grid.vecTypeToString Grid.VEC_CONTRAVARIANT_ABSOLUTE)
     = Grid.VEC_CONTRAVARIANT_ABSOLUTE.
Proof.
  split; [exact Reference_trim_id|]. split; [exact Reference_to_lower_id|].
  exact (proj1 (@vecType_string_roundtrip Reference.helpers
                  Reference_trim_id Reference_to_lower_id)
           Grid.VEC_CONTRAVARIANT_ABSOLUTE).
Defined.

(** The sample fog volume renamed: only the name reads differently. *)
Lemma grid_readings_after_set_witness :
  (forall s, no_outer_space s = true -> Reference.trim s = s)
  /\ (forall s, no_upper s = true -> Reference.to_lower s = s)
  /\ @readings Reference.helpers (Grid.setName "smoke" Sample.fog_grid)
     = ("smoke", "", true, true, GRID_FOG_VOLUME, Grid.VEC_INVARIANT).
Proof.
  split; [exact Reference_trim_id|]. split; [exact Reference_to_lower_id|].
  exact (proj1 (@grid_readings_after_set Reference.helpers
                  Reference_trim_id Reference_to_lower_id Sample.fog_grid) "smoke").
Defined.

(** The sample fog volume with a boolean under "class". *)
Lemma grid_class_cleared_or_mistyped_witness :
  let g := set_gmeta (<[Grid.META_GRID_CLASS := BoolMetadata true]>
                        (gmeta Sample.fog_grid)) Sample.fog_grid in
  gmeta g !! Grid.META_GRID_CLASS = Some (BoolMetadata true)
  /\ typeName (BoolMetadata true) <> "string"
  /\ @Grid.getGridClass Reference.helpers g = GRID_UNKNOWN.
Proof.
  intros g.
  assert (Hin : gmeta g !! Grid.META_GRID_CLASS = Some (BoolMetadata true))
    by (vm_compute; reflexivity).
  assert (Htype : typeName (BoolMetadata true) <> "string") by discriminate.
  split; [exact Hin|]. split; [exact Htype|].
  exact (proj1 (proj2 (proj2 (@grid_class_cleared_or_mistyped Reference.helpers g)))
           (BoolMetadata true) Hin Htype).
Defined.

(** A registry holding the sample fog volume under "float": a second
    registration of "float" is refused, "double" can be registered. *)
Lemma registry_register_create_witness :
  let mMap : gmap string GridBase := {[ "float" := Sample.fog_grid ]} in
  GridRegistry.isRegistered "float" mMap = true
  /\ GridRegistry.isRegistered "double" mMap = false
  /\ (exists e, GridRegistry.registerGrid "float" Sample.level_set mMap = Throw e
                /\ exn_kind e = KeyError)
  /\ (exists mMap', GridRegistry.registerGrid "double" Sample.level_set mMap = Ok mMap'
                    /\ GridRegistry.createGrid "double" mMap' = Ok Sample.level_set).
Proof.
  intros mMap.
  assert (Htaken : GridRegistry.isRegistered "float" mMap = true) by reflexivity.
  assert (Hfree : GridRegistry.isRegistered "double" mMap = false) by reflexivity.
  split; [exact Htaken|]. split; [exact Hfree|]. split.
  - exact (proj1 (proj2 (registry_register_create mMap "float" Sample.level_set)) Htaken).
  - destruct (proj1 (registry_register_create mMap "double" Sample.level_set) Hfree)
      as (mMap' & Hreg & _ & Hcreate & _).
    exists mMap'. split; assumption.
Defined.

(** * Further properties of [io/Archive.cc] *)

(** ** The slot indices of [StreamState] *)

Section StreamStateCtor.

Import StreamStateInit.
Context `{Constants}.

Lemma find_first {A} (f : A -> bool) (l1 l2 : list A) (x : A) :
  (forall y, In y l1 -> f y = false) -> f x = true ->
  List.find f (l1 ++ x :: l2) = Some x.
Proof.
  intros Hl1 Hx. induction l1 as [|y l1 IH]; cbn.
  - rewrite Hx. reflexivity.
  - rewrite (Hl1 y) by (left; reflexivity). apply IH.
    intros z Hz. apply Hl1. right. exact Hz.
Qed.

Lemma existing_array_none (p : Process) (n : Z) :
  (forall i, 0 <= i < n -> cout_iword p i <> MAGIC_NUMBER) ->
  existing_array p n = -1.
Proof.
  intros Hnone. unfold existing_array.
  destruct (List.find _ _) as [i|] eqn:E; [|reflexivity].
  apply List.find_some in E. destruct E as [Hin Hi].
  apply in_map_iff in Hin. destruct Hin as (k & <- & Hk).
  apply in_seq in Hk. apply Z.eqb_eq in Hi.
  exfalso. apply (Hnone (Z.of_nat k)); [lia | exact Hi].
Qed.

Lemma existing_array_found (p : Process) (n i0 : Z) :
  0 <= i0 < n -> cout_iword p i0 = MAGIC_NUMBER ->
  (forall i, 0 <= i < i0 -> cout_iword p i <> MAGIC_NUMBER) ->
  existing_array p n = i0.
Proof.
  intros Hi0 Hmagic Hfirst. unfold existing_array.
  replace (Z.to_nat n) with (Z.to_nat i0 + S (Z.to_nat (n - i0 - 1)))%nat by lia.
  rewrite seq_app, map_app. cbn [seq map]. rewrite Nat.add_0_l, Z2Nat.id by lia.
  rewrite find_first; [reflexivity | | apply Z.eqb_eq; exact Hmagic].
  intros y Hy. apply in_map_iff in Hy. destruct Hy as (k & <- & Hk).
  apply in_seq in Hk. apply Z.eqb_neq. apply Hfirst. lia.
Qed.

(** The search looks at the entries below its bound only. *)
Lemma existing_array_ext (p p' : Process) (n : Z) :
  (forall i, 0 <= i < n -> cout_iword p' i = cout_iword p i) ->
  existing_array p' n = existing_array p n.
Proof.
  intros Hsame. unfold existing_array.
  assert (Hext : forall l, (forall i, In i l -> 0 <= i < n) ->
            List.find (fun i => cout_iword p' i =? MAGIC_NUMBER) l
            = List.find (fun i => cout_iword p i =? MAGIC_NUMBER) l).
  { induction l as [|x l IH]; intros Hl; [reflexivity|]. cbn [List.find].
    rewrite Hsame by (apply Hl; left; reflexivity).
    rewrite IH by (intros i Hi; apply Hl; right; exact Hi). reflexivity. }
  rewrite Hext; [reflexivity|]. intros i Hi. apply in_map_iff in Hi.
  destruct Hi as (k & <- & Hk). apply in_seq in Hk. lia.
Qed.

Lemma xalloc_mk ni iw pw ob :
  xalloc (mkProcess ni iw pw ob) = (ni, mkProcess (ni + 1) iw pw ob).
Proof. reflexivity. Qed.

(** The constructor up to its search, on a process given by its parts. *)
Lemma construct_search (this : nat) ni iw pw ob :
  existing_array (mkProcess (ni + 1) (upd iw ni MAGIC_NUMBER) (upd pw ni (Some this)) ob) ni
  = existing_array (mkProcess ni iw pw ob) ni.
Proof.
  apply existing_array_ext. intros i Hi. cbn [cout_iword].
  apply upd_ne. lia.
Qed.

(** A constructor that finds no live entry below its own reserves ten
    further indices. *)
Lemma construct_fresh (this : nat) (p : Process) :
  (forall i, 0 <= i < next_index p -> cout_iword p i <> MAGIC_NUMBER) ->
  construct this p =
  let n := next_index p in
  mkProcess (n + 11) (upd (cout_iword p) n MAGIC_NUMBER) (upd (cout_pword p) n (Some this))
    (upd (objects p) this
       (mkStreamState n (n + 1) (n + 2) (n + 3) (n + 4) (n + 5) (n + 6) (n + 7)
          (n + 10) (n + 8) (n + 9))).
Proof.
  destruct p as [ni iw pw ob]. cbn [next_index cout_iword cout_pword objects].
  intros Hnone. unfold construct. rewrite xalloc_mk. cbv beta iota.
  cbn [next_index cout_iword cout_pword objects].
  rewrite construct_search, (existing_array_none (mkProcess ni iw pw ob) ni Hnone).
  change (-1 >=? 0) with false. cbv beta iota.
  repeat (rewrite xalloc_mk; cbv beta iota).
  cbn [next_index cout_iword cout_pword objects].
  replace (ni + 1 + 1 + 1 + 1 + 1 + 1 + 1 + 1 + 1 + 1 + 1) with (ni + 11) by lia.
  replace (ni + 1 + 1 + 1 + 1 + 1 + 1 + 1 + 1 + 1 + 1) with (ni + 10) by lia.
  replace (ni + 1 + 1 + 1 + 1 + 1 + 1 + 1 + 1 + 1) with (ni + 9) by lia.
  replace (ni + 1 + 1 + 1 + 1 + 1 + 1 + 1 + 1) with (ni + 8) by lia.
  replace (ni + 1 + 1 + 1 + 1 + 1 + 1 + 1) with (ni + 7) by lia.
  replace (ni + 1 + 1 + 1 + 1 + 1 + 1) with (ni + 6) by lia.
  replace (ni + 1 + 1 + 1 + 1 + 1) with (ni + 5) by lia.
  replace (ni + 1 + 1 + 1 + 1) with (ni + 4) by lia.
  replace (ni + 1 + 1 + 1) with (ni + 3) by lia.
  replace (ni + 1 + 1) with (ni + 2) by lia.
  reflexivity.
Qed.

(** A constructor that finds a live entry below its own copies the indices
    of the object registered there. *)
Lemma construct_adopt (this other : nat) (p : Process) (i0 : Z) :
  0 <= i0 < next_index p -> cout_iword p i0 = MAGIC_NUMBER ->
  (forall i, 0 <= i < i0 -> cout_iword p i <> MAGIC_NUMBER) ->
  cout_pword p i0 = Some other ->
  construct this p =
  let n := next_index p in
  let o := objects p other in
  if negb (mappedFile o =? 0) then
    mkProcess (n + 1) (upd (cout_iword p) n MAGIC_NUMBER) (upd (cout_pword p) n (Some this))
      (upd (objects p) this
         (mkStreamState n (fileVersion o) (libraryMajorVersion o) (libraryMinorVersion o)
            (dataCompression o) (writeGridStatsMetadata o) (gridBackground o)
            (gridClass o) (halfFloat o) (mappedFile o) (metadata o)))
  else
    mkProcess (n + 4) (upd (cout_iword p) n MAGIC_NUMBER) (upd (cout_pword p) n (Some this))
      (upd (objects p) this
         (mkStreamState n (fileVersion o) (libraryMajorVersion o) (libraryMinorVersion o)
            (dataCompression o) (writeGridStatsMetadata o) (gridBackground o)
            (gridClass o) (n + 3) (n + 1) (n + 2))).
Proof.
  destruct p as [ni iw pw ob]. cbn [next_index cout_iword cout_pword objects].
  intros Hi0 Hmagic Hfirst Hother.
  unfold construct. rewrite xalloc_mk. cbv beta iota.
  cbn [next_index cout_iword cout_pword objects].
  rewrite construct_search.
  rewrite (existing_array_found (mkProcess ni iw pw ob) ni i0 Hi0 Hmagic Hfirst).
  replace (i0 >=? 0) with true by (symmetry; apply Z.geb_le; lia).
  rewrite upd_ne by lia. rewrite Hother. cbv zeta.
  destruct (negb (mappedFile (ob other) =? 0)).
  - reflexivity.
  - repeat (rewrite xalloc_mk; cbv beta iota).
    cbn [next_index cout_iword cout_pword objects].
    replace (ni + 1 + 1 + 1 + 1) with (ni + 4) by lia.
    replace (ni + 1 + 1 + 1) with (ni + 3) by lia.
    replace (ni + 1 + 1) with (ni + 2) by lia.
    reflexivity.
Qed.

(** X7.  The first [StreamState] of a process (no entry of [std::cout]'s
    array below the next free index holds the magic number) gets eleven
    consecutive indices, the ten slots an archive uses being pairwise distinct
    and distinct from the magic-number entry; it registers itself at its
    magic-number entry and changes no other entry and no other object. *)
Theorem StreamState_first_construction (this : nat) (p : Process)
    (Hnone : forall i, 0 <= i < next_index p -> cout_iword p i <> MAGIC_NUMBER) :
  let p' := construct this p in
  let s := objects p' this in
  let n := next_index p in
  magicNumber s = n
  /\ slots s = [n + 1; n + 2; n + 3; n + 4; n + 5; n + 6; n + 7; n + 10; n + 8; n + 9]
  /\ NoDup (magicNumber s :: slots s)
  /\ (forall i, In i (magicNumber s :: slots s) -> n <= i < next_index p')
  /\ cout_iword p' n = MAGIC_NUMBER /\ cout_pword p' n = Some this
  /\ (forall i, i <> n -> cout_iword p' i = cout_iword p i
                          /\ cout_pword p' i = cout_pword p i)
  /\ (forall a, a <> this -> objects p' a = objects p a).
Proof.
  intros p' s n. subst p' s. rewrite (construct_fresh this p Hnone).
  cbv zeta. fold n. cbn [objects next_index cout_iword cout_pword].
  rewrite !upd_eq. unfold slots. cbn [magicNumber fileVersion libraryMajorVersion
    libraryMinorVersion dataCompression writeGridStatsMetadata gridBackground
    gridClass halfFloat mappedFile metadata].
  split; [reflexivity|]. split; [reflexivity|]. split.
  { repeat (apply NoDup_cons_2;
            [rewrite ?elem_of_cons, elem_of_nil; lia|]). apply NoDup_nil_2. }
  split.
  { intros i Hi. cbn [In] in Hi. lia. }
  split; [reflexivity|]. split; [reflexivity|]. split.
  - intros i Hi. rewrite !upd_ne by exact Hi. split; reflexivity.
  - intros a Ha. rewrite upd_ne by exact Ha. reflexivity.
Qed.

(** X8.  A second [StreamState] constructed while the first is alive (a
    second copy of the library in the process) takes a magic-number entry of
    its own and the ten slot indices of the first, reserving nothing else; so
    both copies read and write the same slots of every stream.  Once the
    first is destroyed, a new one no longer finds it and reserves fresh
    slots. *)
Theorem StreamState_shared_between_copies (first second : nat) (p : Process)
    (Hn : 0 <= next_index p)
    (Hnone : forall i, 0 <= i -> cout_iword p i <> MAGIC_NUMBER) :
  let p1 := construct first p in
  let p2 := construct second p1 in
  let n := next_index p in
  slots (objects p2 second) = slots (objects p1 first)
  /\ magicNumber (objects p2 second) = n + 11
  /\ next_index p2 = n + 12
  /\ (MAGIC_NUMBER <> 0 ->
      let p3 := construct second (destruct_ first p1) in
      slots (objects p3 second)
      = map (fun i => i + 11) (slots (objects p1 first))
      /\ cout_pword p3 n = None).
Proof.
  intros p1 p2 n.
  pose proof (construct_adopt second first p1 n) as E2. fold p2 in E2.
  pose proof (construct_fresh first p) as E1. fold p1 in E1.
  cbv zeta in E1. fold n in E1.
  specialize (E1 ltac:(intros i Hi; apply Hnone; lia)).
  clearbody p2. clearbody p1. subst p1.
  cbn [next_index cout_iword cout_pword objects] in E2.
  rewrite !upd_eq in E2. cbn [mappedFile] in E2.
  replace (negb (n + 8 =? 0)) with true in E2
    by (symmetry; apply negb_true_iff, Z.eqb_neq; lia).
  cbv zeta in E2.
  assert (Hbelow : forall i, 0 <= i < n ->
            upd (cout_iword p) n MAGIC_NUMBER i <> MAGIC_NUMBER)
    by (intros i Hi; rewrite upd_ne by lia; apply Hnone; lia).
  specialize (E2 ltac:(lia) eq_refl Hbelow eq_refl). subst p2.
  cbn [objects next_index]. rewrite !upd_eq.
  split; [reflexivity|]. split; [reflexivity|]. split; [lia|].
  intros Hmagic.
  unfold destruct_. cbn [objects next_index cout_iword cout_pword]. rewrite !upd_eq.
  cbn [magicNumber].
  rewrite construct_fresh.
  2:{ cbn [next_index cout_iword]. intros i Hi.
      destruct (decide (i = n)) as [->|Hne].
      - rewrite upd_eq. congruence.
      - rewrite !upd_ne by exact Hne. apply Hnone. lia. }
  cbv zeta. cbn [objects next_index cout_iword cout_pword]. rewrite !upd_eq.
  unfold slots. cbn [fileVersion libraryMajorVersion
    libraryMinorVersion dataCompression writeGridStatsMetadata gridBackground
    gridClass halfFloat mappedFile metadata map].
  split; [repeat (f_equal; try lia)|].
  rewrite upd_ne by lia. rewrite upd_eq. reflexivity.
Qed.

End StreamStateCtor.

(** The first construction in the sample process, with the reference
    magic number: indices 4 to 14. *)
Lemma StreamState_first_construction_witness :
  (forall i, 0 <= i < StreamStateInit.next_index SampleProcess.process0 ->
     StreamStateInit.cout_iword SampleProcess.process0 i
     <> @StreamStateInit.MAGIC_NUMBER Reference.constants)
  /\ StreamStateInit.slots
       (StreamStateInit.objects
          (@StreamStateInit.construct Reference.constants 50 SampleProcess.process0) 50)
     = [5; 6; 7; 8; 9; 10; 11; 14; 12; 13].
Proof.
  assert (Hnone : forall i, 0 <= i < StreamStateInit.next_index SampleProcess.process0 ->
            StreamStateInit.cout_iword SampleProcess.process0 i
            <> @StreamStateInit.MAGIC_NUMBER Reference.constants)
    by (intros i _; vm_compute; discriminate).
  split; [exact Hnone|].
  exact (proj1 (proj2 (@StreamState_first_construction Reference.constants 50
                         SampleProcess.process0 Hnone))).
Defined.

(** Two copies in the sample process: the second shares the slots of the
    first. *)
Lemma StreamState_shared_between_copies_witness :
  0 <= StreamStateInit.next_index SampleProcess.process0
  /\ (forall i, 0 <= i ->
        StreamStateInit.cout_iword SampleProcess.process0 i
        <> @StreamStateInit.MAGIC_NUMBER Reference.constants)
  /\ let p1 := @StreamStateInit.construct Reference.constants 50 SampleProcess.process0 in
     let p2 := @StreamStateInit.construct Reference.constants 51 p1 in
     StreamStateInit.slots (StreamStateInit.objects p2 51)
     = StreamStateInit.slots (StreamStateInit.objects p1 50).
Proof.
  assert (Hn : 0 <= StreamStateInit.next_index SampleProcess.process0)
    by (vm_compute; discriminate).
  assert (Hnone : forall i, 0 <= i ->
            StreamStateInit.cout_iword SampleProcess.process0 i
            <> @StreamStateInit.MAGIC_NUMBER Reference.constants)
    by (intros i _; vm_compute; discriminate).
  split; [exact Hn|]. split; [exact Hnone|].
  exact (proj1 (@StreamState_shared_between_copies Reference.constants 50 51
                  SampleProcess.process0 Hn Hnone)).
Defined.

(** ** The stream accessors and [StreamMetadata::transferTo] *)

Section StreamAccessors.

Import StreamState io.
Context `{Constants} `{Collaborators}.

Lemma metas_on_meta_other f w j :
  getStreamMetadataPtr w <> Some j -> metas (on_meta f w) j = metas w j.
Proof.
  unfold on_meta. intros Hj. destruct (getStreamMetadataPtr w) as [k|]; [|reflexivity].
  cbn. apply upd_ne. congruence.
Qed.

Lemma getStreamMetadataPtr_set_pslot i v w :
  i <> metadata -> getStreamMetadataPtr (set_pslot i v w) = getStreamMetadataPtr w.
Proof.
  intros Hi. unfold getStreamMetadataPtr, set_pslot. cbn.
  rewrite upd_ne by congruence. reflexivity.
Qed.

(** The binding of the stream is the same after every setter. *)
Lemma getStreamMetadataPtr_setVersion lv fv w :
  getStreamMetadataPtr (setVersion lv fv w) = getStreamMetadataPtr w.
Proof. unfold setVersion. rewrite getStreamMetadataPtr_on_meta. reflexivity. Qed.
Lemma getStreamMetadataPtr_setDataCompression c w :
  getStreamMetadataPtr (setDataCompression c w) = getStreamMetadataPtr w.
Proof. unfold setDataCompression. rewrite getStreamMetadataPtr_on_meta. reflexivity. Qed.
Lemma getStreamMetadataPtr_setGridBackgroundValuePtr p w :
  getStreamMetadataPtr (setGridBackgroundValuePtr p w) = getStreamMetadataPtr w.
Proof.
  unfold setGridBackgroundValuePtr. rewrite getStreamMetadataPtr_on_meta.
  apply getStreamMetadataPtr_set_pslot. discriminate.
Qed.
Lemma getStreamMetadataPtr_setGridClass c w :
  getStreamMetadataPtr (setGridClass c w) = getStreamMetadataPtr w.
Proof. unfold setGridClass. rewrite getStreamMetadataPtr_on_meta. reflexivity. Qed.
Lemma getStreamMetadataPtr_setHalfFloat b w :
  getStreamMetadataPtr (setHalfFloat b w) = getStreamMetadataPtr w.
Proof. unfold setHalfFloat. rewrite getStreamMetadataPtr_on_meta. reflexivity. Qed.
Lemma getStreamMetadataPtr_setWriteGridStatsMetadata b w :
  getStreamMetadataPtr (setWriteGridStatsMetadata b w) = getStreamMetadataPtr w.
Proof. unfold setWriteGridStatsMetadata. rewrite getStreamMetadataPtr_on_meta. reflexivity. Qed.

Lemma getStreamMetadataPtr_transferTo m w :
  getStreamMetadataPtr (transferTo m w) = getStreamMetadataPtr w.
Proof.
  unfold transferTo.
  rewrite getStreamMetadataPtr_setWriteGridStatsMetadata, getStreamMetadataPtr_setHalfFloat,
    getStreamMetadataPtr_setGridClass, getStreamMetadataPtr_setGridBackgroundValuePtr,
    getStreamMetadataPtr_setDataCompression, getStreamMetadataPtr_setVersion.
  reflexivity.
Qed.

Lemma strm_transferTo m w :
  strm (transferTo m w) =
  set_iword writeGridStatsMetadata (long (Z.b2z (StreamMetadata.mWriteGridStats m)))
    (set_iword halfFloat (long (Z.b2z (StreamMetadata.mHalfFloat m)))
       (set_iword gridClass (long (StreamMetadata.mGridClass m))
          (set_pword gridBackground (StreamMetadata.mBackgroundPtr m)
             (set_iword dataCompression (long (StreamMetadata.mCompression m))
                (set_iword libraryMinorVersion (long (snd (StreamMetadata.mLibraryVersion m)))
                   (set_iword libraryMajorVersion
                      (long (fst (StreamMetadata.mLibraryVersion m)))
                      (set_iword fileVersion (long (StreamMetadata.mFileVersion m))
                         (strm w)))))))).
Proof.
  unfold transferTo, setWriteGridStatsMetadata, setHalfFloat, setGridClass,
    setGridBackgroundValuePtr, setDataCompression, setVersion.
  rewrite !strm_on_meta. cbn [set_slot set_pslot set_strm strm].
  rewrite !strm_on_meta. cbn [set_slot set_pslot set_strm strm].
  rewrite !strm_on_meta. cbn [set_slot set_pslot set_strm strm].
  rewrite !strm_on_meta. cbn [set_slot set_pslot set_strm strm].
  rewrite !strm_on_meta. cbn [set_slot set_pslot set_strm strm].
  rewrite !strm_on_meta. reflexivity.
Qed.

Lemma metas_set_slot i v w : metas (set_slot i v w) = metas w.
Proof. reflexivity. Qed.
Lemma metas_set_pslot i v w : metas (set_pslot i v w) = metas w.
Proof. reflexivity. Qed.

Lemma metas_transferTo_bound m w k :
  getStreamMetadataPtr w = Some k ->
  metas (transferTo m w) k = received m (metas w k).
Proof.
  intros Hk. unfold transferTo, received.
  unfold setWriteGridStatsMetadata at 1.
  rewrite metas_on_meta, metas_set_slot
    by (rewrite getStreamMetadataPtr_set_slot, getStreamMetadataPtr_setHalfFloat,
          getStreamMetadataPtr_setGridClass, getStreamMetadataPtr_setGridBackgroundValuePtr,
          getStreamMetadataPtr_setDataCompression, getStreamMetadataPtr_setVersion;
        exact Hk).
  unfold setHalfFloat at 1.
  rewrite metas_on_meta, metas_set_slot
    by (rewrite getStreamMetadataPtr_set_slot,
          getStreamMetadataPtr_setGridClass, getStreamMetadataPtr_setGridBackgroundValuePtr,
          getStreamMetadataPtr_setDataCompression, getStreamMetadataPtr_setVersion;
        exact Hk).
  unfold setGridClass at 1.
  rewrite metas_on_meta, metas_set_slot
    by (rewrite getStreamMetadataPtr_set_slot, getStreamMetadataPtr_setGridBackgroundValuePtr,
          getStreamMetadataPtr_setDataCompression, getStreamMetadataPtr_setVersion;
        exact Hk).
  unfold setGridBackgroundValuePtr at 1.
  rewrite metas_on_meta, metas_set_pslot
    by (rewrite getStreamMetadataPtr_set_pslot by discriminate;
        rewrite getStreamMetadataPtr_setDataCompression, getStreamMetadataPtr_setVersion;
        exact Hk).
  unfold setDataCompression at 1.
  rewrite metas_on_meta, metas_set_slot
    by (rewrite getStreamMetadataPtr_set_slot, getStreamMetadataPtr_setVersion; exact Hk).
  unfold setVersion.
  rewrite metas_on_meta by exact Hk. reflexivity.
Qed.

Lemma metas_transferTo_other m w j :
  getStreamMetadataPtr w <> Some j -> metas (transferTo m w) j = metas w j.
Proof.
  intros Hj. unfold transferTo.
  unfold setWriteGridStatsMetadata at 1.
  rewrite metas_on_meta_other, metas_set_slot
    by (rewrite getStreamMetadataPtr_set_slot, getStreamMetadataPtr_setHalfFloat,
          getStreamMetadataPtr_setGridClass, getStreamMetadataPtr_setGridBackgroundValuePtr,
          getStreamMetadataPtr_setDataCompression, getStreamMetadataPtr_setVersion;
        exact Hj).
  unfold setHalfFloat at 1.
  rewrite metas_on_meta_other, metas_set_slot
    by (rewrite getStreamMetadataPtr_set_slot,
          getStreamMetadataPtr_setGridClass, getStreamMetadataPtr_setGridBackgroundValuePtr,
          getStreamMetadataPtr_setDataCompression, getStreamMetadataPtr_setVersion;
        exact Hj).
  unfold setGridClass at 1.
  rewrite metas_on_meta_other, metas_set_slot
    by (rewrite getStreamMetadataPtr_set_slot, getStreamMetadataPtr_setGridBackgroundValuePtr,
          getStreamMetadataPtr_setDataCompression, getStreamMetadataPtr_setVersion;
        exact Hj).
  unfold setGridBackgroundValuePtr at 1.
  rewrite metas_on_meta_other, metas_set_pslot
    by (rewrite getStreamMetadataPtr_set_pslot by discriminate;
        rewrite getStreamMetadataPtr_setDataCompression, getStreamMetadataPtr_setVersion;
        exact Hj).
  unfold setDataCompression at 1.
  rewrite metas_on_meta_other, metas_set_slot
    by (rewrite getStreamMetadataPtr_set_slot, getStreamMetadataPtr_setVersion; exact Hj).
  unfold setVersion.
  rewrite metas_on_meta_other by exact Hj. reflexivity.
Qed.

Lemma bool_slot (b : bool) : negb (long (Z.b2z b) =? 0) = b.
Proof. destruct b; reflexivity. Qed.

(** X9.  [transferTo] followed by [StreamMetadata(std::ios_base&)] is a
    round trip on the file version, the library version, the compression
    flags, the grid class and the two flags, for 32-bit members and a valid
    grid class; the background pointer reaches the stream but is not picked
    up again.  A [StreamMetadata] bound to the stream receives the same seven
    members and keeps its others; no other [StreamMetadata] changes, nor do
    the binding and the stream's buffers. *)
Theorem transferTo_roundtrip (m : StreamMetadata.Impl) (w : World)
    (Hfile : 0 <= StreamMetadata.mFileVersion m < 2 ^ 32)
    (Hmajor : 0 <= fst (StreamMetadata.mLibraryVersion m) < 2 ^ 32)
    (Hminor : 0 <= snd (StreamMetadata.mLibraryVersion m) < 2 ^ 32)
    (Hcomp : 0 <= StreamMetadata.mCompression m < 2 ^ 32)
    (Hclass : 0 <= StreamMetadata.mGridClass m < NUM_GRID_CLASSES) :
  let w' := transferTo m w in
  let m' := StreamMetadata_of_stream (strm w') in
  (StreamMetadata.mFileVersion m' = StreamMetadata.mFileVersion m
   /\ StreamMetadata.mLibraryVersion m' = StreamMetadata.mLibraryVersion m
   /\ StreamMetadata.mCompression m' = StreamMetadata.mCompression m
   /\ StreamMetadata.mGridClass m' = StreamMetadata.mGridClass m
   /\ StreamMetadata.mHalfFloat m' = StreamMetadata.mHalfFloat m
   /\ StreamMetadata.mWriteGridStats m' = StreamMetadata.mWriteGridStats m)
  /\ getGridBackgroundValuePtr (strm w') = StreamMetadata.mBackgroundPtr m
  /\ StreamMetadata.mBackgroundPtr m' = None
  /\ (forall k, getStreamMetadataPtr w = Some k ->
        metas w' k = received m (metas w k))
  /\ (forall j, getStreamMetadataPtr w <> Some j -> metas w' j = metas w j)
  /\ getStreamMetadataPtr w' = getStreamMetadataPtr w
  /\ (good (strm w'), gbuf (strm w'), pbuf (strm w'), ppos (strm w'))
     = (good (strm w), gbuf (strm w), pbuf (strm w), ppos (strm w)).
Proof.
  intros w' m'. subst m' w'.
  split; [|split; [|split; [reflexivity|split; [|split; [|split]]]]].
  - rewrite strm_transferTo.
    unfold StreamMetadata_of_stream, getFormatVersion, getLibraryVersion,
      getDataCompression, getGridClass, getHalfFloat, getWriteGridStatsMetadata.
    cbn [StreamMetadata.new_Impl StreamMetadata.setFileVersion
      StreamMetadata.setLibraryVersion StreamMetadata.setCompression
      StreamMetadata.setGridClass StreamMetadata.setHalfFloat
      StreamMetadata.setWriteGridStats StreamMetadata.mFileVersion
      StreamMetadata.mLibraryVersion StreamMetadata.mCompression
      StreamMetadata.mGridClass StreamMetadata.mHalfFloat StreamMetadata.mWriteGridStats
      set_iword set_pword iword].
    repeat (first [rewrite upd_eq | rewrite upd_ne by discriminate]).
    rewrite !uint32_long, !bool_slot.
    destruct (StreamMetadata.mLibraryVersion m) as [major minor].
    cbn [fst snd] in *.
    assert (Hclass' : 0 <= StreamMetadata.mGridClass m < 4) by exact Hclass.
    rewrite !uint32_small by lia.
    replace (StreamMetadata.mGridClass m >=? NUM_GRID_CLASSES) with false
      by (symmetry; rewrite Z.geb_leb; apply Z.leb_gt; change NUM_GRID_CLASSES with 4; lia).
    repeat split.
  - rewrite strm_transferTo. unfold getGridBackgroundValuePtr.
    cbn [set_iword set_pword pword]. apply upd_eq.
  - intros k Hk. apply metas_transferTo_bound. exact Hk.
  - intros j Hj. apply metas_transferTo_other. exact Hj.
  - apply getStreamMetadataPtr_transferTo.
  - rewrite strm_transferTo. reflexivity.
Qed.

Lemma ptrs_setVersion lv fv w : ptrs (setVersion lv fv w) = ptrs w.
Proof. unfold setVersion. rewrite ptrs_on_meta. reflexivity. Qed.
Lemma ptrs_setDataCompression c w : ptrs (setDataCompression c w) = ptrs w.
Proof. unfold setDataCompression. rewrite ptrs_on_meta. reflexivity. Qed.
Lemma ptrs_setGridBackgroundValuePtr p w :
  ptrs (setGridBackgroundValuePtr p w) = ptrs w.
Proof. unfold setGridBackgroundValuePtr. rewrite ptrs_on_meta. reflexivity. Qed.
Lemma ptrs_setGridClass c w : ptrs (setGridClass c w) = ptrs w.
Proof. unfold setGridClass. rewrite ptrs_on_meta. reflexivity. Qed.
Lemma ptrs_setHalfFloat b w : ptrs (setHalfFloat b w) = ptrs w.
Proof. unfold setHalfFloat. rewrite ptrs_on_meta. reflexivity. Qed.
Lemma ptrs_setWriteGridStatsMetadata b w :
  ptrs (setWriteGridStatsMetadata b w) = ptrs w.
Proof. unfold setWriteGridStatsMetadata. rewrite ptrs_on_meta. reflexivity. Qed.

Lemma ptrs_transferTo m w : ptrs (transferTo m w) = ptrs w.
Proof.
  unfold transferTo.
  rewrite ptrs_setWriteGridStatsMetadata, ptrs_setHalfFloat, ptrs_setGridClass,
    ptrs_setGridBackgroundValuePtr, ptrs_setDataCompression, ptrs_setVersion.
  reflexivity.
Qed.

(** X10.  The metadata slot of a stream holds the address of the caller's
    shared pointer, not of the object: after [setStreamMetadataPtr] the
    stream yields whatever that pointer holds, also after the pointer has
    been reassigned, and a null pointer leaves the stream without metadata.
    [clearStreamMetadataPtr] answers with the metadata that was bound and
    unbinds it, so that a later setter changes the stream's word and no
    [StreamMetadata]. *)
Theorem stream_metadata_binding (a : nat) (w : World) :
  (forall transfer,
     getStreamMetadataPtr (setStreamMetadataPtr a transfer w) = ptrs w a)
  /\ (forall transfer p,
        getStreamMetadataPtr (set_ptr a p (setStreamMetadataPtr a transfer w)) = p)
  /\ (ptrs w a = None ->
      forall transfer, setStreamMetadataPtr a transfer w = set_pslot metadata (Some a) w)
  /\ fst (clearStreamMetadataPtr w) = getStreamMetadataPtr w
  /\ getStreamMetadataPtr (snd (clearStreamMetadataPtr w)) = None
  /\ (forall c j,
        metas (setDataCompression c (snd (clearStreamMetadataPtr w))) j = metas w j
        /\ getDataCompression (strm (setDataCompression c (snd (clearStreamMetadataPtr w))))
           = uint32 c).
Proof.
  assert (Hset : forall transfer,
            pword (strm (setStreamMetadataPtr a transfer w)) metadata = Some a
            /\ ptrs (setStreamMetadataPtr a transfer w) = ptrs w).
  { intros transfer. unfold setStreamMetadataPtr.
    cbn [set_pslot set_strm ptrs strm set_pword pword].
    destruct (ptrs w a) as [i|]; [destruct transfer|].
    - rewrite strm_transferTo, ptrs_transferTo. cbn [set_iword set_pword pword ptrs].
      rewrite upd_ne by discriminate.
      cbn [set_pslot set_strm set_pword strm pword ptrs]. rewrite upd_eq.
      split; reflexivity.
    - cbn [set_pslot set_strm set_pword strm pword ptrs]. rewrite upd_eq.
      split; reflexivity.
    - cbn [set_pslot set_strm set_pword strm pword ptrs]. rewrite upd_eq.
      split; reflexivity. }
  split; [|split; [|split; [|split; [|split]]]].
  - intros transfer. destruct (Hset transfer) as [Hp Hq].
    unfold getStreamMetadataPtr. rewrite Hp, Hq. reflexivity.
  - intros transfer p. destruct (Hset transfer) as [Hp Hq].
    unfold getStreamMetadataPtr, set_ptr. cbn [strm ptrs]. rewrite Hp. apply upd_eq.
  - intros Hnull transfer. unfold setStreamMetadataPtr.
    cbn [set_pslot set_strm ptrs]. rewrite Hnull. reflexivity.
  - reflexivity.
  - unfold clearStreamMetadataPtr, getStreamMetadataPtr. cbn [snd set_pslot set_strm strm
      set_pword pword]. rewrite upd_eq. reflexivity.
  - intros c j.
    assert (Hnone : getStreamMetadataPtr (snd (clearStreamMetadataPtr w)) = None).
    { unfold clearStreamMetadataPtr, getStreamMetadataPtr. cbn [snd set_pslot set_strm strm
        set_pword pword]. rewrite upd_eq. reflexivity. }
    split.
    + unfold setDataCompression.
      rewrite metas_on_meta_other
        by (rewrite getStreamMetadataPtr_set_slot, Hnone; discriminate).
      reflexivity.
    + rewrite strm_setDataCompression. unfold getDataCompression.
      cbn [set_iword iword]. rewrite upd_eq. apply uint32_long.
Qed.

End StreamAccessors.

(** The file-level metadata of the samples transferred to the sample
    stream and read back. *)
Lemma transferTo_roundtrip_witness :
  let m := StreamMetadata.setCompression 6 Sample.meta0 in
  let w' := @io.transferTo m Sample.world0 in
  StreamMetadata.mCompression
    (@io.StreamMetadata_of_stream Reference.constants SampleRun.collaborators (strm w')) = 6
  /\ StreamMetadata.mCompression (metas w' 2) = 6.
Proof.
  intros m w'.
  pose proof (@transferTo_roundtrip Reference.constants SampleRun.collaborators m
                Sample.world0
                ltac:(vm_compute; split; [discriminate | reflexivity])
                ltac:(vm_compute; split; [discriminate | reflexivity])
                ltac:(vm_compute; split; [discriminate | reflexivity])
                ltac:(vm_compute; split; [discriminate | reflexivity])
                ltac:(vm_compute; split; [discriminate | reflexivity])) as W.
  cbv zeta in W. fold w' in W.
  destruct W as ((_ & _ & Hc & _) & _ & _ & Hbound & _).
  split; [exact Hc|]. rewrite (Hbound 2%nat eq_refl). reflexivity.
Defined.

(** The sample stream bound to the pointer at address 1, which is then
    reset. *)
Lemma stream_metadata_binding_witness :
  @io.getStreamMetadataPtr
    (set_ptr 1 None (@io.setStreamMetadataPtr 1 false Sample.world0)) = None.
Proof.
  exact (proj1 (proj2 (stream_metadata_binding 1 Sample.world0)) false None).
Defined.

(** ** The header written and read back *)

Section HeaderRoundTrip.

Import io.
Context `{Constants}.

(** Two writes in a row are one write of both. *)
Lemma ostream_write_app (b1 b2 : list ascii) (s : ios_base) :
  good s = true -> (ppos s <= length (pbuf s))%nat ->
  ostream_write b2 (ostream_write b1 s) = ostream_write (b1 ++ b2) s.
Proof.
  intros Hg Hp. unfold ostream_write. rewrite Hg. cbn [good pbuf ppos iword pword gbuf].
  f_equal.
  - set (t := take (ppos s) (pbuf s)).
    assert (Ht : length t = ppos s) by (unfold t; rewrite length_take; lia).
    rewrite !(app_assoc t b1).
    rewrite take_app_length' by (rewrite length_app; lia).
    rewrite drop_app_add' by (rewrite length_app; lia).
    rewrite drop_drop, length_app, <- !app_assoc.
    rewrite Nat.add_assoc. reflexivity.
  - rewrite length_app. lia.
Qed.

Lemma ostream_write_keeps (bs : list ascii) (s : ios_base) :
  good s = true -> (ppos s <= length (pbuf s))%nat ->
  good (ostream_write bs s) = true
  /\ (ppos (ostream_write bs s) <= length (pbuf (ostream_write bs s)))%nat
  /\ ppos (ostream_write bs s) = (ppos s + length bs)%nat.
Proof.
  intros Hg Hp. unfold ostream_write. rewrite Hg. cbn [good pbuf ppos].
  rewrite !length_app, length_take. repeat split; lia.
Qed.

Lemma ostream_write_nil (s : ios_base) :
  good s = true -> ostream_write [] s = s.
Proof.
  intros Hg. unfold ostream_write. rewrite Hg. destruct s as [iw pw g gb pb pp].
  cbn in *. subst g. rewrite Nat.add_0_r, take_drop. reflexivity.
Qed.

(** Characters put one by one are the characters written at once. *)
Lemma put_each (bs : list ascii) (s : ios_base) :
  good s = true -> (ppos s <= length (pbuf s))%nat ->
  fold_left (fun ost c => ostream_write [c] ost) bs s = ostream_write bs s.
Proof.
  revert s. induction bs as [|b bs IH]; intros s Hg Hp; cbn [fold_left].
  - symmetry. apply ostream_write_nil. exact Hg.
  - destruct (ostream_write_keeps [b] s Hg Hp) as (Hg' & Hp' & _).
    rewrite IH by assumption. apply (ostream_write_app [b] bs s Hg Hp).
Qed.

(** What is found from the old put position on after a write. *)
Lemma drop_ostream_write (bs : list ascii) (s : ios_base) :
  good s = true -> (ppos s <= length (pbuf s))%nat ->
  drop (ppos s) (pbuf (ostream_write bs s))
  = bs ++ drop (ppos s + length bs) (pbuf s).
Proof.
  intros Hg Hp. unfold ostream_write. rewrite Hg. cbn [pbuf].
  apply drop_app_length'. rewrite length_take. lia.
Qed.

Lemma length_hex_digits v : length (hex_digits v) = 8%nat.
Proof. reflexivity. Qed.

Lemma length_fill_uuid seed n i l :
  length l = 37%nat -> (i + n <= 4)%nat -> length (fill_uuid seed i n l) = 37%nat.
Proof.
  revert i l. induction n as [|n IH]; intros i l Hl Hi; cbn [fill_uuid]; [exact Hl|].
  destruct (seed i) as [v|].
  - apply IH; [|lia].
    rewrite !length_app, length_take, length_drop, length_hex_digits. lia.
  - rewrite length_insert. exact Hl.
Qed.

Lemma length_swap_at i j l : length (swap_at i j l) = length l.
Proof.
  unfold swap_at. destruct (l !! i), (l !! j); try reflexivity.
  rewrite !length_insert. reflexivity.
Qed.

Lemma length_buffer f n : length (buffer f n) = n.
Proof. unfold buffer. rewrite length_map, length_seq. reflexivity. Qed.

(** The buffer [writeHeader] ends with: 36 characters and the NUL. *)
Lemma make_uuidStr_split u seed :
  make_uuidStr u seed = take 36 (make_uuidStr u seed) ++ ["000"%char]
  /\ length (take 36 (make_uuidStr u seed)) = 36%nat.
Proof.
  unfold make_uuidStr.
  set (l0 := fill_uuid seed 0 4 (buffer (uuidStr0 u) (16 * 2 + 4 + 1))).
  assert (H0 : length l0 = 37%nat)
    by (apply length_fill_uuid; [apply length_buffer | lia]).
  set (l1 := take 32 l0 ++ ["-"; "-"; "-"; "-"]%char ++ drop 36 l0).
  assert (H1 : length l1 = 37%nat)
    by (unfold l1; rewrite !length_app, length_take, length_drop; cbn [length]; lia).
  set (l2 := swap_at _ _ (swap_at _ _ (swap_at _ _ (swap_at _ _ l1)))).
  assert (H2 : length l2 = 37%nat) by (unfold l2; rewrite !length_swap_at; exact H1).
  clearbody l2. change (16 * 2 + 4)%nat with 36%nat.
  split.
  - rewrite take_insert_ge by lia.
    rewrite <- (take_drop 36 l2) at 1.
    rewrite insert_app_r_alt by (rewrite length_take; lia).
    rewrite length_take. replace (36 - 36 `min` length l2)%nat with 0%nat by lia.
    f_equal.
    destruct (drop 36 l2) as [|x [|y t]] eqn:E;
      apply (f_equal length) in E; rewrite length_drop in E; cbn in E; try lia.
    reflexivity.
  - rewrite length_take, length_insert. lia.
Qed.

Lemma cstring_app_nul (l : list ascii) (rest : list ascii) :
  cstring (l ++ "000"%char :: rest) = cstring (l ++ ["000"%char]).
Proof.
  induction l as [|c l IH]; cbn [app cstring].
  - reflexivity.
  - destruct (Ascii.eqb c "000"); [reflexivity | rewrite IH; reflexivity].
Qed.

(** [writeHeader] on a good stream is one write of the header layout. *)
Lemma writeHeader_bytes (a : Archive) (u : Indeterminate) (seed : nat -> option Z)
    (seekable : bool) (ost : ios_base) :
  good ost = true -> (ppos ost <= length (pbuf ost))%nat ->
  writeHeader a u seed seekable ost =
  (set_mUuid (cstring (make_uuidStr u seed)) a,
   ostream_write (header_bytes seekable (take 36 (make_uuidStr u seed))) ost).
Proof.
  intros Hg Hp. unfold writeHeader, write_int64, write_uint32, write_char, header_bytes.
  f_equal. change (16 * 2 + 4)%nat with 36%nat.
  set (uuid := take 36 (make_uuidStr u seed)).
  set (B1 := le_encode 8 OPENVDB_MAGIC).
  set (B2 := le_encode 4 OPENVDB_FILE_VERSION).
  set (B3 := le_encode 4 OPENVDB_LIBRARY_MAJOR_VERSION).
  set (B4 := le_encode 4 OPENVDB_LIBRARY_MINOR_VERSION).
  set (B5 := le_encode 1 (Z.b2z seekable)).
  destruct (ostream_write_keeps B1 ost Hg Hp) as (Hg1 & Hp1 & _).
  destruct (ostream_write_keeps B2 _ Hg1 Hp1) as (Hg2 & Hp2 & _).
  destruct (ostream_write_keeps B3 _ Hg2 Hp2) as (Hg3 & Hp3 & _).
  destruct (ostream_write_keeps B4 _ Hg3 Hp3) as (Hg4 & Hp4 & _).
  destruct (ostream_write_keeps B5 _ Hg4 Hp4) as (Hg5 & Hp5 & _).
  rewrite put_each by assumption.
  rewrite (ostream_write_app B5 uuid) by assumption.
  rewrite (ostream_write_app B4) by assumption.
  rewrite (ostream_write_app B3) by assumption.
  rewrite (ostream_write_app B2) by assumption.
  rewrite (ostream_write_app B1) by assumption.
  reflexivity.
Qed.

Lemma istream_read_feed (n : nat) (buf bs rest : list ascii) (s : ios_base) :
  length bs = n ->
  istream_read n buf (with_gbuf (bs ++ rest) s) = (bs, with_gbuf rest s).
Proof.
  intros Hn. unfold istream_read, with_gbuf. cbn [good gbuf iword pword pbuf ppos].
  replace (n <=? length (bs ++ rest))%nat with true
    by (symmetry; apply Nat.leb_le; rewrite length_app; lia).
  rewrite take_app_length', drop_app_length' by (symmetry; exact Hn). reflexivity.
Qed.

Lemma read_uint32_feed (x0 z : Z) (rest : list ascii) (s : ios_base) :
  0 <= z < 2 ^ 32 ->
  read_uint32 x0 (with_gbuf (le_encode 4 z ++ rest) s) = (z, with_gbuf rest s).
Proof.
  intros Hz. unfold read_uint32.
  rewrite istream_read_feed by apply length_le_encode.
  rewrite le_decode_encode_uint32 by exact Hz. reflexivity.
Qed.

Lemma read_int64_feed (x0 z : Z) (rest : list ascii) (s : ios_base) :
  - 2 ^ 63 <= z < 2 ^ 63 ->
  read_int64 x0 (with_gbuf (le_encode 8 z ++ rest) s) = (z, with_gbuf rest s).
Proof.
  intros Hz. unfold read_int64.
  rewrite istream_read_feed by apply length_le_encode.
  rewrite le_decode_encode. f_equal.
  change (256 ^ Z.of_nat 8) with (2 ^ 64).
  unfold int64, to_signed, wrap. rewrite Z.mod_mod by lia.
  change (2 ^ (64 - 1)) with (2 ^ 63).
  destruct (Z_lt_le_dec z 0) as [Hneg|Hpos].
  - replace (z mod 2 ^ 64) with (z + 2 ^ 64)
      by (apply (Z.mod_unique_pos _ _ (-1)); lia).
    replace (z + 2 ^ 64 <? 2 ^ 63) with false by (symmetry; apply Z.ltb_ge; lia).
    lia.
  - rewrite Z.mod_small by lia.
    replace (z <? 2 ^ 63) with true by (symmetry; apply Z.ltb_lt; lia).
    reflexivity.
Qed.

Lemma read_char_feed (x0 z : Z) (rest : list ascii) (s : ios_base) :
  0 <= z < 256 ->
  read_char x0 (with_gbuf (le_encode 1 z ++ rest) s) = (z, with_gbuf rest s).
Proof.
  intros Hz. unfold read_char.
  rewrite istream_read_feed by apply length_le_encode.
  rewrite le_decode_encode. f_equal. apply Z.mod_small.
  change (256 ^ Z.of_nat 1) with 256. lia.
Qed.

Section CurrentVersion.

(** The numbers of [version.h] as the library has them: a file version of
    at least 212 that is past the per-file compression flag and has the
    textual UUID, and numbers that fit their types. *)
Hypothesis Hmagic : - 2 ^ 63 <= OPENVDB_MAGIC < 2 ^ 63.
Hypothesis Hversion : 212 <= OPENVDB_FILE_VERSION < 2 ^ 32.
Hypothesis Hmajor : 0 <= OPENVDB_LIBRARY_MAJOR_VERSION < 2 ^ 32.
Hypothesis Hminor : 0 <= OPENVDB_LIBRARY_MINOR_VERSION < 2 ^ 32.
Hypothesis Hnodemask : OPENVDB_FILE_VERSION_NODE_MASK_COMPRESSION <= OPENVDB_FILE_VERSION.
Hypothesis Huuid : OPENVDB_FILE_VERSION_BOOST_UUID <= OPENVDB_FILE_VERSION.

(** Reading a header of the current layout. *)
Lemma readHeader_feed (b : Archive) (u : Indeterminate) (seekable : bool)
    (uuid rest : list ascii) (s : ios_base) :
  length uuid = 36%nat ->
  readHeader b u (with_gbuf (header_bytes seekable uuid ++ rest) s) =
  let uuidStr := cstring (uuid ++ ["000"%char]) in
  (Ok (String.eqb (mUuid b) "" || String.eqb uuidStr ""
       || negb (String.eqb (mUuid b) uuidStr)),
   mkArchive OPENVDB_FILE_VERSION
     (OPENVDB_LIBRARY_MAJOR_VERSION, OPENVDB_LIBRARY_MINOR_VERSION)
     uuidStr seekable (mEnableInstancing b)
     (if OPENVDB_FILE_VERSION <? OPENVDB_FILE_VERSION_BLOSC_COMPRESSION
      then Z.lor COMPRESS_ZIP COMPRESS_ACTIVE_MASK else DEFAULT_COMPRESSION_FLAGS)
     (mEnableGridStats b),
   with_gbuf rest s).
Proof.
  intros Hlen. destruct b as [v0 lib0 uuid0 off0 inst0 comp0 stats0].
  unfold header_bytes. rewrite <- !app_assoc.
  unfold readHeader, readHeader_magic.
  rewrite read_int64_feed by exact Hmagic.
  rewrite Z.eqb_refl. cbn [negb].
  unfold readHeader_fileVersion. cbn [mFileVersion].
  rewrite read_uint32_feed by lia.
  replace (OPENVDB_FILE_VERSION >? OPENVDB_FILE_VERSION) with false
    by (symmetry; rewrite Z.gtb_ltb; apply Z.ltb_irrefl).
  replace (OPENVDB_FILE_VERSION <? 211) with false by (symmetry; apply Z.ltb_ge; lia).
  unfold readHeader_libraryVersion.
  cbn [set_mFileVersion set_mLibraryVersion mFileVersion].
  replace (OPENVDB_FILE_VERSION >=? 211) with true by (symmetry; apply Z.geb_le; lia).
  rewrite read_uint32_feed by lia. rewrite read_uint32_feed by lia.
  unfold readHeader_gridOffsets.
  cbn [set_mLibraryVersion set_mInputHasGridOffsets mFileVersion].
  replace (OPENVDB_FILE_VERSION >=? 212) with true by (symmetry; apply Z.geb_le; lia).
  rewrite read_char_feed by (destruct seekable; cbn; lia).
  unfold readHeader_compression.
  cbn [set_mInputHasGridOffsets set_mCompression mFileVersion].
  assert (Hb : negb (Z.b2z seekable =? 0) = seekable) by (destruct seekable; reflexivity).
  rewrite Hb.
  destruct (OPENVDB_FILE_VERSION <? OPENVDB_FILE_VERSION_BLOSC_COMPRESSION);
    cbn [set_mCompression mFileVersion];
    (replace (OPENVDB_FILE_VERSION <? OPENVDB_FILE_VERSION_NODE_MASK_COMPRESSION)
       with false by (symmetry; apply Z.ltb_ge; lia));
    rewrite andb_false_r;
    unfold readHeader_uuid; cbn [set_mCompression mFileVersion mUuid set_mUuid];
    (replace (OPENVDB_FILE_VERSION >=? OPENVDB_FILE_VERSION_BOOST_UUID) with true
       by (symmetry; apply Z.geb_le; lia));
    rewrite istream_read_feed by exact Hlen;
    cbn [set_mUuid mUuid]; cbv zeta;
    destruct (String.eqb uuid0 "" || String.eqb (cstring (uuid ++ ["000"%char])) "");
    reflexivity.
Qed.

(** X11.  A header written by [writeHeader] is read back by [readHeader]:
    the reader ends with the current file and library versions, the writer's
    [seekable] flag as its grid-offsets flag and the UUID the writer gave
    itself, having consumed the 57 characters of the header and nothing
    more; it answers [false] exactly when its previous UUID was that same,
    non-empty, UUID. *)
Theorem writeHeader_readHeader_roundtrip (a b : Archive) (u u' : Indeterminate)
    (seed : nat -> option Z) (seekable : bool) (ost ist : ios_base)
    (Hgood : good ost = true) (Hpos : (ppos ost <= length (pbuf ost))%nat)
    (Hin : good ist = true)
    (Hfile : gbuf ist = drop (ppos ost) (pbuf (snd (writeHeader a u seed seekable ost)))) :
  let a' := fst (writeHeader a u seed seekable ost) in
  let ost' := snd (writeHeader a u seed seekable ost) in
  let '(r, b', ist') := readHeader b u' ist in
  r = Ok (String.eqb (mUuid b) "" || String.eqb (mUuid a') ""
          || negb (String.eqb (mUuid b) (mUuid a')))
  /\ mFileVersion b' = OPENVDB_FILE_VERSION
  /\ mLibraryVersion b' = (OPENVDB_LIBRARY_MAJOR_VERSION, OPENVDB_LIBRARY_MINOR_VERSION)
  /\ mInputHasGridOffsets b' = seekable
  /\ mUuid b' = mUuid a'
  /\ mCompression b' =
     (if OPENVDB_FILE_VERSION <? OPENVDB_FILE_VERSION_BLOSC_COMPRESSION
      then Z.lor COMPRESS_ZIP COMPRESS_ACTIVE_MASK else DEFAULT_COMPRESSION_FLAGS)
  /\ good ist' = true
  /\ gbuf ist' = drop 57 (gbuf ist)
  /\ ppos ost' = (ppos ost + 57)%nat.
Proof.
  intros a' ost'. subst a' ost'. revert Hfile.
  rewrite (writeHeader_bytes a u seed seekable ost Hgood Hpos). cbn [fst snd].
  destruct (make_uuidStr_split u seed) as [Hsplit Hlen].
  set (uuid := take 36 (make_uuidStr u seed)) in *.
  assert (Hbytes : length (header_bytes seekable uuid) = 57%nat).
  { unfold header_bytes. rewrite !length_app, !length_le_encode, Hlen. reflexivity. }
  rewrite drop_ostream_write by assumption. intros Hfile.
  assert (Hist : ist = with_gbuf (gbuf ist) ist).
  { destruct ist as [iw pw g gb pb pp]. cbn in Hin. subst g. reflexivity. }
  rewrite Hist, Hfile, (readHeader_feed b u' seekable uuid _ ist Hlen).
  cbv zeta. rewrite mUuid_set_mUuid.
  assert (Hstr : cstring (make_uuidStr u seed) = cstring (uuid ++ ["000"%char]))
    by (rewrite Hsplit at 1; reflexivity).
  rewrite Hstr. cbn [mFileVersion mLibraryVersion mInputHasGridOffsets mUuid mCompression].
  split; [reflexivity|]. split; [reflexivity|]. split; [reflexivity|].
  split; [reflexivity|]. split; [reflexivity|]. split; [reflexivity|].
  split; [reflexivity|]. split.
  - cbn [with_gbuf gbuf]. rewrite drop_app_length' by (symmetry; exact Hbytes).
    reflexivity.
  - destruct (ostream_write_keeps (header_bytes seekable uuid) ost Hgood Hpos)
      as (_ & _ & ->). rewrite Hbytes. reflexivity.
Qed.

End CurrentVersion.

(** *** The UUID [writeHeader] makes *)

Lemma to_hex_digit (c : Z) :
  is_hex (to_hex c) = true /\ Ascii.eqb (to_hex c) "000" = false.
Proof.
  unfold to_hex.
  assert (Hr : 0 <= Z.land c 15 < 16).
  { change 15 with (Z.ones 4). rewrite Z.land_ones by lia.
    apply Z.mod_pos_bound. lia. }
  set (k := Z.land c 15) in *. clearbody k.
  assert (Hk : k = 0 \/ k = 1 \/ k = 2 \/ k = 3 \/ k = 4 \/ k = 5 \/ k = 6 \/ k = 7
               \/ k = 8 \/ k = 9 \/ k = 10 \/ k = 11 \/ k = 12 \/ k = 13 \/ k = 14
               \/ k = 15) by lia.
  repeat (destruct Hk as [-> | Hk]; [split; vm_compute; reflexivity|]).
  subst k. split; vm_compute; reflexivity.
Qed.

(** A failed draw leaves the NUL at the head of the buffer. *)
Lemma fill_uuid_failed seed n i l :
  length l = 37%nat -> (i + n <= 4)%nat ->
  (exists j, (i <= j < i + n)%nat /\ seed j = None) ->
  exists t, fill_uuid seed i n l = "000"%char :: t.
Proof.
  revert i l. induction n as [|n IH]; intros i l Hl Hi (j & Hj & Hnone); [lia|].
  cbn [fill_uuid]. destruct (seed i) as [v|] eqn:E.
  - apply IH; [|lia|].
    + rewrite !length_app, length_take, length_drop, length_hex_digits. lia.
    + exists j. split; [|exact Hnone].
      destruct (decide (j = i)) as [->|Hne]; [congruence | lia].
  - destruct l as [|x t]; [discriminate|]. exists t. reflexivity.
Qed.

Lemma swap_at_head i j x t :
  exists t', swap_at (S i) (S j) (x :: t) = x :: t'.
Proof.
  unfold swap_at. destruct ((x :: t) !! S i), ((x :: t) !! S j); eexists; reflexivity.
Qed.

(** X12.  The UUID [writeHeader] gives the archive: with four successful
    draws from the random device it is 36 characters long, with hyphens at
    positions 8, 13, 18 and 23 and upper-case hexadecimal digits elsewhere;
    when a draw fails it is the empty string, which [isIdentical] never
    accepts.  Nothing else of the archive changes. *)
Theorem writeHeader_uuid (a : Archive) (u : Indeterminate) (seed : nat -> option Z)
    (seekable : bool) (ost : ios_base) :
  let a' := fst (writeHeader a u seed seekable ost) in
  ((forall i, (i < 4)%nat -> is_Some (seed i)) -> uuid_shape (mUuid a') = true)
  /\ ((exists i, (i < 4)%nat /\ seed i = None) ->
      mUuid a' = "" /\ forall uuidStr, isIdentical a' uuidStr = false)
  /\ a' = set_mUuid (mUuid a') a.
Proof.
  intros a'. subst a'. unfold writeHeader. cbn [fst]. rewrite mUuid_set_mUuid.
  split; [|split].
  - intros Hseed.
    destruct (Hseed 0%nat ltac:(lia)) as [v0 E0], (Hseed 1%nat ltac:(lia)) as [v1 E1],
      (Hseed 2%nat ltac:(lia)) as [v2 E2], (Hseed 3%nat ltac:(lia)) as [v3 E3].
    unfold make_uuidStr. cbn [fill_uuid]. rewrite E0, E1, E2, E3.
    pose proof (fun c => proj1 (to_hex_digit c)) as Hhex.
    pose proof (fun c => proj2 (to_hex_digit c)) as Hnul.
    cbv - [to_hex Z.shiftr uint32 is_hex cstring uuid_shape].
    cbn [cstring]. rewrite !Hnul.
    cbv - [to_hex Z.shiftr uint32 is_hex].
    rewrite !Hhex. reflexivity.
  - intros Hfail.
    assert (Hempty : cstring (make_uuidStr u seed) = "").
    { unfold make_uuidStr.
      destruct (fill_uuid_failed seed 4 0 (buffer (uuidStr0 u) (16 * 2 + 4 + 1)))
        as [t ->]; [apply length_buffer | lia | |].
      { destruct Hfail as (i & Hi & Hnone). exists i. split; [lia | exact Hnone]. }
      change (take 32 ("000"%char :: t)) with ("000"%char :: take 31 t).
      cbn [app].
      change (16 * 2 + 0)%nat with 32%nat. change (16 * 2 + 1)%nat with 33%nat.
      change (16 * 2 + 2)%nat with 34%nat. change (16 * 2 + 3)%nat with 35%nat.
      change (8 + 0)%nat with 8%nat. change (12 + 1)%nat with 13%nat.
      change (16 + 2)%nat with 18%nat. change (20 + 3)%nat with 23%nat.
      match goal with
      | |- context [swap_at 32 8 ("000"%char :: ?l)] =>
        destruct (swap_at_head 31 7 "000"%char l) as [t1 ->]
      end.
      destruct (swap_at_head 32 12 "000"%char t1) as [t2 ->].
      destruct (swap_at_head 33 17 "000"%char t2) as [t3 ->].
      destruct (swap_at_head 34 22 "000"%char t3) as [t4 ->].
      reflexivity. }
    rewrite Hempty. split; [reflexivity|].
    intros uuidStr. unfold isIdentical, getUniqueTag. rewrite mUuid_set_mUuid.
    destruct (String.eqb uuidStr ""); reflexivity.
  - destruct a. reflexivity.
Qed.

End HeaderRoundTrip.



(** The sample archive writes its header into an empty stream and reads it
    back with the reference constants. *)
Lemma writeHeader_readHeader_roundtrip_witness :
  let seed := fun i : nat => Some (Z.of_nat i + 77) in
  let written := @io.writeHeader Reference.constants Sample.archive0
                   SampleHeader.indeterminate0 seed true (SampleHeader.input []) in
  let back := @io.readHeader Reference.constants Sample.archive0
                SampleHeader.indeterminate0 (SampleHeader.input (pbuf (snd written))) in
  io.mInputHasGridOffsets (snd (fst back)) = true
  /\ io.mUuid (snd (fst back)) = io.mUuid (fst written).
Proof.
  intros seed written back.
  assert (Hfile : gbuf (SampleHeader.input (pbuf (snd written)))
                  = drop (ppos (SampleHeader.input [])) (pbuf (snd written)))
    by (vm_compute; reflexivity).
  pose proof (@writeHeader_readHeader_roundtrip Reference.constants
                ltac:(vm_compute; split; [discriminate | reflexivity])
                ltac:(vm_compute; split; [discriminate | reflexivity])
                ltac:(vm_compute; split; [discriminate | reflexivity])
                ltac:(vm_compute; split; [discriminate | reflexivity])
                ltac:(vm_compute; discriminate)
                ltac:(vm_compute; discriminate)
                Sample.archive0 Sample.archive0 SampleHeader.indeterminate0
                SampleHeader.indeterminate0 seed true (SampleHeader.input [])
                (SampleHeader.input (pbuf (snd written)))
                eq_refl (le_n 0) eq_refl Hfile) as W.
  cbv zeta in W. fold written back in W. clearbody back.
  destruct back as [[r b'] ist'].
  destruct W as (_ & _ & _ & Hoff & Huuid & _). split; assumption.
Defined.

(** The UUID of the sample archive written with the draws 77, 78, 79, 80. *)
Lemma writeHeader_uuid_witness :
  let seed := fun i : nat => Some (Z.of_nat i + 77) in
  (forall i, (i < 4)%nat -> is_Some (seed i))
  /\ io.mUuid (fst (@io.writeHeader Reference.constants Sample.archive0
                      SampleHeader.indeterminate0 seed true (SampleHeader.input [])))
     = "D4000000-4000-00F4-0000-05000000E000"
  /\ uuid_shape "D4000000-4000-00F4-0000-05000000E000" = true.
Proof.
  intros seed.
  assert (Hseed : forall i, (i < 4)%nat -> is_Some (seed i))
    by (intros i _; eexists; reflexivity).
  split; [exact Hseed|].
  assert (Hu : io.mUuid (fst (@io.writeHeader Reference.constants Sample.archive0
                      SampleHeader.indeterminate0 seed true (SampleHeader.input [])))
               = "D4000000-4000-00F4-0000-05000000E000") by (vm_compute; reflexivity).
  split; [exact Hu|]. rewrite <- Hu.
  exact (proj1 (@writeHeader_uuid Reference.constants Sample.archive0
                  SampleHeader.indeterminate0 seed true (SampleHeader.input [])) Hseed).
Defined.

(** ** The per-grid compression flags written and read back *)

Section GridCompressionRoundTrip.

Import StreamState io.
Context `{Constants} `{Helpers}.

Lemma iword_ostream_write bs s : iword (ostream_write bs s) = iword s.
Proof. unfold ostream_write. destruct (good s); reflexivity. Qed.

Lemma read_uint32_good (x0 z : Z) (rest : list ascii) (s : ios_base) :
  good s = true -> gbuf s = le_encode 4 z ++ rest -> 0 <= z < 2 ^ 32 ->
  read_uint32 x0 s = (z, with_gbuf rest s).
Proof.
  intros Hg Hb Hz. destruct s as [iw pw g gb pb pp]. cbn in Hg, Hb. subst g gb.
  exact (read_uint32_feed x0 z rest (mkStream iw pw true [] pb pp) Hz).
Qed.

(** X13.  The flags [setGridCompression] writes for a grid are the flags
    [readGridCompression] finds: reading the four characters written, from a
    stream whose file version has per-grid compression, makes the writer's
    data compression the reader's, in the slot and in the bound
    [StreamMetadata], and consumes exactly those four characters.  For an
    older file version [readGridCompression] reads nothing and changes
    nothing. *)
Theorem gridCompression_roundtrip (a : Archive) (grid : GridBase) (wo wi : World)
    (Hgood : good (strm wo) = true)
    (Hpos : (ppos (strm wo) <= length (pbuf (strm wo)))%nat)
    (Hflags : 0 <= compression a < 2 ^ 32)
    (Hin : good (strm wi) = true)
    (Hfile : gbuf (strm wi)
             = drop (ppos (strm wo)) (pbuf (strm (setGridCompression a grid wo)))) :
  let written := getDataCompression (strm (setGridCompression a grid wo)) in
  let wi' := readGridCompression wi in
  (OPENVDB_FILE_VERSION_NODE_MASK_COMPRESSION <= getFormatVersion (strm wi) ->
     getDataCompression (strm wi') = written
     /\ (forall i, getStreamMetadataPtr wi = Some i ->
                   StreamMetadata.mCompression (metas wi' i) = written)
     /\ good (strm wi') = true
     /\ gbuf (strm wi') = drop 4 (gbuf (strm wi)))
  /\ (getFormatVersion (strm wi) < OPENVDB_FILE_VERSION_NODE_MASK_COMPRESSION ->
      wi' = wi).
Proof.
  intros written wi'. subst written wi'.
  destruct (setGridCompression_unfold a grid wo) as (c & Hc & Hw).
  assert (Hr : 0 <= c < 2 ^ 32).
  { rewrite Hc. destruct (Grid.getGridClass grid); auto using land_lnot_range. }
  assert (Hs : strm (setGridCompression a grid wo)
               = write_uint32 c (set_iword dataCompression (long c) (strm wo))).
  { rewrite Hw. cbn [set_strm strm]. rewrite strm_setDataCompression. reflexivity. }
  assert (Hwritten : getDataCompression (strm (setGridCompression a grid wo)) = c).
  { rewrite Hs. unfold getDataCompression, write_uint32.
    rewrite iword_ostream_write. cbn [set_iword iword].
    rewrite upd_eq, uint32_long. apply uint32_small. exact Hr. }
  rewrite Hwritten. split.
  - intros Hver. unfold readGridCompression.
    replace (getFormatVersion (strm wi) >=? OPENVDB_FILE_VERSION_NODE_MASK_COMPRESSION)
      with true by (symmetry; apply Z.geb_le; exact Hver).
    assert (Hbytes : gbuf (strm wi)
                     = le_encode 4 c ++ drop (ppos (strm wo) + 4) (pbuf (strm wo))).
    { rewrite Hfile, Hs. unfold write_uint32.
      pose proof (drop_ostream_write (le_encode 4 c)
                    (set_iword dataCompression (long c) (strm wo)) Hgood Hpos) as Hd.
      rewrite length_le_encode in Hd. exact Hd. }
    rewrite (read_uint32_good COMPRESS_NONE c _ (strm wi) Hin Hbytes Hr).
    split; [|split; [|split]].
    + rewrite strm_setDataCompression. unfold getDataCompression.
      cbn [set_iword iword]. rewrite upd_eq, uint32_long. apply uint32_small. exact Hr.
    + intros i Hi. apply metas_setDataCompression.
      unfold getStreamMetadataPtr in *. exact Hi.
    + rewrite strm_setDataCompression. reflexivity.
    + rewrite strm_setDataCompression. cbn [set_iword set_strm strm gbuf with_gbuf].
      rewrite Hbytes, drop_app_length' by (rewrite length_le_encode; reflexivity).
      reflexivity.
  - intros Hver. unfold readGridCompression.
    replace (getFormatVersion (strm wi) >=? OPENVDB_FILE_VERSION_NODE_MASK_COMPRESSION)
      with false by (symmetry; rewrite Z.geb_leb; apply Z.leb_gt; exact Hver).
    reflexivity.
Qed.

End GridCompressionRoundTrip.

(** The flags of the sample fog volume, written to the empty sample stream
    and read back from a stream of file version 224. *)
Lemma gridCompression_roundtrip_witness :
  let wo := @io.setGridCompression Reference.constants Reference.helpers
              Sample.archive0 Sample.fog_grid Sample.world0 in
  let wi := set_strm (with_gbuf (pbuf (strm wo)) Sample.stream0) Sample.world0 in
  @OPENVDB_FILE_VERSION_NODE_MASK_COMPRESSION Reference.constants
    <= io.getFormatVersion (strm wi)
  /\ io.getDataCompression (strm (@io.readGridCompression Reference.constants wi))
     = io.getDataCompression (strm wo).
Proof.
  intros wo wi.
  assert (Hver : @OPENVDB_FILE_VERSION_NODE_MASK_COMPRESSION Reference.constants
                 <= io.getFormatVersion (strm wi)) by (vm_compute; discriminate).
  split; [exact Hver|].
  assert (Hfile : gbuf (strm wi) = drop (ppos (strm Sample.world0)) (pbuf (strm wo)))
    by (vm_compute; reflexivity).
  exact (proj1 (proj1 (@gridCompression_roundtrip Reference.constants Reference.helpers
                         Sample.archive0 Sample.fog_grid Sample.world0 wi
                         eq_refl (le_n 0)
                         ltac:(vm_compute; split; [discriminate | reflexivity])
                         eq_refl Hfile) Hver)).
Defined.

(** ** The per-grid operations work on copies *)

Section PerGridCopies.

Import StreamState io.
Context `{Constants} `{Helpers} `{Collaborators}.

Lemma bind_modify {B} (f : World -> World) (k : unit -> M B) (m : Machine) :
  bind (modify f) k m = k tt (mkMachine (f (world m)) (calls m)).
Proof. reflexivity. Qed.

Lemma bind_state {A B} (f : World -> A * World) (k : A -> M B) (m : Machine) :
  bind (state f) k m
  = k (fst (f (world m))) (mkMachine (snd (f (world m))) (calls m)).
Proof. unfold bind, state. destruct (f (world m)). reflexivity. Qed.

Lemma preserves_with_OnExit {A} (P : World -> Prop) (body : M A) :
  (forall p w, P w -> P (set_pslot metadata p w)) ->
  preserves P body -> preserves P (with_OnExit body).
Proof.
  intros Hslot Hbody m Hm. unfold with_OnExit. specialize (Hbody m Hm).
  destruct (body m) as [[x|e|] m']; cbn [snd world] in *; auto.
Qed.

Lemma preserves_payload (P : World -> Prop) grid gd bbox :
  (forall c, preserves P (call c)) -> preserves P (doReadGrid_payload grid gd bbox).
Proof.
  intros Hcall. unfold doReadGrid_payload.
  apply preserves_bind; [apply preserves_gets|]. intros v.
  destruct (v >=? OPENVDB_FILE_VERSION_GRID_INSTANCING).
  - apply preserves_bind; [apply Hcall|]. intros _.
    destruct (negb (isInstance gd)); [|apply preserves_ret].
    apply preserves_bind; [apply Hcall|]. intros _. apply Hcall.
  - apply preserves_bind; [apply Hcall|]. intros _.
    apply preserves_bind; [apply Hcall|]. intros _. apply Hcall.
Qed.

Lemma preserves_rewrite_offsets (P : World -> Prop) seekable offsetPos gd :
  (forall c, preserves P (call c)) ->
  (forall off w, P w -> P (set_strm (seekp off (strm w)) w)) ->
  preserves P (rewrite_offsets seekable offsetPos gd).
Proof.
  intros Hcall Hseek. unfold rewrite_offsets. destruct seekable; [|apply preserves_ret].
  apply preserves_bind; [apply preserves_modify; intros w Hw; apply Hseek; exact Hw|].
  intros _. apply preserves_bind; [apply Hcall|]. intros _. apply Hcall.
Qed.

(** *** The file-level [StreamMetadata] *)

Section FileMetadata.

Variable j : nat.
Variable m0 : StreamMetadata.Impl.

Local Abbreviation kept := (file_metadata_kept j m0).

Lemma kept_strm (s : ios_base) w :
  pword s metadata = pword (strm w) metadata -> kept w -> kept (set_strm s w).
Proof.
  unfold file_metadata_kept, getStreamMetadataPtr. cbn [set_strm strm metas ptrs].
  intros ->. auto.
Qed.

Lemma kept_on_meta f w : kept w -> kept (on_meta f w).
Proof.
  intros [Hm Hb]. split.
  - rewrite metas_on_meta_other by exact Hb. exact Hm.
  - rewrite getStreamMetadataPtr_on_meta. exact Hb.
Qed.

Lemma kept_set_slot i v w : kept w -> kept (set_slot i v w).
Proof. intros Hw. apply kept_strm; [reflexivity | exact Hw]. Qed.

Lemma kept_setDataCompression c w : kept w -> kept (setDataCompression c w).
Proof. intros Hw. apply kept_on_meta, kept_set_slot, Hw. Qed.

Lemma kept_setGridClass c w : kept w -> kept (setGridClass c w).
Proof. intros Hw. apply kept_on_meta, kept_set_slot, Hw. Qed.

Lemma kept_setGridBackgroundValuePtr p w :
  kept w -> kept (setGridBackgroundValuePtr p w).
Proof.
  intros Hw. apply kept_on_meta. apply kept_strm; [|exact Hw].
  cbn [set_pword pword]. apply upd_ne. discriminate.
Qed.

Lemma kept_write bs w : kept w -> kept (set_strm (ostream_write bs (strm w)) w).
Proof.
  intros Hw. apply kept_strm; [|exact Hw].
  unfold ostream_write. destruct (good (strm w)); reflexivity.
Qed.

Lemma kept_seekp off w : kept w -> kept (set_strm (seekp off (strm w)) w).
Proof.
  intros Hw. apply kept_strm; [|exact Hw].
  unfold seekp. destruct (good (strm w)); [destruct (_ && _)|]; reflexivity.
Qed.

Lemma kept_setGridCompression a g w : kept w -> kept (setGridCompression a g w).
Proof.
  intros Hw. destruct (setGridCompression_unfold a g w) as (c & _ & ->).
  apply kept_write, kept_setDataCompression, Hw.
Qed.

Lemma kept_set_grid g x w : kept w -> kept (set_grid g x w).
Proof. exact (fun Hw => Hw). Qed.

Lemma kept_set_meta i x w : i <> j -> kept w -> kept (set_meta i x w).
Proof.
  intros Hi [Hm Hb]. split; [|exact Hb]. cbn [set_meta metas].
  rewrite upd_ne by congruence. exact Hm.
Qed.

Lemma kept_remove_delayed_load g w : kept w -> kept (remove_delayed_load g w).
Proof.
  intros Hw. unfold remove_delayed_load.
  destruct (gmeta (grids w g) !! Grid.META_FILE_DELAYED_LOAD); [apply kept_set_grid|];
    exact Hw.
Qed.

Lemma kept_copy a g w : kept w -> kept (snd (copy_with_file_metadata a g w)).
Proof. exact (fun Hw => Hw). Qed.

Lemma setStreamMetadataPtr_false a w :
  setStreamMetadataPtr a false w = set_pslot metadata (Some a) w.
Proof.
  unfold setStreamMetadataPtr. destruct (ptrs (set_pslot metadata (Some a) w) a); reflexivity.
Qed.

Lemma new_streamMetadata_spec (w : World) :
  fst (new_streamMetadata w) = (brk w, S (brk w))
  /\ ptrs (snd (new_streamMetadata w)) (brk w) = Some (S (brk w))
  /\ (forall k, k <> S (brk w) -> metas (snd (new_streamMetadata w)) k = metas w k)
  /\ grids (snd (new_streamMetadata w)) = grids w
  /\ brk (snd (new_streamMetadata w)) = S (S (brk w)).
Proof.
  unfold new_streamMetadata, alloc.
  cbn [fst snd brk strm ptrs metas grids trees set_meta set_ptr].
  split; [reflexivity|]. split; [apply upd_eq|]. split; [|split; reflexivity].
  intros k Hk. apply upd_ne. exact Hk.
Qed.

(** The private copy is bound: from then on the object [j] is out of the
    stream's reach. *)
Lemma kept_bound (a i : nat) (w : World) :
  ptrs w a = Some i -> i <> j -> metas w j = m0 ->
  kept (setStreamMetadataPtr a false w).
Proof.
  intros Hp Hi Hm. rewrite setStreamMetadataPtr_false.
  unfold file_metadata_kept, getStreamMetadataPtr.
  cbn [set_pslot set_strm set_pword strm ptrs metas pword].
  rewrite upd_eq, Hp. split; [exact Hm | congruence].
Qed.

Hypothesis Hext : forall c w, kept w -> kept (snd (ext c w)).

Lemma kept_call c : preserves kept (call c).
Proof. apply preserves_call. intros w Hw. apply Hext. exact Hw. Qed.

Lemma with_OnExit_metas {A} (body : M A) (m : Machine) (k : nat) :
  metas (world (snd (with_OnExit body m))) k = metas (world (snd (body m))) k.
Proof. unfold with_OnExit. destruct (body m) as [[x|e|] m']; reflexivity. Qed.

Ltac kept_steps :=
  repeat first
    [ apply preserves_payload; intros ?; apply kept_call
    | apply preserves_rewrite_offsets; [intros ?; apply kept_call | apply kept_seekp]
    | apply preserves_record_pos
    | apply preserves_bind; [|intros ?]
    | apply kept_call
    | apply preserves_gets
    | apply preserves_ret
    | apply preserves_when
    | apply preserves_state; intros ? ?; apply kept_copy; assumption
    | apply preserves_modify; intros ? ?;
      first [ apply kept_setGridClass; assumption
            | apply kept_setGridBackgroundValuePtr; assumption
            | apply kept_remove_delayed_load; assumption
            | apply kept_setGridCompression; assumption
            | apply kept_set_meta; [lia | assumption]
            | match goal with
              | |- context [if ?b then _ else _] =>
                destruct b; [apply kept_set_grid|]; assumption
              end ] ].

Lemma doReadGrid_kept grid gd bbox (m : Machine) :
  (j < brk (world m))%nat -> metas (world m) j = m0 ->
  metas (world (snd (doReadGrid grid gd bbox m))) j = m0.
Proof.
  intros Hj Hm. unfold doReadGrid. rewrite with_OnExit_metas.
  rewrite bind_state.
  destruct (new_streamMetadata_spec (world m)) as (Hfst & Hp & Hk & _).
  rewrite Hfst. cbv beta iota. do 2 rewrite bind_modify. cbn [world calls].
  match goal with
  | |- metas (world (snd (?c ?M))) j = m0 =>
    assert (Hc : preserves kept c) by kept_steps;
    apply (Hc M)
  end.
  cbn [world]. apply (kept_bound (brk (world m)) (S (brk (world m)))).
  - cbn [set_meta ptrs]. exact Hp.
  - lia.
  - cbn [set_meta metas]. rewrite upd_ne by lia. rewrite Hk by lia. exact Hm.
Qed.

Lemma writeGrid_kept a gd grid seekable (m : Machine) :
  (j < brk (world m))%nat -> metas (world m) j = m0 ->
  metas (world (snd (writeGrid a gd grid seekable m))) j = m0.
Proof.
  intros Hj Hm. unfold writeGrid. rewrite with_OnExit_metas.
  rewrite bind_state.
  destruct (new_streamMetadata_spec (world m)) as (Hfst & Hp & Hk & _).
  rewrite Hfst. cbv beta iota. do 3 rewrite bind_modify. cbn [world calls].
  match goal with
  | |- metas (world (snd (?c ?M))) j = m0 =>
    assert (Hc : preserves kept c) by kept_steps;
    apply (Hc M)
  end.
  cbn [world]. apply (kept_bound (brk (world m)) (S (brk (world m)))).
  - cbn [set_meta ptrs]. exact Hp.
  - lia.
  - cbn [set_meta metas]. rewrite !upd_ne by lia. rewrite Hk by lia. exact Hm.
Qed.

End FileMetadata.

(** X14.  [doReadGrid] and [writeGrid] work on a [StreamMetadata] of their
    own: a [StreamMetadata] object that exists when they are called, the
    file-level one the stream is bound to in particular, holds afterwards
    what it held before, however the operation ends, as long as no
    collaborator modifies it or binds the stream to it. *)
Theorem per_grid_metadata_private (j : nat)
    (Hext : forall m0 c w, file_metadata_kept j m0 w ->
                           file_metadata_kept j m0 (snd (ext c w)))
    (m : Machine) (Hj : (j < brk (world m))%nat) :
  (forall grid gd bbox,
     metas (world (snd (doReadGrid grid gd bbox m))) j = metas (world m) j)
  /\ (forall a gd grid seekable,
        metas (world (snd (writeGrid a gd grid seekable m))) j = metas (world m) j).
Proof.
  split.
  - intros grid gd bbox.
    apply (doReadGrid_kept j (metas (world m) j) (Hext _)); [exact Hj | reflexivity].
  - intros a gd grid seekable.
    apply (writeGrid_kept j (metas (world m) j) (Hext _)); [exact Hj | reflexivity].
Qed.

(** *** The grids of the caller *)

Section CallerGrids.

Variable g : nat.
Variable x : GridBase.

Local Abbreviation gkept := (grid_kept g x).

Lemma gkept_same w w' : grids w' = grids w -> (brk w <= brk w')%nat -> gkept w -> gkept w'.
Proof. unfold grid_kept. intros -> Hb [Hg Hl]. split; [exact Hg | lia]. Qed.

Lemma gkept_on_meta f w : gkept w -> gkept (on_meta f w).
Proof.
  apply gkept_same; [apply grids_on_meta | rewrite brk_on_meta; constructor].
Qed.

Lemma gkept_setDataCompression c w : gkept w -> gkept (setDataCompression c w).
Proof.
  intros Hw. apply gkept_on_meta. revert Hw. apply gkept_same; [reflexivity | constructor].
Qed.

Lemma gkept_setGridCompression a gr w : gkept w -> gkept (setGridCompression a gr w).
Proof.
  intros Hw. destruct (setGridCompression_unfold a gr w) as (c & _ & ->).
  apply (gkept_same (setDataCompression c w)); [reflexivity | constructor |].
  apply gkept_setDataCompression, Hw.
Qed.

Lemma gkept_new_streamMetadata w : gkept w -> gkept (snd (new_streamMetadata w)).
Proof.
  destruct (new_streamMetadata_spec w) as (_ & _ & _ & Hg & Hb).
  apply gkept_same; [exact Hg | rewrite Hb; lia].
Qed.

Lemma gkept_copy a gr w : gkept w -> gkept (snd (copy_with_file_metadata a gr w)).
Proof.
  unfold grid_kept, copy_with_file_metadata, alloc. cbn [snd set_grid grids brk].
  intros [Hg Hl]. rewrite upd_ne by lia. split; [exact Hg | lia].
Qed.

Hypothesis Hext : forall c w, gkept w -> gkept (snd (ext c w)).

Lemma gkept_call c : preserves gkept (call c).
Proof. apply preserves_call. intros w Hw. apply Hext. exact Hw. Qed.

Ltac gkept_steps :=
  repeat first
    [ apply preserves_rewrite_offsets;
      [ intros ?; apply gkept_call
      | intros ? ?; apply gkept_same; [reflexivity | constructor] ]
    | apply preserves_record_pos
    | apply preserves_bind; [|intros ?]
    | apply gkept_call
    | apply preserves_gets
    | apply preserves_ret
    | apply preserves_state; intros ? ?;
      first [ apply gkept_new_streamMetadata; assumption
            | apply gkept_copy; assumption ]
    | apply preserves_modify; intros ? ?;
      first [ apply gkept_setGridCompression; assumption
            | rewrite setStreamMetadataPtr_false;
              eapply gkept_same; [reflexivity | constructor | assumption]
            | eapply gkept_same; [reflexivity | constructor | assumption] ] ].

Lemma writeGrid_gkept a gd grid seekable : preserves gkept (writeGrid a gd grid seekable).
Proof.
  unfold writeGrid. apply preserves_with_OnExit.
  - intros p w. apply gkept_same; [reflexivity | constructor].
  - apply preserves_bind; [gkept_steps|]. intros [p i]. gkept_steps.
Qed.

Lemma writeGridInstance_gkept a gd grid seekable :
  preserves gkept (writeGridInstance a gd grid seekable).
Proof. unfold writeGridInstance. gkept_steps. Qed.

End CallerGrids.

(** X15.  The writers do not modify the caller's grids: [writeGrid] adds the
    delayed-load, statistics and compression metadata to a copy of the grid
    it writes, and [writeGridInstance] adds nothing; every grid object that
    exists when they are called is afterwards as it was, however the
    operation ends, as long as no collaborator modifies it. *)
Theorem writers_leave_grids (g : nat)
    (Hext : forall x c w, grid_kept g x w -> grid_kept g x (snd (ext c w)))
    (m : Machine) (Hg : (g < brk (world m))%nat) :
  (forall a gd grid seekable,
     grids (world (snd (writeGrid a gd grid seekable m))) g = grids (world m) g)
  /\ (forall a gd grid seekable,
        grids (world (snd (writeGridInstance a gd grid seekable m))) g
        = grids (world m) g).
Proof.
  split; intros a gd grid seekable.
  - apply (writeGrid_gkept g (grids (world m) g) (Hext _) a gd grid seekable m).
    split; [reflexivity | exact Hg].
  - apply (writeGridInstance_gkept g (grids (world m) g) (Hext _) a gd grid seekable m).
    split; [reflexivity | exact Hg].
Qed.

End PerGridCopies.

(** The sample collaborators move the stream and publish a background
    pointer; they keep every [StreamMetadata] the stream is not bound to and
    every grid. *)
Lemma SampleRun_ext_kept (j : nat) (m0 : StreamMetadata.Impl) (c : ExtCall) (w : World) :
  file_metadata_kept j m0 w -> file_metadata_kept j m0 (snd (SampleRun.ext c w)).
Proof.
  intros Hw.
  assert (Hconsume : file_metadata_kept j m0 (SampleRun.consume w)).
  { apply kept_strm; [|exact Hw].
    destruct (SampleRun_consume_slots w) as [_ Hp]. exact (f_equal (fun f => f _) Hp). }
  assert (Hput : forall ch, file_metadata_kept j m0 (SampleRun.put ch w)).
  { intros ch. apply kept_strm; [|exact Hw].
    destruct (SampleRun_put_slots ch w) as [_ Hp]. exact (f_equal (fun f => f _) Hp). }
  destruct c; cbn [SampleRun.ext snd]; try (destruct (_ =? 12)%nat; cbn [snd]);
    first [ exact Hconsume | apply Hput | idtac ].
  - apply kept_setGridBackgroundValuePtr. exact Hconsume.
  - apply kept_seekp. exact Hw.
Qed.

Lemma SampleRun_ext_gkept (g : nat) (x : GridBase) (c : ExtCall) (w : World) :
  grid_kept g x w -> grid_kept g x (snd (SampleRun.ext c w)).
Proof.
  assert (Hb : forall p w0, grid_kept g x w0 ->
                 grid_kept g x (io.setGridBackgroundValuePtr p w0)).
  { intros p w0. unfold io.setGridBackgroundValuePtr. intros Hw0.
    apply gkept_on_meta. revert Hw0. apply gkept_same; [reflexivity | constructor]. }
  destruct c; cbn [SampleRun.ext snd]; try (destruct (_ =? 12)%nat; cbn [snd]);
    first [ apply gkept_same; [reflexivity | constructor]
          | intros Hw; apply Hb; revert Hw; apply gkept_same; [reflexivity | constructor] ].
Qed.

(** Reading into the sample grid 10 and writing it: the file-level metadata
    object 2 and the grid are as before. *)
Lemma per_grid_metadata_private_witness :
  (2 < brk (world SampleRun.machine0))%nat
  /\ metas (world (snd (@io.doReadGrid Reference.constants Reference.helpers
                          SampleRun.collaborators 10 SampleRun.primary NoBBox
                          SampleRun.machine0))) 2
     = metas (world SampleRun.machine0) 2.
Proof.
  assert (Hj : (2 < brk (world SampleRun.machine0))%nat) by (vm_compute; lia).
  split; [exact Hj|].
  exact (proj1 (@per_grid_metadata_private Reference.constants Reference.helpers
                  SampleRun.collaborators 2
                  (fun m0 c w => SampleRun_ext_kept 2 m0 c w)
                  SampleRun.machine0 Hj) 10%nat SampleRun.primary NoBBox).
Defined.

Lemma writers_leave_grids_witness :
  (10 < brk (world SampleRun.machine0))%nat
  /\ grids (world (snd (@io.writeGrid Reference.constants Reference.helpers
                          SampleRun.collaborators Sample.archive0 SampleRun.primary 10 true
                          SampleRun.machine0))) 10
     = Sample.fog_grid.
Proof.
  assert (Hg : (10 < brk (world SampleRun.machine0))%nat) by (vm_compute; lia).
  split; [exact Hg|].
  exact (proj1 (@writers_leave_grids Reference.constants Reference.helpers
                  SampleRun.collaborators 10
                  (fun x c w => SampleRun_ext_gkept 10 x c w)
                  SampleRun.machine0 Hg) Sample.archive0 SampleRun.primary 10%nat true).
Defined.

(** ** The descriptors [write] puts on the stream *)

Section WriteLoop.

Import StreamState io.
Context `{Constants} `{Helpers} `{Collaborators}.

(** *** What a run adds to the log *)

Lemma appends_ret {A} ok (a : A) : appends ok (ret a).
Proof. intros m. exists []. rewrite app_nil_r. split; reflexivity. Qed.

Lemma appends_bind {A B} ok (c : M A) (k : A -> M B) :
  appends ok c -> (forall a, appends ok (k a)) -> appends ok (bind c k).
Proof.
  intros Hc Hk m. unfold bind. destruct (Hc m) as (l & Hl & Hok).
  destruct (c m) as [[a|e|] m']; cbn [snd] in *; try (exists l; split; assumption).
  destruct (Hk a m') as (l' & Hl' & Hok'). exists (l ++ l').
  rewrite Hl', Hl, <- app_assoc, forallb_app, Hok, Hok'. split; reflexivity.
Qed.

Lemma appends_gets {A} ok (f : World -> A) : appends ok (gets f).
Proof. intros m. exists []. rewrite app_nil_r. split; reflexivity. Qed.

Lemma appends_modify ok (f : World -> World) : appends ok (modify f).
Proof. intros m. exists []. rewrite app_nil_r. split; reflexivity. Qed.

Lemma appends_state {A} ok (f : World -> A * World) : appends ok (state f).
Proof.
  intros m. exists []. rewrite app_nil_r. unfold state.
  destruct (f (world m)). split; reflexivity.
Qed.

Lemma appends_call (ok : ExtCall -> bool) (c : ExtCall) : ok c = true -> appends ok (call c).
Proof.
  intros Hc m. exists [c]. unfold call. destruct (ext c (world m)).
  cbn [snd calls forallb]. rewrite Hc. split; reflexivity.
Qed.

Lemma appends_diverge {A} ok : appends ok (@diverge A).
Proof. intros m. exists []. rewrite app_nil_r. split; reflexivity. Qed.

Lemma appends_with_OnExit {A} ok (body : M A) : appends ok body -> appends ok (with_OnExit body).
Proof.
  intros Hb m. destruct (Hb m) as (l & Hl & Hok). exists l. split; [|exact Hok].
  unfold with_OnExit. destruct (body m) as [[a|e|] m']; exact Hl.
Qed.

Lemma appends_record_pos ok seekable set gd : appends ok (record_pos seekable set gd).
Proof.
  unfold record_pos. destruct seekable; [|apply appends_ret].
  apply appends_bind; [apply appends_gets|]. intros pos. apply appends_ret.
Qed.

Ltac appends_steps :=
  repeat first
    [ apply appends_record_pos
    | apply appends_with_OnExit
    | apply appends_bind; [|intros ?]
    | apply appends_call; reflexivity
    | apply appends_gets
    | apply appends_modify
    | apply appends_state
    | apply appends_ret
    | apply appends_diverge
    | match goal with
      | |- appends _ (if ?b then _ else _) => destruct b
      | |- appends _ (match ?x with (_, _) => _ end) => destruct x
      end ].

Lemma header_names_app l1 l2 : header_names (l1 ++ l2) = header_names l1 ++ header_names l2.
Proof. apply omap_app. Qed.

Lemma header_names_none l : forallb not_header l = true -> header_names l = [].
Proof.
  induction l as [|c l IH]; [reflexivity|]. cbn [forallb]. intros Hl.
  apply andb_true_iff in Hl. destruct Hl as [Hc Hl].
  destruct c; try discriminate; cbn; apply IH; exact Hl.
Qed.

(** A run that starts with the header of [gd] and has no other header. *)
Lemma header_then {A} (gd : GridDescriptor) (k : M A) (m : Machine) :
  appends not_header k ->
  header_names (calls (snd (bind (call (GridDescriptor_writeHeader gd)) (fun _ => k) m)))
  = header_names (calls m) ++ [uniqueName gd].
Proof.
  intros Hk. unfold bind, call.
  destruct (ext (GridDescriptor_writeHeader gd) (world m)) as [[[]|e|] w'];
    cbn [snd calls]; try (rewrite header_names_app; reflexivity).
  destruct (Hk (mkMachine w' (calls m ++ [GridDescriptor_writeHeader gd])))
    as (l & -> & Hok).
  cbn [calls]. rewrite !header_names_app, (header_names_none l Hok), app_nil_r.
  reflexivity.
Qed.

Lemma calls_with_OnExit {A} (body : M A) (m : Machine) :
  calls (snd (with_OnExit body m)) = calls (snd (body m)).
Proof. unfold with_OnExit. destruct (body m) as [[x|e|] m']; reflexivity. Qed.

Lemma writeGrid_header a gd grid seekable m :
  header_names (calls (snd (writeGrid a gd grid seekable m)))
  = header_names (calls m) ++ [uniqueName gd].
Proof.
  unfold writeGrid. rewrite calls_with_OnExit, bind_state.
  destruct (fst (new_streamMetadata (world m))) as [p i]. cbv beta iota.
  do 3 rewrite bind_modify.
  rewrite header_then; [reflexivity|].
  unfold rewrite_offsets. appends_steps.
Qed.

Lemma writeGridInstance_header a gd grid seekable m :
  header_names (calls (snd (writeGridInstance a gd grid seekable m)))
  = header_names (calls m) ++ [uniqueName gd].
Proof.
  unfold writeGridInstance. rewrite header_then; [reflexivity|].
  unfold rewrite_offsets. appends_steps.
Qed.

Lemma bind_gets {A B} (f : World -> A) (k : A -> M B) (m : Machine) :
  bind (gets f) k m = k (f (world m)) m.
Proof. reflexivity. Qed.

Lemma bind_then_ret {A B} (c : M A) (h : A -> B) (m : Machine) :
  calls (snd (bind c (fun x => ret (h x)) m)) = calls (snd (c m))
  /\ (forall y, fst (bind c (fun x => ret (h x)) m) = Ok y ->
        exists x, fst (c m) = Ok x /\ y = h x).
Proof.
  unfold bind, ret. destruct (c m) as [[x|e|] m']; cbn [fst snd];
    (split; [reflexivity|]); intros y Hy; try discriminate.
  injection Hy as <-. exists x. split; reflexivity.
Qed.

Lemma write_descriptor_header a seekable (treeMap : gmap nat GridDescriptor) name grid m :
  header_names (calls (snd (write_descriptor a seekable treeMap name grid m)))
  = header_names (calls m) ++ [name].
Proof.
  unfold write_descriptor. rewrite bind_gets.
  set (g := grids (world m) grid).
  set (gd := new_GridDescriptor name (gtype g) (Grid.saveFloatAsHalf g)).
  destruct (mEnableInstancing a && isInstance_of treeMap (gtree g) gd);
    [destruct (treeMap !! gtree g) as [parent|]|].
  - rewrite (proj1 (bind_then_ret _ (fun _ => treeMap) m)).
    rewrite writeGridInstance_header.
    destruct (setInstanceParentName_fields (uniqueName parent) gd) as (_ & -> & _).
    reflexivity.
  - rewrite (proj1 (bind_then_ret _ (fun gd' => <[gtree g := gd']> treeMap) m)).
    rewrite writeGrid_header. reflexivity.
  - rewrite (proj1 (bind_then_ret _ (fun gd' => <[gtree g := gd']> treeMap) m)).
    rewrite writeGrid_header. reflexivity.
Qed.

(** The name the loop settles on is not in use. *)
Lemma uniquify_Some fuel base (uniqueNames : gset string) n name0 name :
  uniquify fuel base uniqueNames n name0 = Some name -> name ∉ uniqueNames.
Proof.
  revert n name0. induction fuel as [|fuel IH]; intros n name0; cbn [uniquify];
    destruct (bool_decide (name0 ∈ uniqueNames)) eqn:D; intros E;
    try discriminate; try (apply (IH _ _ E));
    injection E as <-; apply bool_decide_eq_false in D; exact D.
Qed.

Lemma write_entry_tail {A} (X : M A) (f : World -> World) (m : Machine) :
  calls (snd (bind X (fun st => bind (modify f) (fun _ => ret st)) m)) = calls (snd (X m))
  /\ fst (bind X (fun st => bind (modify f) (fun _ => ret st)) m) = fst (X m).
Proof.
  unfold bind, modify, ret. destruct (X m) as [[x|e|] m']; split; reflexivity.
Qed.

Lemma write_entry_names a seekable nameCount st (p : option nat) m :
  names_in_use st m ->
  let r := fst (write_entry a seekable nameCount st p m) in
  let m' := snd (write_entry a seekable nameCount st p m) in
  NoDup (header_names (calls m'))
  /\ (forall st', r = Ok st' ->
        names_in_use st' m'
        /\ length (header_names (calls m'))
           = (length (header_names (calls m)) + length (option_list p))%nat).
Proof.
  intros [Hnd Hin]. destruct st as [treeMap uniqueNames]. cbn [snd] in Hin.
  cbv zeta. unfold write_entry, names_in_use.
  match goal with
  | |- context [bind ?X (fun st => bind (modify ?f) (fun _ => ret st)) m] =>
    destruct (write_entry_tail X f m) as [-> ->]
  end.
  destruct p as [grid|].
  - rewrite bind_gets.
    destruct (descriptor_name nameCount uniqueNames (grids (world m) grid))
      as [name|] eqn:E.
    + pose proof (uniquify_Some _ _ _ _ _ _ E) as Hfree.
      match goal with
      | |- context [bind ?c (fun x => ret (@?h x)) m] =>
        destruct (bind_then_ret c h m) as [-> Hret]
      end.
      rewrite write_descriptor_header.
      assert (Hnd' : NoDup (header_names (calls m) ++ [name])).
      { apply NoDup_app. split; [exact Hnd|]. split; [|apply NoDup_singleton].
        intros n Hn Hn'. apply list_elem_of_singleton in Hn'. subst n.
        apply Hfree, Hin, Hn. }
      split; [exact Hnd'|]. intros st' Hst'.
      destruct (Hret st' Hst') as (tm & _ & ->).
      split; [split; [exact Hnd'|]|].
      * intros n Hn. cbn [snd]. apply elem_of_app in Hn. destruct Hn as [Hn|Hn].
        -- apply elem_of_union_r, Hin, Hn.
        -- apply list_elem_of_singleton in Hn. subst n.
           apply elem_of_union_l, elem_of_singleton. reflexivity.
      * rewrite length_app. reflexivity.
    + cbn [diverge fst snd]. split; [exact Hnd|]. intros st' Hst'. discriminate.
  - cbn [ret fst snd]. split; [exact Hnd|]. intros st' Hst'. injection Hst' as <-.
    split; [split; assumption|]. cbn. lia.
Qed.

Lemma write_entries_names a seekable nameCount (grids_ : list (option nat)) :
  forall st m, names_in_use st m ->
  let r := fst (write_entries a seekable nameCount st grids_ m) in
  let m' := snd (write_entries a seekable nameCount st grids_ m) in
  NoDup (header_names (calls m'))
  /\ (forall st', r = Ok st' ->
        length (header_names (calls m'))
        = (length (header_names (calls m)) + length (filter is_Some grids_))%nat).
Proof.
  induction grids_ as [|p rest IH]; intros st m Hinv; cbv zeta; cbn [write_entries].
  - cbn [ret fst snd]. split; [apply Hinv|]. intros st' _. cbn. lia.
  - pose proof (write_entry_names a seekable nameCount st p m Hinv) as Hentry.
    cbv zeta in Hentry. unfold bind.
    destruct (write_entry a seekable nameCount st p m) as [[st1|e|] m1];
      cbn [fst snd] in *; destruct Hentry as [Hnd1 Hok1];
      try (split; [exact Hnd1 | intros st' Hst'; discriminate]).
    destruct (Hok1 st1 eq_refl) as [Hinv1 Hlen1].
    destruct (IH st1 m1 Hinv1) as [Hnd2 Hlen2]. cbv zeta in Hnd2, Hlen2.
    split; [exact Hnd2|]. intros st' Hst'. rewrite (Hlen2 st' Hst'), Hlen1.
    destruct p as [grid|].
    + rewrite filter_cons_True by (eexists; reflexivity).
      change (length (option_list (Some grid))) with 1%nat. cbn [length]. lia.
    + rewrite filter_cons_False by (intros [? ?]; discriminate).
      change (length (@option_list nat None)) with 0%nat. lia.
Qed.

Lemma bind_ret {A B} (x : A) (k : A -> M B) (m : Machine) : bind (ret x) k m = k x m.
Proof. reflexivity. Qed.

Lemma bind_call {B} (c : ExtCall) (k : unit -> M B) (m : Machine) :
  bind (call c) k m =
  match ext c (world m) with
  | (Ok _, w') => k tt (mkMachine w' (calls m ++ [c]))
  | (Throw e, w') => (Throw e, mkMachine w' (calls m ++ [c]))
  | (Diverge, w') => (Diverge, mkMachine w' (calls m ++ [c]))
  end.
Proof.
  unfold bind, call. destruct (ext c (world m)) as [[[]|e|] w']; reflexivity.
Qed.

(** X16.  [write] gives every grid it writes a descriptor name of its own:
    the unique names of the descriptors whose headers reach the stream are
    pairwise distinct, however the run ends; and when [write] returns, there
    is exactly one descriptor per non-null grid of the list. *)
Theorem write_descriptor_names (a : Archive) (u : Indeterminate) (seed : nat -> option Z)
    (grids_ : list (option nat)) (seekable : bool) (metadata_ : MetaMap) (m : Machine)
    (Hfresh : header_names (calls m) = []) :
  let r := fst (write a u seed grids_ seekable metadata_ m) in
  let m' := snd (write a u seed grids_ seekable metadata_ m) in
  NoDup (header_names (calls m'))
  /\ (forall x, r = Ok x ->
        length (header_names (calls m')) = length (filter is_Some grids_)).
Proof.
  cbv zeta. unfold write. rewrite bind_gets.
  assert (Hrest : forall M, header_names (calls M) = [] ->
    let run := bind (modify (setDataCompression (compression a))) (fun _ =>
      bind (modify (setWriteGridStatsMetadata (isGridStatsMetadataEnabled a))) (fun _ =>
      bind (state (fun w =>
              let '(a, ost) := writeHeader a u seed seekable (strm w) in
              (a, set_strm ost w))) (fun a =>
      bind (call (MetaMap_writeMeta metadata_)) (fun _ =>
      bind (modify (fun w =>
              set_strm (ostream_write
                          (le_encode 4 (Z.of_nat (length (filter is_Some grids_))))
                          (strm w)) w)) (fun _ =>
      bind (gets (fun w => count_names w grids_)) (fun nameCount =>
      bind (write_entries a seekable nameCount (∅, ∅) grids_) (fun st =>
      ret (a, fst st)))))))) M in
    NoDup (header_names (calls (snd run)))
    /\ (forall x, fst run = Ok x ->
          length (header_names (calls (snd run))) = length (filter is_Some grids_))).
  { intros M HM. cbv zeta. do 2 rewrite bind_modify. rewrite bind_state.
    cbn [world calls].
    rewrite bind_call. cbn [world calls].
    match goal with
    | |- context [ext ?c ?w0] => destruct (ext c w0) as [[[]|e|] w1]
    end;
      cbn [fst snd calls];
      try (rewrite header_names_app, HM; split;
           [apply NoDup_nil_2 | intros x Hx; discriminate]).
    rewrite bind_modify, bind_gets. cbn [world calls].
    match goal with
    | |- context [bind ?c (fun st => ret (@?h st)) ?M0] =>
      destruct (bind_then_ret c h M0) as [-> Hret]; set (M2 := M0) in *
    end.
    assert (Hinv : names_in_use (∅, ∅) M2).
    { unfold names_in_use, M2. cbn [calls]. rewrite header_names_app, HM.
      split; [apply NoDup_nil_2|]. intros n Hn. cbn in Hn.
      apply elem_of_nil in Hn. destruct Hn. }
    match goal with
    | |- context [write_entries ?a' seekable ?nc (∅, ∅) grids_ M2] =>
      destruct (write_entries_names a' seekable nc grids_ (∅, ∅) M2 Hinv) as [Hnd Hlen]
    end.
    cbv zeta in Hnd, Hlen. split; [exact Hnd|]. intros x Hx.
    destruct (Hret x Hx) as (st' & Hst' & _). rewrite (Hlen st' Hst').
    unfold M2. cbn [calls]. rewrite header_names_app, HM. reflexivity. }
  destruct (getStreamMetadataPtr (world m)).
  - rewrite bind_ret. apply Hrest. exact Hfresh.
  - rewrite bind_modify. apply Hrest. exact Hfresh.
Qed.

(** *** No run diverges unless a collaborator does *)

Section ComesBack.

Hypothesis Hext : forall c w, fst (ext c w) <> Diverge.

Lemma comes_back_ret {A} (a : A) : comes_back (ret a).
Proof. intros m. discriminate. Qed.

Lemma comes_back_throw {A} e : comes_back (@throw A e).
Proof. intros m. discriminate. Qed.

Lemma comes_back_bind {A B} (c : M A) (k : A -> M B) :
  comes_back c -> (forall a, comes_back (k a)) -> comes_back (bind c k).
Proof.
  intros Hc Hk m. unfold bind. specialize (Hc m).
  destruct (c m) as [[a|e|] m']; cbn [fst] in *; try discriminate; auto.
  apply Hk.
Qed.

Lemma comes_back_gets {A} (f : World -> A) : comes_back (gets f).
Proof. intros m. discriminate. Qed.

Lemma comes_back_modify (f : World -> World) : comes_back (modify f).
Proof. intros m. discriminate. Qed.

Lemma comes_back_state {A} (f : World -> A * World) : comes_back (state f).
Proof. intros m. unfold state. destruct (f (world m)). discriminate. Qed.

Lemma comes_back_call (c : ExtCall) : comes_back (call c).
Proof.
  intros m. unfold call. specialize (Hext c (world m)).
  destruct (ext c (world m)). exact Hext.
Qed.

Lemma comes_back_with_OnExit {A} (body : M A) :
  comes_back body -> comes_back (with_OnExit body).
Proof.
  intros Hb m. unfold with_OnExit. specialize (Hb m).
  destruct (body m) as [[a|e|] m']; cbn [fst] in *; try discriminate. exact Hb.
Qed.

Lemma comes_back_record_pos seekable set gd : comes_back (record_pos seekable set gd).
Proof.
  unfold record_pos. destruct seekable; [|apply comes_back_ret].
  apply comes_back_bind; [apply comes_back_gets|]. intros pos. apply comes_back_ret.
Qed.

Ltac comes_back_steps :=
  repeat first
    [ apply comes_back_record_pos
    | apply comes_back_with_OnExit
    | apply comes_back_bind; [|intros ?]
    | apply comes_back_call
    | apply comes_back_gets
    | apply comes_back_modify
    | apply comes_back_state
    | apply comes_back_ret
    | apply comes_back_throw
    | match goal with
      | |- comes_back (when ?b _) => destruct b; cbn [when]
      | |- comes_back (if ?b then _ else _) => destruct b
      | |- comes_back (match ?x with (_, _) => _ end) => destruct x
      end ].

Lemma comes_back_writeGrid a gd grid seekable : comes_back (writeGrid a gd grid seekable).
Proof. unfold writeGrid, rewrite_offsets. comes_back_steps. Qed.

Lemma comes_back_writeGridInstance a gd grid seekable :
  comes_back (writeGridInstance a gd grid seekable).
Proof. unfold writeGridInstance, rewrite_offsets. comes_back_steps. Qed.

Hypothesis Hsuffix : forall base n n', addSuffix base n = addSuffix base n' -> n = n'.

Lemma comes_back_write_entries a seekable nameCount (grids_ : list (option nat)) :
  forall st, comes_back (write_entries a seekable nameCount st grids_).
Proof.
  induction grids_ as [|p rest IH]; intros st; cbn [write_entries];
    [apply comes_back_ret|].
  apply comes_back_bind; [|intros st'; apply IH].
  unfold write_entry. destruct st as [treeMap uniqueNames].
  apply comes_back_bind; [|intros ?; comes_back_steps].
  destruct p as [grid|]; [|apply comes_back_ret].
  apply comes_back_bind; [apply comes_back_gets|]. intros g.
  destruct (descriptor_name_found nameCount uniqueNames g Hsuffix) as (name & -> & _).
  apply comes_back_bind; [|intros ?; apply comes_back_ret].
  unfold write_descriptor.
  apply comes_back_bind; [apply comes_back_gets|]. intros g'.
  destruct (mEnableInstancing a && _); [destruct (treeMap !! gtree g')|];
    (apply comes_back_bind; [|intros ?; apply comes_back_ret]);
    first [apply comes_back_writeGridInstance | apply comes_back_writeGrid].
Qed.

End ComesBack.

(** X17.  [write] comes back, by return or by exception, whenever the
    collaborators do: the search for an unused descriptor name ends, given
    that [GridDescriptor::addSuffix] makes different names from different
    numbers. *)
Theorem write_comes_back
    (Hext : forall c w, fst (ext c w) <> Diverge)
    (Hsuffix : forall base n n', addSuffix base n = addSuffix base n' -> n = n')
    (a : Archive) (u : Indeterminate) (seed : nat -> option Z)
    (grids_ : list (option nat)) (seekable : bool) (metadata_ : MetaMap) (m : Machine) :
  fst (write a u seed grids_ seekable metadata_ m) <> Diverge.
Proof.
  revert m. change (comes_back (write a u seed grids_ seekable metadata_)).
  unfold write.
  apply comes_back_bind; [apply comes_back_gets|]. intros sm.
  apply comes_back_bind;
    [destruct sm; [apply comes_back_ret | apply comes_back_modify]|]. intros _.
  apply comes_back_bind; [apply comes_back_modify|]. intros _.
  apply comes_back_bind; [apply comes_back_modify|]. intros _.
  apply comes_back_bind; [apply comes_back_state|]. intros a'.
  apply comes_back_bind; [apply comes_back_call; exact Hext|]. intros _.
  apply comes_back_bind; [apply comes_back_modify|]. intros _.
  apply comes_back_bind; [apply comes_back_gets|]. intros nameCount.
  apply comes_back_bind; [|intros st; apply comes_back_ret].
  apply comes_back_write_entries; assumption.
Qed.

End WriteLoop.

Lemma SampleRun_ext_comes_back (c : ExtCall) (w : World) :
  fst (SampleRun.ext c w) <> Diverge.
Proof.
  destruct c; cbn [SampleRun.ext fst]; try discriminate.
  destruct (_ =? 12)%nat; discriminate.
Qed.

(** The sample archive written whole, as in [write_sample_descriptors]. *)
Lemma write_descriptor_names_witness :
  header_names (calls SampleRun.machine0) = []
  /\ NoDup (header_names
              (calls (snd (@io.write Reference.constants Reference.helpers
                             SampleRun.collaborators Sample.archive0
                             SampleHeader.indeterminate0 (fun i => Some (Z.of_nat i + 77))
                             [Some 10; None; Some 11; Some 12; Some 10]%nat true
                             (gmeta Sample.fog_grid) SampleRun.machine0)))).
Proof.
  split; [reflexivity|].
  exact (proj1 (@write_descriptor_names Reference.constants Reference.helpers
                  SampleRun.collaborators Sample.archive0
                  SampleHeader.indeterminate0 (fun i => Some (Z.of_nat i + 77))
                  [Some 10; None; Some 11; Some 12; Some 10]%nat true
                  (gmeta Sample.fog_grid) SampleRun.machine0 eq_refl)).
Defined.

Lemma write_comes_back_witness :
  fst (@io.write Reference.constants Reference.helpers SampleRun.collaborators
         Sample.archive0 SampleHeader.indeterminate0 (fun i => Some (Z.of_nat i + 77))
         [Some 10; Some 10]%nat false (gmeta Sample.fog_grid) SampleRun.machine0)
  <> Diverge.
Proof.
  exact (@write_comes_back Reference.constants Reference.helpers SampleRun.collaborators
           SampleRun_ext_comes_back Reference_addSuffix_inj
           Sample.archive0 SampleHeader.indeterminate0 (fun i => Some (Z.of_nat i + 77))
           [Some 10; Some 10]%nat false (gmeta Sample.fog_grid) SampleRun.machine0).
Defined.

(** ** Headers of files older than version 211 *)

Section LegacyHeader.

Import io.
Context `{Constants}.

Lemma cstring_no_nul (l : list ascii) :
  forallb (fun c => negb (Ascii.eqb c "000")) l = true ->
  cstring (l ++ ["000"%char]) = string_of_list_ascii l.
Proof.
  induction l as [|c l IH]; cbn [forallb app cstring string_of_list_ascii].
  - intros _. reflexivity.
  - intros Hl. apply andb_true_iff in Hl. destruct Hl as [Hc Hl].
    apply negb_true_iff in Hc. rewrite Hc, IH by exact Hl. reflexivity.
Qed.

Lemma legacy_digits (bytes : list ascii) :
  let l := flat_map (fun c => [to_hex (uint32 (Z.shiftr (schar_val c) 4));
                               to_hex (uint32 (schar_val c))]) bytes in
  forallb (fun c => negb (Ascii.eqb c "000")) l = true
  /\ forallb is_hex l = true
  /\ length l = (2 * length bytes)%nat.
Proof.
  induction bytes as [|b bytes IH]; cbn [flat_map app forallb length].
  - repeat split.
  - cbv zeta in IH. destruct IH as (IH1 & IH2 & IH3).
    rewrite IH1, IH2, IH3.
    rewrite !(proj1 (to_hex_digit _)), !(proj2 (to_hex_digit _)).
    repeat split. lia.
Qed.

(** X18.  A header of a file older than version 211 carries the version as
    three numbers and the UUID as sixteen bytes: [readHeader] makes the file
    version [100 * major + 10 * minor + patch], sets the library version to
    0.0 and the grid-offsets flag, takes [COMPRESS_ZIP | COMPRESS_ACTIVE_MASK]
    as the compression, and turns the bytes into a UUID of 32 upper-case
    hexadecimal digits, consuming exactly these 36 characters. *)
Theorem readHeader_legacy (b : Archive) (u : Indeterminate) (s : ios_base)
    (major minor patch : Z) (bytes rest : list ascii)
    (Hmagic : - 2 ^ 63 <= OPENVDB_MAGIC < 2 ^ 63)
    (Hcurrent : 211 <= OPENVDB_FILE_VERSION)
    (Hselective : 211 <= OPENVDB_FILE_VERSION_SELECTIVE_COMPRESSION)
    (Hblosc : 211 <= OPENVDB_FILE_VERSION_BLOSC_COMPRESSION)
    (Htext : 211 <= OPENVDB_FILE_VERSION_BOOST_UUID)
    (Hmajor : 0 <= major) (Hminor : 0 <= minor) (Hpatch : 0 <= patch)
    (Hold : 100 * major + 10 * minor + patch < 211)
    (Hbytes : length bytes = 16%nat) :
  let input := le_encode 8 OPENVDB_MAGIC ++ le_encode 4 major ++ le_encode 4 minor
               ++ le_encode 4 patch ++ bytes ++ rest in
  let '(r, b', ist') := readHeader b u (with_gbuf input s) in
  mFileVersion b' = 100 * major + 10 * minor + patch
  /\ mLibraryVersion b' = (0, 0)
  /\ mInputHasGridOffsets b' = true
  /\ mCompression b' = Z.lor COMPRESS_ZIP COMPRESS_ACTIVE_MASK
  /\ legacy_uuid_shape (mUuid b') = true
  /\ r = Ok (String.eqb (mUuid b) "" || negb (String.eqb (mUuid b) (mUuid b')))
  /\ ist' = with_gbuf rest s.
Proof.
  cbv zeta. destruct b as [v0 lib0 uuid0 off0 inst0 comp0 stats0].
  set (V := 100 * major + 10 * minor + patch) in *.
  unfold readHeader, readHeader_magic.
  rewrite read_int64_feed by exact Hmagic.
  rewrite Z.eqb_refl. cbn [negb].
  unfold readHeader_fileVersion. cbn [mFileVersion].
  rewrite read_uint32_feed by lia.
  replace (major >? OPENVDB_FILE_VERSION) with false
    by (symmetry; rewrite Z.gtb_ltb; apply Z.ltb_ge; lia).
  replace (major <? 211) with true by (symmetry; apply Z.ltb_lt; lia).
  rewrite read_uint32_feed by lia.
  rewrite (uint32_small (100 * major + 10 * minor)) by lia.
  rewrite read_uint32_feed by lia.
  rewrite (uint32_small (100 * major + 10 * minor + patch)) by lia.
  fold V.
  unfold readHeader_libraryVersion.
  cbn [set_mFileVersion set_mLibraryVersion mFileVersion].
  replace (V >=? 211) with false by (symmetry; rewrite Z.geb_leb; apply Z.leb_gt; lia).
  unfold readHeader_gridOffsets.
  cbn [set_mInputHasGridOffsets mFileVersion].
  replace (V >=? 212) with false by (symmetry; rewrite Z.geb_leb; apply Z.leb_gt; lia).
  unfold readHeader_compression.
  cbn [set_mCompression mFileVersion].
  replace (V <? OPENVDB_FILE_VERSION_BLOSC_COMPRESSION) with true
    by (symmetry; apply Z.ltb_lt; lia).
  cbn [set_mCompression mFileVersion].
  replace (V >=? OPENVDB_FILE_VERSION_SELECTIVE_COMPRESSION) with false
    by (symmetry; rewrite Z.geb_leb; apply Z.leb_gt; lia).
  cbn [andb].
  unfold readHeader_uuid. cbn [mFileVersion mUuid set_mUuid].
  replace (V >=? OPENVDB_FILE_VERSION_BOOST_UUID) with false
    by (symmetry; rewrite Z.geb_leb; apply Z.leb_gt; lia).
  rewrite istream_read_feed by exact Hbytes.
  destruct (legacy_digits bytes) as (Hnul & Hhex & Hlen). cbv zeta in Hnul, Hhex, Hlen.
  rewrite (cstring_no_nul _ Hnul).
  set (digits := flat_map _ bytes) in *.
  assert (Hne : String.eqb (string_of_list_ascii digits) "" = false).
  { destruct digits as [|c l]; [cbn in Hlen; lia | reflexivity]. }
  cbn [set_mUuid mUuid]. rewrite Hne, orb_false_r.
  assert (Hshape : legacy_uuid_shape (string_of_list_ascii digits) = true).
  { unfold legacy_uuid_shape. rewrite list_ascii_of_string_of_list_ascii, Hhex, Hlen, Hbytes.
    reflexivity. }
  destruct (String.eqb uuid0 "");
    cbn [mFileVersion mLibraryVersion mInputHasGridOffsets mCompression mUuid orb];
    repeat split; exact Hshape.
Qed.

End LegacyHeader.

(** A header of version 2.0.9 with the sixteen bytes 0, 17, 34, ..., 255. *)
Lemma readHeader_legacy_witness :
  let bytes := map (fun i : nat => char_of (17 * Z.of_nat i)) (seq 0 16) in
  let input := le_encode 8 (@OPENVDB_MAGIC Reference.constants) ++ le_encode 4 2 ++ le_encode 4 0
               ++ le_encode 4 9 ++ bytes ++ [] in
  let back := @io.readHeader Reference.constants Sample.archive0
                SampleHeader.indeterminate0 (with_gbuf input (SampleHeader.input [])) in
  io.mFileVersion (snd (fst back)) = 209
  /\ legacy_uuid_shape (io.mUuid (snd (fst back))) = true.
Proof.
  intros bytes input back.
  pose proof (@readHeader_legacy Reference.constants Sample.archive0
                SampleHeader.indeterminate0 (SampleHeader.input []) 2 0 9 bytes []
                ltac:(vm_compute; split; [discriminate | reflexivity])
                ltac:(vm_compute; discriminate) ltac:(vm_compute; discriminate)
                ltac:(vm_compute; discriminate) ltac:(vm_compute; discriminate)
                ltac:(vm_compute; discriminate) ltac:(vm_compute; discriminate)
                ltac:(vm_compute; discriminate) ltac:(vm_compute; reflexivity)
                eq_refl) as W.
  cbv zeta in W. fold input back in W. clearbody back.
  destruct back as [[r b'] ist'].
  destruct W as (Hv & _ & _ & _ & Hshape & _). split; assumption.
Defined.

(** ** [connectInstance]: every way it ends *)

Section ConnectOutcomes.

Import io.
Context `{Helpers}.

(** X19.  [connectInstance] does nothing, and raises no error, for a
    descriptor that is not an instance and for one whose unique name is not
    in the map or maps to a null grid, whether or not the parent is there.
    It throws only for an instance with a grid whose parent name is not in
    the map, and dereferences a null pointer only when the parent name maps
    to a null grid. *)
Theorem connectInstance_outcomes (a : Archive) (gd : GridDescriptor)
    (grids_ : gmap string (option nat)) (w : World) :
  let connected := exists grid, isInstance gd = true
                                /\ grids_ !! uniqueName gd = Some (Some grid) in
  (~ connected -> connectInstance a gd grids_ w = Returned w)
  /\ ((exists e, connectInstance a gd grids_ w = Thrown e)
      <-> connected /\ grids_ !! instanceParentName gd = None)
  /\ (connectInstance a gd grids_ w = NullDereference
      <-> connected /\ grids_ !! instanceParentName gd = Some None)
  /\ ((exists w', connectInstance a gd grids_ w = Returned w') <->
      ~ connected \/ exists parent, grids_ !! instanceParentName gd = Some (Some parent)).
Proof.
  cbv zeta. unfold connectInstance.
  destruct (isInstance gd) eqn:Hi; cbn [negb orb].
  2:{ split; [reflexivity|].
      split; [split; [intros [e He]; discriminate|intros [(g & Hg & _) _]; discriminate]|].
      split; [split; [discriminate|intros [(g & Hg & _) _]; discriminate]|].
      split; [intros _; left; intros (g & Hg & _); discriminate | eexists; reflexivity]. }
  case_bool_decide as He.
  { subst grids_.
    split; [reflexivity|].
    split; [split; [intros [e He]; discriminate
                   |intros [(g & _ & Hg) _]; rewrite lookup_empty in Hg; discriminate]|].
    split; [split; [discriminate
                   |intros [(g & _ & Hg) _]; rewrite lookup_empty in Hg; discriminate]|].
    split; [intros _; left; intros (g & _ & Hg); rewrite lookup_empty in Hg; discriminate
           | eexists; reflexivity]. }
  destruct (grids_ !! uniqueName gd) as [[grid|]|] eqn:Hg.
  - assert (Hc : exists grid0, true = true /\ Some (Some grid) = Some (Some grid0))
      by (exists grid; split; reflexivity).
    destruct (grids_ !! instanceParentName gd) as [[parent|]|] eqn:Hp.
    + split; [intros Hn; destruct (Hn Hc)|].
      split; [split; [intros [e He']; destruct (mEnableInstancing a); discriminate
                     |intros [_ Hx]; discriminate]|].
      split; [split; [destruct (mEnableInstancing a); discriminate
                     |intros [_ Hx]; discriminate]|].
      split; [intros _; right; exists parent; reflexivity|].
      intros _. destruct (mEnableInstancing a); eexists; reflexivity.
    + split; [intros Hn; destruct (Hn Hc)|].
      split; [split; [intros [e He']; discriminate | intros [_ Hx]; discriminate]|].
      split; [split; [intros _; split; [exact Hc | reflexivity] | reflexivity]|].
      split; [intros [w' Hw']; discriminate|].
      intros [Hn | [parent Hx]]; [destruct (Hn Hc) | discriminate].
    + split; [intros Hn; destruct (Hn Hc)|].
      split; [split; [intros _; split; [exact Hc | reflexivity] | eexists; reflexivity]|].
      split; [split; [discriminate | intros [_ Hx]; discriminate]|].
      split; [intros [w' Hw']; discriminate|].
      intros [Hn | [parent Hx]]; [destruct (Hn Hc) | discriminate].
  - split; [reflexivity|].
    split; [split; [intros [e He']; discriminate
                   |intros [(g & _ & Hx) _]; discriminate]|].
    split; [split; [discriminate | intros [(g & _ & Hx) _]; discriminate]|].
    split; [intros _; left; intros (g & _ & Hx); discriminate | eexists; reflexivity].
  - split; [reflexivity|].
    split; [split; [intros [e He']; discriminate
                   |intros [(g & _ & Hx) _]; discriminate]|].
    split; [split; [discriminate | intros [(g & _ & Hx) _]; discriminate]|].
    split; [intros _; left; intros (g & _ & Hx); discriminate | eexists; reflexivity].
Qed.

End ConnectOutcomes.

(** The instance "copy" of the samples without its parent in the map. *)
Lemma connectInstance_outcomes_witness :
  exists e, @io.connectInstance Reference.helpers Sample.archive0 SampleRun.instance
              SampleInstance.orphaned Sample.world0 = io.Thrown e.
Proof.
  apply (proj2 (proj1 (proj2 (@connectInstance_outcomes Reference.helpers Sample.archive0
                                SampleRun.instance SampleInstance.orphaned Sample.world0)))).
  split; [exists 12%nat; split; reflexivity | reflexivity].
Defined.

(** ** Grid names in files older than the grid map *)

Section OldNames.

Import StreamState io.
Context `{Constants} `{Helpers} `{Collaborators}.





End OldNames.



(** ** The names [write] gives to descriptors *)

Section DescriptorNames.

Import io.
Context `{Helpers}.

Lemma occurrences_nonneg w name grids_ : 0 <= occurrences w name grids_.
Proof.
  induction grids_ as [|[g|] rest IH]; cbn [occurrences]; try lia.
  destruct (String.eqb _ _); lia.
Qed.

(** The histogram of the first loop holds, for each name, the number of
    non-null grids of that name, and no entry for a name no grid has. *)
Lemma count_names_counts (w : World) (grids_ : list (option nat)) (name : string) :
  default 0 (count_names w grids_ !! name) = occurrences w name grids_.
Proof.
  unfold count_names.
  assert (Hgen : forall (acc : gmap string Z),
            default 0 (fold_left (fun nameCount p =>
              match p with
              | Some g =>
                let name := Grid.getName (grids w g) in
                match nameCount !! name with
                | Some n => <[name := n + 1]> nameCount
                | None => <[name := 1]> nameCount
                end
              | None => nameCount
              end) grids_ acc !! name)
            = default 0 (acc !! name) + occurrences w name grids_).
  { induction grids_ as [|[g|] rest IH]; intros acc; cbn [fold_left occurrences].
    - lia.
    - rewrite IH. cbv zeta.
      destruct (String.eqb_spec (Grid.getName (grids w g)) name) as [->|Hne].
      + destruct (acc !! name) as [n|] eqn:E; rewrite lookup_insert_eq;
          unfold default, id; lia.
      + destruct (acc !! Grid.getName (grids w g)) as [n|];
          rewrite lookup_insert_ne by exact Hne; unfold default, id; lia.
    - apply IH. }
  rewrite Hgen, lookup_empty. reflexivity.
Qed.

Lemma uniquify_form fuel base (uniqueNames : gset string) n name0 name :
  uniquify fuel base uniqueNames n name0 = Some name ->
  (name = name0 /\ name0 ∉ uniqueNames)
  \/ (name0 ∈ uniqueNames /\ exists k, n <= k /\ name = addSuffix base k).
Proof.
  revert n name0. induction fuel as [|fuel IH]; intros n name0; cbn [uniquify];
    destruct (bool_decide (name0 ∈ uniqueNames)) eqn:D; intros E; try discriminate.
  - injection E as <-. apply bool_decide_eq_false in D. left. split; [reflexivity | exact D].
  - apply bool_decide_eq_true in D. right. split; [exact D|].
    destruct (IH _ _ E) as [[-> _] | (_ & k & Hk & ->)].
    + exists n. split; [lia | reflexivity].
    + exists k. split; [lia | reflexivity].
  - injection E as <-. apply bool_decide_eq_false in D. left. split; [reflexivity | exact D].
Qed.

(** X21.  The descriptor name of a grid: a grid whose name is not empty,
    is shared with no other grid of the list and is not yet in use as a
    descriptor name is written under its own name; a grid whose name is
    empty or shared is written under its name with a numeric suffix, the
    suffix 0 if that is free.  Whatever the names in use, the descriptor
    name is the grid's name or that name with a suffix. *)
Theorem descriptor_name_rule (w : World) (grids_ : list (option nat))
    (uniqueNames : gset string) (grid : GridBase) :
  let base := Grid.getName grid in
  let nameCount := count_names w grids_ in
  let plain := negb (String.eqb base "") && (occurrences w base grids_ <=? 1) in
  (plain = true -> base ∉ uniqueNames ->
     descriptor_name nameCount uniqueNames grid = Some base)
  /\ (plain = false -> addSuffix base 0 ∉ uniqueNames ->
      descriptor_name nameCount uniqueNames grid = Some (addSuffix base 0))
  /\ (forall name, descriptor_name nameCount uniqueNames grid = Some name ->
        (name ∉ uniqueNames)
        /\ ((name = base /\ plain = true)
            \/ exists k, 0 <= k /\ name = addSuffix base k)).
Proof.
  cbv zeta. unfold descriptor_name. rewrite count_names_counts.
  set (base := Grid.getName grid).
  set (n := occurrences w base grids_).
  assert (Hplain : String.eqb base "" || (n >? 1)
                   = negb (negb (String.eqb base "") && (n <=? 1))).
  { rewrite Z.gtb_ltb, Z.leb_antisym. destruct (String.eqb base ""), (1 <? n); reflexivity. }
  rewrite Hplain.
  destruct (negb (String.eqb base "") && (n <=? 1)); cbn [negb].
  - split; [|split].
    + intros _ Hfree. cbn [uniquify]. rewrite bool_decide_eq_false_2 by exact Hfree.
      reflexivity.
    + discriminate.
    + intros name E. destruct (uniquify_form _ _ _ _ _ _ E) as [[-> Hf] | (Hu & k & Hk & ->)].
      * split; [exact Hf|]. left. split; reflexivity.
      * split; [apply (uniquify_Some _ _ _ _ _ _ E)|]. right. exists k. split; [lia|reflexivity].
  - split; [|split].
    + discriminate.
    + intros _ Hfree. cbn [uniquify]. rewrite bool_decide_eq_false_2 by exact Hfree.
      reflexivity.
    + intros name E. split; [apply (uniquify_Some _ _ _ _ _ _ E)|]. right.
      destruct (uniquify_form _ _ _ _ _ _ E) as [[-> Hf] | (Hu & k & Hk & ->)].
      * exists 0. split; [lia | reflexivity].
      * exists k. split; [lia | reflexivity].
Qed.

End DescriptorNames.

(** The two grids named "density" of the samples: the first is written as
    "density" with suffix 0. *)
Lemma descriptor_name_rule_witness :
  @io.descriptor_name Reference.helpers
    (io.count_names Sample.world0 [Some 10; Some 11]%nat) ∅ Sample.fog_grid
  = Some (Reference.addSuffix "density" 0).
Proof.
  exact (proj1 (proj2 (@descriptor_name_rule Reference.helpers Sample.world0
                         [Some 10; Some 11]%nat ∅ Sample.fog_grid))
           eq_refl ltac:(apply not_elem_of_empty)).
Defined.

(** ** The compression flags between two grids *)

Section RestoredCompression.

Import StreamState io.
Context `{Constants} `{Helpers} `{Collaborators}.

Lemma archive_flags_setDataCompression a w :
  archive_flags_set a (setDataCompression (compression a) w).
Proof.
  split.
  - rewrite strm_setDataCompression. unfold getDataCompression.
    cbn [set_iword iword]. rewrite upd_eq. apply uint32_long.
  - intros i Hi. apply metas_setDataCompression.
    rewrite getStreamMetadataPtr_setDataCompression in Hi. exact Hi.
Qed.

Lemma tail_world {A} (X : M A) (f : World -> World) (m : Machine) (x : A) :
  fst (bind X (fun st => bind (modify f) (fun _ => ret st)) m) = Ok x ->
  world (snd (bind X (fun st => bind (modify f) (fun _ => ret st)) m))
  = f (world (snd (X m))).
Proof.
  unfold bind, modify, ret. destruct (X m) as [[y|e|] m']; cbn [fst snd world];
    intros E; try discriminate; reflexivity.
Qed.

Lemma write_entry_flags a seekable nameCount st (p : option nat) m st' :
  fst (write_entry a seekable nameCount st p m) = Ok st' ->
  archive_flags_set a (world (snd (write_entry a seekable nameCount st p m))).
Proof.
  unfold write_entry. destruct st as [treeMap uniqueNames].
  intros E. rewrite (tail_world _ _ m st' E). apply archive_flags_setDataCompression.
Qed.

(** X22.  The flags a grid is written with do not outlast the grid: when
    [write] has put a (null or non-null) entry on the stream, the stream's
    data compression is the archive's again, although a level set or fog
    volume was written without [COMPRESS_ZIP]; so it is when the loop over
    a non-empty list of grids returns. *)
Theorem write_restores_compression (a : Archive) (seekable : bool)
    (nameCount : gmap string Z) (grids_ : list (option nat))
    (st st' : gmap nat GridDescriptor * gset string) (m : Machine)
    (Hgrids : grids_ <> [])
    (Hreturn : fst (write_entries a seekable nameCount st grids_ m) = Ok st') :
  let w' := world (snd (write_entries a seekable nameCount st grids_ m)) in
  getDataCompression (strm w') = uint32 (compression a)
  /\ forall i, getStreamMetadataPtr w' = Some i ->
               StreamMetadata.mCompression (metas w' i) = compression a.
Proof.
  cbv zeta. change (archive_flags_set a
                      (world (snd (write_entries a seekable nameCount st grids_ m)))).
  revert st m Hgrids Hreturn. induction grids_ as [|p rest IH]; intros st m Hgrids Hreturn;
    [congruence|].
  cbn [write_entries] in *. unfold bind in *.
  pose proof (write_entry_flags a seekable nameCount st p m) as Hentry.
  destruct (write_entry a seekable nameCount st p m) as [[st1|e|] m1];
    cbn [fst snd] in *; try discriminate.
  destruct rest as [|q rest'].
  - cbn [write_entries ret snd]. apply (Hentry st1). reflexivity.
  - apply IH; [discriminate | exact Hreturn].
Qed.

End RestoredCompression.

(** The sample fog volume, written without [COMPRESS_ZIP], and the flags of
    the stream afterwards. *)
Lemma write_restores_compression_witness :
  let run := @io.write_entries Reference.constants Reference.helpers
               SampleRun.collaborators Sample.archive0 true ∅ (∅, ∅) [Some 10%nat]
               SampleRun.machine0 in
  is_Some (match fst run with Ok st => Some st | _ => None end)
  /\ io.getDataCompression (strm (world (snd run))) = uint32 (io.compression Sample.archive0).
Proof.
  intros run.
  assert (Hne : [Some 10%nat] <> []) by discriminate.
  destruct (fst run) as [st'|e|] eqn:E; try (vm_compute in E; discriminate).
  split; [eexists; reflexivity|].
  exact (proj1 (@write_restores_compression Reference.constants Reference.helpers
                  SampleRun.collaborators Sample.archive0 true ∅ [Some 10%nat]
                  (∅, ∅) st' SampleRun.machine0 Hne E)).
Defined.

(** ** Instancing in [Archive::write] *)

Section WriteLoopInstancing.

Import StreamState io.
Context `{Constants} `{Helpers} `{Collaborators}.

Hypothesis Hsuffix : forall base n, addSuffix base n <> "".
Hypothesis Hext : forall g x c w, grid_kept g x w -> grid_kept g x (snd (ext c w)).

(** The descriptor names [write] makes are not empty. *)
Lemma descriptor_name_nonempty nameCount (uniqueNames : gset string) g name :
  descriptor_name nameCount uniqueNames g = Some name -> name <> "".
Proof.
  unfold descriptor_name. intros E. apply uniquify_form in E.
  destruct E as [[-> _] | (_ & k & _ & ->)]; [|apply Hsuffix].
  destruct (String.eqb_spec (Grid.getName g) "") as [He|He]; cbn [orb].
  - apply Hsuffix.
  - destruct (default 0 (nameCount !! Grid.getName g) >? 1); [apply Hsuffix | exact He].
Qed.

Lemma write_descriptor_gkept g x a seekable (treeMap : gmap nat GridDescriptor) name grid :
  preserves (grid_kept g x) (write_descriptor a seekable treeMap name grid).
Proof.
  unfold write_descriptor.
  apply preserves_bind; [apply preserves_gets|]. intros g0.
  destruct (mEnableInstancing a && _); [destruct (treeMap !! gtree g0)|];
    (apply preserves_bind; [|intros ?; apply preserves_ret]);
    first [ apply writeGridInstance_gkept; apply Hext
          | apply writeGrid_gkept; apply Hext ].
Qed.

(** One round of the second loop, spelled out. *)
Lemma write_entry_unfold a seekable nameCount (treeMap : gmap nat GridDescriptor)
    (uniqueNames : gset string) (p : option nat) (m : Machine) :
  write_entry a seekable nameCount (treeMap, uniqueNames) p m =
  match p with
  | Some grid =>
    match descriptor_name nameCount uniqueNames (grids (world m) grid) with
    | Some name =>
      match write_descriptor a seekable treeMap name grid m with
      | (Ok treeMap', m1) =>
        (Ok (treeMap', {[name]} ∪ uniqueNames),
         mkMachine (setDataCompression (compression a) (world m1)) (calls m1))
      | (Throw e, m1) => (Throw e, m1)
      | (Diverge, m1) => (Diverge, m1)
      end
    | None => (Diverge, m)
    end
  | None =>
    (Ok (treeMap, uniqueNames),
     mkMachine (setDataCompression (compression a) (world m)) (calls m))
  end.
Proof.
  unfold write_entry. destruct p as [grid|]; [|reflexivity].
  unfold bind at 1 2, gets. cbn [fst snd].
  destruct (descriptor_name nameCount uniqueNames (grids (world m) grid)) as [name|];
    [|reflexivity].
  unfold bind at 1.
  destruct (write_descriptor a seekable treeMap name grid m) as [[tm|e|] m1]; reflexivity.
Qed.

Variable gs : nat -> GridBase.
Variable bound : nat.

Lemma grids_kept_setDataCompression c w :
  grids_kept gs bound w -> grids_kept gs bound (setDataCompression c w).
Proof. intros Hw g Hg. apply gkept_setDataCompression, Hw, Hg. Qed.

Lemma recorded_in_insert (treeMap : gmap nat GridDescriptor)
    (recorded : gmap nat (nat * string)) t gd grid name :
  recorded_in gs treeMap recorded ->
  uniqueName gd = name -> name <> "" ->
  saveFloatAsHalf gd = Grid.saveFloatAsHalf (gs grid) ->
  recorded_in gs (<[t := gd]> treeMap) (<[t := (grid, name)]> recorded).
Proof.
  intros Hrec Hu Hn Hh t'. destruct (decide (t' = t)) as [->|Hne].
  - rewrite !lookup_insert_eq. repeat split; assumption.
  - rewrite !lookup_insert_ne by congruence. apply Hrec.
Qed.

(** One round of the loop follows the rule. *)
Lemma write_entry_rule a seekable nameCount (treeMap : gmap nat GridDescriptor)
    (uniqueNames : gset string) (recorded : gmap nat (nat * string))
    (p : option nat) (m : Machine) :
  (forall g, p = Some g -> (g < bound)%nat) ->
  grids_kept gs bound (world m) ->
  recorded_in gs treeMap recorded ->
  let r := fst (write_entry a seekable nameCount (treeMap, uniqueNames) p m) in
  let m' := snd (write_entry a seekable nameCount (treeMap, uniqueNames) p m) in
  (forall st', r = Ok st' ->
     grids_kept gs bound (world m')
     /\ exists l recorded',
          calls m' = calls m ++ l
          /\ recorded_in gs (fst st') recorded'
          /\ forall rest l2 final,
               spec_write_loop (mEnableInstancing a) seekable gs recorded' rest l2 final ->
               spec_write_loop (mEnableInstancing a) seekable gs recorded (p :: rest)
                 (l ++ l2) final)
  /\ (forall e, r = Throw e ->
        exists l,
          calls m' = calls m ++ l
          /\ forall rest,
               spec_write_loop (mEnableInstancing a) seekable gs recorded (p :: rest)
                 l None).
Proof.
  intros Hp Hkept Hrec. cbv zeta. rewrite write_entry_unfold.
  destruct p as [grid|]; cbn [fst snd world calls].
  2:{ split; [|intros e He; discriminate].
      intros st' Hst'. injection Hst' as <-.
      split; [apply grids_kept_setDataCompression, Hkept|].
      exists [], recorded. rewrite app_nil_r. split; [reflexivity|].
      split; [exact Hrec|]. intros rest l2 final Hloop. apply loop_null. exact Hloop. }
  assert (Hg : grids (world m) grid = gs grid) by (apply Hkept, Hp; reflexivity).
  destruct (descriptor_name nameCount uniqueNames (grids (world m) grid)) as [name|] eqn:Ename;
    [|cbn [fst snd]; split; intros ? ?; discriminate].
  pose proof (descriptor_name_nonempty _ _ _ _ Ename) as Hname.
  pose proof (write_descriptor_cases a seekable treeMap name grid m) as Hcases.
  cbv zeta in Hcases. rewrite Hg in Hcases. destruct Hcases as [Hinst Hprim].
  assert (Hkept' : grids_kept gs bound
                     (world (snd (write_descriptor a seekable treeMap name grid m)))).
  { intros g Hlt. apply write_descriptor_gkept. apply Hkept, Hlt. }
  pose proof (Hrec (gtree (gs grid))) as Hat.
  destruct (spec_instance_parent (mEnableInstancing a) gs recorded grid)
    as [[parent parentName]|] eqn:Espec.
  - (* an instance *)
    unfold spec_instance_parent in Espec.
    destruct (recorded !! gtree (gs grid)) as [[pg pn]|] eqn:Erec; [|discriminate].
    assert (Hen : mEnableInstancing a = true)
      by (destruct (mEnableInstancing a); [reflexivity | discriminate]).
    rewrite Hen in Espec. cbn [andb] in Espec.
    destruct (Bool.eqb (Grid.saveFloatAsHalf (gs pg)) (Grid.saveFloatAsHalf (gs grid)))
      eqn:Hhalf; [|discriminate].
    injection Espec as -> ->.
    apply Bool.eqb_prop in Hhalf.
    destruct (treeMap !! gtree (gs grid)) as [pd|] eqn:Etm; [|destruct Hat].
    destruct Hat as (Hu & Hne & Hh).
    specialize (Hinst pd Hen eq_refl (eq_trans Hh Hhalf)). cbv zeta in Hinst.
    rewrite Hu in Hinst. destruct Hinst as (_ & Hmark & Hfirst & Hall).
    specialize (Hmark Hne).
    assert (Espec' : spec_instance_parent (mEnableInstancing a) gs recorded grid
                     = Some (parent, parentName)).
    { unfold spec_instance_parent. rewrite Erec, Hhalf, Bool.eqb_reflx, Hen. reflexivity. }
    destruct (write_descriptor a seekable treeMap name grid m) as [[tm|e|] m1];
      cbn [fst snd world calls] in *.
    + split; [|intros e He; discriminate].
      intros st' Hst'. injection Hst' as <-.
      split; [apply grids_kept_setDataCompression, Hkept'|].
      destruct (Hall tm eq_refl) as (-> & gd' & Hcalls).
      eexists _, recorded. split; [exact Hcalls|]. split; [exact Hrec|].
      intros rest l2 final Hloop.
      apply loop_instance with (parent := parent); assumption.
    + split; [intros st' Hst'; discriminate|].
      intros e' _. destruct Hfirst as (l & Hl). eexists. split; [exact Hl|].
      intros rest. apply loop_instance_thrown with (parent := parent); assumption.
    + split; intros ? ?; discriminate.
  - (* a primary grid *)
    assert (Hcond : mEnableInstancing a = false
                    \/ treeMap !! gtree (gs grid) = None
                    \/ exists pd, treeMap !! gtree (gs grid) = Some pd
                                  /\ saveFloatAsHalf pd <> Grid.saveFloatAsHalf (gs grid)).
    { unfold spec_instance_parent in Espec.
      destruct (recorded !! gtree (gs grid)) as [[pg pn]|] eqn:Erec;
        destruct (treeMap !! gtree (gs grid)) as [pd|] eqn:Etm;
        try (destruct Hat; fail).
      - destruct (mEnableInstancing a); [|left; reflexivity].
        right. right. exists pd. split; [reflexivity|].
        destruct Hat as (_ & _ & Hh). rewrite Hh. cbn [andb] in Espec.
        intros Heq. rewrite Heq, Bool.eqb_reflx in Espec. discriminate.
      - right. left. reflexivity. }
    specialize (Hprim Hcond). destruct Hprim as (_ & Hmark & Hfirst & Hall).
    destruct (write_descriptor a seekable treeMap name grid m) as [[tm|e|] m1];
      cbn [fst snd world calls] in *.
    + split; [|intros e He; discriminate].
      intros st' Hst'. injection Hst' as <-.
      split; [apply grids_kept_setDataCompression, Hkept'|].
      destruct (Hall tm eq_refl) as (gd' & copyOfGrid & -> & Hu & _ & Hh & Hcalls).
      eexists _, (<[gtree (gs grid) := (grid, name)]> recorded).
      split; [exact Hcalls|].
      split; [apply recorded_in_insert; assumption|].
      intros rest l2 final Hloop.
      apply loop_primary; assumption.
    + split; [intros st' Hst'; discriminate|].
      intros e' _. destruct Hfirst as (l & Hl). eexists. split; [exact Hl|].
      intros rest. apply loop_primary_thrown; assumption.
    + split; intros ? ?; discriminate.
Qed.

Lemma grids_kept_same w w' :
  grids w' = grids w -> (brk w <= brk w')%nat ->
  grids_kept gs bound w -> grids_kept gs bound w'.
Proof. intros Hg Hb Hw g Hlt. apply (gkept_same g (gs g) w w' Hg Hb), Hw, Hlt. Qed.

(** The whole loop follows the rule. *)
Lemma write_entries_rule a seekable nameCount (grids_ : list (option nat)) :
  forall (treeMap : gmap nat GridDescriptor) (uniqueNames : gset string)
         (recorded : gmap nat (nat * string)) (m : Machine),
  (forall g, Some g ∈ grids_ -> (g < bound)%nat) ->
  grids_kept gs bound (world m) ->
  recorded_in gs treeMap recorded ->
  let r := fst (write_entries a seekable nameCount (treeMap, uniqueNames) grids_ m) in
  let m' := snd (write_entries a seekable nameCount (treeMap, uniqueNames) grids_ m) in
  (forall st', r = Ok st' ->
     exists l recorded',
       calls m' = calls m ++ l
       /\ recorded_in gs (fst st') recorded'
       /\ spec_write_loop (mEnableInstancing a) seekable gs recorded grids_ l
            (Some recorded'))
  /\ (forall e, r = Throw e ->
        exists l,
          calls m' = calls m ++ l
          /\ spec_write_loop (mEnableInstancing a) seekable gs recorded grids_ l None).
Proof.
  induction grids_ as [|p rest IH]; intros treeMap uniqueNames recorded m Hin Hkept Hrec;
    cbv zeta; cbn [write_entries].
  - cbn [ret fst snd]. split; [|intros e He; discriminate].
    intros st' Hst'. injection Hst' as <-. exists [], recorded.
    rewrite app_nil_r. split; [reflexivity|]. split; [exact Hrec | apply loop_end].
  - pose proof (write_entry_rule a seekable nameCount treeMap uniqueNames recorded p m)
      as Hentry.
    cbv zeta in Hentry.
    destruct Hentry as [Hok Hthrow]; [| exact Hkept | exact Hrec |].
    { intros g ->. apply Hin. left. }
    unfold bind.
    destruct (write_entry a seekable nameCount (treeMap, uniqueNames) p m)
      as [[[treeMap1 uniqueNames1]|e|] m1]; cbn [fst snd] in *.
    + destruct (Hok _ eq_refl) as (Hkept1 & l1 & recorded1 & Hl1 & Hrec1 & Hstep).
      cbn [fst] in Hrec1.
      destruct (IH treeMap1 uniqueNames1 recorded1 m1) as [Hok2 Hthrow2];
        [intros g Hg; apply Hin; right; exact Hg | exact Hkept1 | exact Hrec1 |].
      cbv zeta in Hok2, Hthrow2. split.
      * intros st' Hst'. destruct (Hok2 st' Hst') as (l2 & recorded2 & Hl2 & Hrec2 & Hloop).
        exists (l1 ++ l2), recorded2. rewrite Hl2, Hl1, <- app_assoc.
        split; [reflexivity|]. split; [exact Hrec2|]. apply Hstep. exact Hloop.
      * intros e He. destruct (Hthrow2 e He) as (l2 & Hl2 & Hloop).
        exists (l1 ++ l2). rewrite Hl2, Hl1, <- app_assoc.
        split; [reflexivity|]. apply Hstep. exact Hloop.
    + split; [intros st' Hst'; discriminate|].
      intros e' _. destruct (Hthrow e eq_refl) as (l & Hl & Hloop).
      exists l. split; [exact Hl | apply Hloop].
    + split; intros ? ?; discriminate.
Qed.

End WriteLoopInstancing.

Section WriteInstancingRule.

Import StreamState io.
Context `{Constants} `{Helpers} `{Collaborators}.

Lemma writeHeader_keeps_instancing a u seed seekable ost :
  mEnableInstancing (fst (writeHeader a u seed seekable ost)) = mEnableInstancing a.
Proof. unfold writeHeader. cbn [fst]. destruct a. reflexivity. Qed.

(** C2.  During [write], every non-null grid is written by the rule of the
    specification: as an instance exactly when instancing is enabled, the
    grid's tree pointer is in the map of the grids written before it as
    primary grids, and the half-float flags of the two grids are equal.  The
    descriptor written then names the descriptor of the grid in the map as
    instance parent, and the calls are those of [writeGridInstance].
    Otherwise the grid is written as a primary grid, by the calls of
    [writeGrid], and its tree pointer is recorded in the map.  When [write]
    returns, this holds of the whole log after the file metadata, and the
    tree map [write] has built agrees with the map of the specification;
    when [write] leaves by exception, it holds up to the grid whose writer
    threw.  The grids of the list exist on entry, the collaborators leave
    grid objects as they are, and [GridDescriptor::addSuffix] never makes
    an empty name. *)
Theorem write_instancing (a : Archive) (u : Indeterminate) (seed : nat -> option Z)
    (grids_ : list (option nat)) (seekable : bool) (metadata_ : MetaMap) (m : Machine)
    (Hsuffix : forall base n, addSuffix base n <> "")
    (Hext : forall g x c w, grid_kept g x w -> grid_kept g x (snd (ext c w)))
    (Hgrids : forall g, Some g ∈ grids_ -> (g < brk (world m))%nat) :
  let r := fst (write a u seed grids_ seekable metadata_ m) in
  let m' := snd (write a u seed grids_ seekable metadata_ m) in
  let rule := spec_write_loop (mEnableInstancing a) seekable (grids (world m)) ∅ grids_ in
  (forall a' treeMap, r = Ok (a', treeMap) ->
     exists l recorded,
       calls m' = calls m ++ MetaMap_writeMeta metadata_ :: l
       /\ rule l (Some recorded)
       /\ recorded_in (grids (world m)) treeMap recorded)
  /\ (forall e, r = Throw e ->
        exists l,
          calls m' = calls m ++ MetaMap_writeMeta metadata_ :: l
          /\ (l = [] \/ rule l None)).
Proof.
  cbv zeta. unfold write. rewrite bind_gets.
  set (gs := grids (world m)). set (bound := brk (world m)).
  assert (Hext' : forall c w, grids_kept gs bound w -> grids_kept gs bound (snd (ext c w))).
  { intros c w Hw g Hg. apply Hext, Hw, Hg. }
  assert (Hrest : forall M, grids_kept gs bound (world M) ->
    let run := bind (modify (setDataCompression (compression a))) (fun _ =>
      bind (modify (setWriteGridStatsMetadata (isGridStatsMetadataEnabled a))) (fun _ =>
      bind (state (fun w =>
              let '(a, ost) := writeHeader a u seed seekable (strm w) in
              (a, set_strm ost w))) (fun a =>
      bind (call (MetaMap_writeMeta metadata_)) (fun _ =>
      bind (modify (fun w =>
              set_strm (ostream_write
                          (le_encode 4 (Z.of_nat (length (filter is_Some grids_))))
                          (strm w)) w)) (fun _ =>
      bind (gets (fun w => count_names w grids_)) (fun nameCount =>
      bind (write_entries a seekable nameCount (∅, ∅) grids_) (fun st =>
      ret (a, fst st)))))))) M in
    (forall a' treeMap, fst run = Ok (a', treeMap) ->
       exists l recorded,
         calls (snd run) = calls M ++ MetaMap_writeMeta metadata_ :: l
         /\ spec_write_loop (mEnableInstancing a) seekable gs ∅ grids_ l (Some recorded)
         /\ recorded_in gs treeMap recorded)
    /\ (forall e, fst run = Throw e ->
          exists l,
            calls (snd run) = calls M ++ MetaMap_writeMeta metadata_ :: l
            /\ (l = [] \/ spec_write_loop (mEnableInstancing a) seekable gs ∅ grids_ l None))).
  { intros M HM. cbv zeta. do 2 rewrite bind_modify. rewrite bind_state.
    cbn [world calls].
    match goal with
    | |- context [writeHeader a u seed seekable (strm ?W)] =>
      assert (HW : grids_kept gs bound W)
        by (apply (grids_kept_same gs bound (setDataCompression (compression a) (world M)));
            [ unfold setWriteGridStatsMetadata; rewrite grids_on_meta; reflexivity
            | unfold setWriteGridStatsMetadata; rewrite brk_on_meta; constructor
            | apply grids_kept_setDataCompression; exact HM ]);
      pose proof (writeHeader_keeps_instancing a u seed seekable (strm W)) as Hen;
      destruct (writeHeader a u seed seekable (strm W)) as [a1 ost];
      set (W1 := W) in *
    end.
    cbn [fst snd] in *. clearbody W1.
    rewrite bind_call. cbn [world calls].
    pose proof (Hext' (MetaMap_writeMeta metadata_) (set_strm ost W1)) as HW2.
    destruct (ext (MetaMap_writeMeta metadata_) (set_strm ost W1)) as [[[]|e|] W2];
      cbn [fst snd calls] in *.
    2:{ split; [intros ? ? ?; discriminate|]. intros e' _. exists [].
        split; [reflexivity | left; reflexivity]. }
    2:{ split; intros; discriminate. }
    rewrite bind_modify, bind_gets. cbn [world calls].
    match goal with
    | |- context [bind ?c (fun st => ret (@?h st)) ?M0] =>
      destruct (bind_then_ret c h M0) as [-> Hret]; set (M2 := M0) in *
    end.
    assert (HM2 : grids_kept gs bound (world M2)).
    { unfold M2. cbn [world].
      apply (grids_kept_same gs bound W2); [reflexivity | constructor |].
      apply HW2. revert HW. apply grids_kept_same; [reflexivity | constructor]. }
    match goal with
    | |- context [write_entries a1 seekable ?nc (∅, ∅) grids_ M2] =>
      destruct (write_entries_rule Hsuffix Hext gs bound a1 seekable nc grids_
                  ∅ ∅ ∅ M2 Hgrids HM2) as [Hok Hthrow]
    end.
    { intros t. rewrite !lookup_empty. exact I. }
    cbv zeta in Hok, Hthrow. rewrite Hen in Hok, Hthrow.
    assert (Hlog : forall l, calls M2 ++ l
                             = calls M ++ MetaMap_writeMeta metadata_ :: l).
    { intros l. unfold M2. cbn [calls]. rewrite <- app_assoc. reflexivity. }
    split.
    - intros a' treeMap Hr. destruct (Hret _ Hr) as (st' & Hst' & Heq).
      injection Heq as -> ->.
      destruct (Hok st' Hst') as (l & recorded & Hl & Hrec & Hloop).
      exists l, recorded. rewrite Hl, Hlog. repeat split; assumption.
    - intros e Hr.
      assert (Hr' : fst (write_entries a1 seekable
                           (count_names (world M2) grids_) (∅, ∅) grids_ M2) = Throw e).
      { revert Hr. unfold bind, ret.
        destruct (write_entries a1 seekable _ (∅, ∅) grids_ M2) as [[st|e0|] M3];
          cbn [fst]; intros Hr; [discriminate | injection Hr as ->; reflexivity | discriminate]. }
      destruct (Hthrow e Hr') as (l & Hl & Hloop).
      exists l. rewrite Hl, Hlog. split; [reflexivity | right; exact Hloop]. }
  assert (Hstart : grids_kept gs bound (world m)).
  { intros g Hg. split; [reflexivity | exact Hg]. }
  destruct (getStreamMetadataPtr (world m)).
  - rewrite bind_ret. apply Hrest. exact Hstart.
  - rewrite bind_modify.
    match goal with
    | |- context [mkMachine ?W (calls m)] =>
      specialize (Hrest (mkMachine W (calls m)))
    end.
    cbn [world calls] in Hrest. apply Hrest.
    unfold alloc. cbn [fst snd]. rewrite setStreamMetadataPtr_false.
    revert Hstart. apply grids_kept_same; [reflexivity | cbn; lia].
Qed.

End WriteInstancingRule.

Lemma Reference_addSuffix_nonempty (base : string) (n : Z) :
  Reference.addSuffix base n <> "".
Proof. unfold Reference.addSuffix. destruct base; discriminate. Qed.

(** The sample archive written whole, as in [write_sample_descriptors]:
    grid 10, a null entry, grid 11 (same tree and half-float flag as grid
    10), grid 12 (another tree), grid 10 again. *)
Lemma write_instancing_witness :
  let grids_ := [Some 10; None; Some 11; Some 12; Some 10]%nat in
  let run := @io.write Reference.constants Reference.helpers SampleRun.collaborators
               Sample.archive0 SampleHeader.indeterminate0
               (fun i => Some (Z.of_nat i + 77)) grids_ true
               (gmeta Sample.fog_grid) SampleRun.machine0 in
  (forall g, Some g ∈ grids_ -> (g < brk (world SampleRun.machine0))%nat)
  /\ (exists x, fst run = Ok x)
  /\ exists l recorded,
       calls (snd run) = MetaMap_writeMeta (gmeta Sample.fog_grid) :: l
       /\ @spec_write_loop Reference.helpers true true (grids (world SampleRun.machine0))
            ∅ grids_ l (Some recorded).
Proof.
  intros grids_ run.
  assert (Hgrids : forall g, Some g ∈ grids_ -> (g < brk (world SampleRun.machine0))%nat).
  { intros g Hg. unfold grids_ in Hg.
    repeat (apply elem_of_cons in Hg; destruct Hg as [Hg|Hg];
            [try discriminate; injection Hg as ->; vm_compute; lia|]).
    apply elem_of_nil in Hg. destruct Hg. }
  assert (Hok : exists x, fst run = Ok x) by (eexists; vm_compute; reflexivity).
  split; [exact Hgrids|]. split; [exact Hok|].
  destruct Hok as [[a' treeMap] Hok].
  destruct (proj1 (@write_instancing Reference.constants Reference.helpers
                     SampleRun.collaborators Sample.archive0
                     SampleHeader.indeterminate0 (fun i => Some (Z.of_nat i + 77))
                     grids_ true (gmeta Sample.fog_grid) SampleRun.machine0
                     Reference_addSuffix_nonempty
                     (fun g x c w => SampleRun_ext_gkept g x c w) Hgrids)
                  a' treeMap Hok)
    as (l & recorded & Hl & Hloop & _).
  exists l, recorded. split; [exact Hl | exact Hloop].
Defined.
